(** * BookingModel: the meeting-room booking backend

    A shallow embedding of the Express controllers of the backend
    (bookingController.js, adminController.js, otpController.js,
    roomController.js and the route middleware) over an explicit model of the
    relational store they talk to, followed by the properties of the booking
    life cycle and of the OTP flow.

    Conventions of the embedding.
    - A table is the list of its rows, in insertion order; nothing in the
      source declares a key, so duplicates are representable.
    - A timestamp is the number of milliseconds since the epoch, as the value
      of a JavaScript [Date]; a date field of a request body is [Some t] for a
      non-empty string that [new Date] parses to the instant [t].
    - A string is the sequence of its UTF-16 code units.  The handlers only
      compare, concatenate and store strings, and carry them as [string], one
      character for each code unit (so code units up to 255); the patterns
      and [trim] of the routes are defined on code units, over their whole
      range.
    - A request handler is a computation in the monad [M]: it threads the
      connection's view of the store, the open transaction, and the log of
      driver calls and mail attempts, and it may throw.  What the environment
      decides (whether the pool was injected, which driver call rejects,
      whether mail is configured and delivered, the clocks, the random
      sources) is read from [Env]. *)

From Stdlib Require Import ZArith List String Ascii Bool Lia Sorted Permutation.
Import ListNotations.

Open Scope string_scope.
Open Scope Z_scope.
Open Scope list_scope.

(** ** JavaScript values of the request bodies *)

(** [!x] for a numeric field: absent and [0] are both falsy. *)
Definition truthyZ (x : option Z) : bool :=
  match x with
  | Some n => negb (n =? 0)
  | None => false
  end.

(** [!x] for a string field: absent and the empty string are both falsy. *)
Definition truthyS (x : option string) : bool :=
  match x with
  | Some s => negb (String.eqb s "")
  | None => false
  end.

(** [!x] for a date field (a non-empty date string is truthy). *)
Definition truthyD (x : option Z) : bool :=
  match x with
  | Some _ => true
  | None => false
  end.

(** [x || null] on a number: a falsy value is stored as NULL. *)
Definition orNullZ (x : option Z) : option Z :=
  if truthyZ x then x else None.

(** [x || null] on a string. *)
Definition orNullS (x : option string) : option string :=
  if truthyS x then x else None.

(** [x || d] on a string. *)
Definition orS (x : option string) (d : string) : string :=
  match x with
  | Some s => if String.eqb s "" then d else s
  | None => d
  end.

(** A value interpolated in a template literal. *)
Definition tpl (x : option string) : string :=
  match x with
  | Some s => s
  | None => "undefined"
  end.

(** [Number.prototype.toString] on an integer, in base ten. *)
Definition digitChar (d : Z) : ascii := ascii_of_nat (48 + Z.to_nat d).

Fixpoint digitsFuel (fuel : nat) (n : Z) (acc : string) : string :=
  match fuel with
  | O => acc
  | S f =>
      let acc' := String (digitChar (n mod 10)) acc in
      if n <? 10 then acc' else digitsFuel f (n / 10) acc'
  end.

Definition digits (n : Z) : string :=
  digitsFuel (S (Z.to_nat (Z.log2 n))) n "".

Definition toString (n : Z) : string :=
  if n <? 0 then String.append "-" (digits (- n)) else digits n.

Arguments toString : simpl never.

(** ** The regular expressions of the routes *)

(** What a pattern or [trim] reads of a string: its UTF-16 code units. *)
Definition codeUnits (s : string) : list N :=
  map N_of_ascii (list_ascii_of_string s).

(** [\s], which is also what [trim] strips: the white space and the line
    terminators of ECMAScript, that is U+0009 to U+000D, U+0020, U+00A0,
    U+1680, U+2000 to U+200A, U+2028, U+2029, U+202F, U+205F, U+3000 and
    U+FEFF. *)
Definition isSpace (c : N) : bool :=
  (((9 <=? c) && (c <=? 13)) || (c =? 32) || (c =? 160) || (c =? 5760)
   || ((8192 <=? c) && (c <=? 8202)) || (c =? 8232) || (c =? 8233)
   || (c =? 8239) || (c =? 8287) || (c =? 12288) || (c =? 65279))%N.

(** The code units of [@] and of the dot. *)
Definition atSign : N := 64.

Definition fullStop : N := 46.

(** [[^\s@]] *)
Definition plain (c : N) : bool :=
  negb (isSpace c) && negb (c =? atSign)%N.

(** [[^\s@]+$] *)
Fixpoint plainToEnd (s : list N) : bool :=
  match s with
  | [] => false
  | [c] => plain c
  | c :: s' => plain c && plainToEnd s'
  end.

(** [[^\s@]+\.[^\s@]+$], with [started] once the first class has taken a
    character: at a dot the matcher tries the rest as the last class and
    otherwise keeps the dot in the first one. *)
Fixpoint domainToEnd (started : bool) (s : list N) : bool :=
  match s with
  | [] => false
  | c :: s' =>
      (started && (c =? fullStop)%N && plainToEnd s')
      || (plain c && domainToEnd true s')
  end.

(** [^[^\s@]+@[^\s@]+\.[^\s@]+$], with [started] once the first class has
    taken a character. *)
Fixpoint localToEnd (started : bool) (s : list N) : bool :=
  match s with
  | [] => false
  | c :: s' =>
      if (c =? atSign)%N then started && domainToEnd false s'
      else plain c && localToEnd true s'
  end.

(** The [emailRegex] constant of the route files, on the code units of the
    tested string. *)
Definition emailRegex (s : list N) : bool := localToEnd false s.

(** [s.trim().length === 0] *)
Definition blank (s : list N) : bool := forallb isSpace s.

(** ** The relational store *)

Module Room.
Record t := mk {
  id : Z;
  name : string;
  capacity : Z;
  features : option string;
  image : option string
}.
End Room.

Inductive Status := confirmed | cancelled.

Definition isConfirmed (s : Status) : bool :=
  match s with confirmed => true | cancelled => false end.

Module Booking.
Record t := mk {
  event_id : string;
  room_id : Z;
  room_name : option string;
  subject : string;
  description : option string;
  organizer_email : string;
  start_datetime : Z;
  end_datetime : Z;
  total_participants : Z;
  internal_participants : option Z;
  external_participants : option Z;
  meeting_type : string;
  attendee_emails : string;
  status : Status;
  created_at : option Z;
  updated_at : option Z;
  cancelled_at : option Z
}.
End Booking.

Module OtpRow.
Record t := mk {
  email : string;
  otp : string;
  expires_at : Z;
  created_at : Z;
  is_verified : bool
}.
End OtpRow.

Record Store := mkStore {
  rooms : list Room.t;
  room_bookings : list Booking.t;
  otp_storage : list OtpRow.t
}.

Definition withBookings (s : Store) (bs : list Booking.t) : Store :=
  {| rooms := rooms s; room_bookings := bs; otp_storage := otp_storage s |}.

Definition withOtps (s : Store) (os : list OtpRow.t) : Store :=
  {| rooms := rooms s; room_bookings := room_bookings s; otp_storage := os |}.

Definition withRooms (s : Store) (rs : list Room.t) : Store :=
  {| rooms := rs; room_bookings := room_bookings s; otp_storage := otp_storage s |}.

(** ** Replies *)

(** The JSON body of a reply is the list of its keys; a key whose value is
    [undefined] is not serialised. *)
Inductive Json :=
| JNull
| JBool (b : bool)
| JNum (n : Z)
| JStr (s : string)
| JBookings (rows : list Booking.t)
| JError (msg : string).     (* an error object, as the driver serialises it *)

Record Reply := mkReply {
  code : Z;
  body : list (string * Json)
}.

(** [key: cond ? value : undefined] *)
Definition optKey (k : string) (v : option string) : list (string * Json) :=
  match v with
  | Some s => [(k, JStr s)]
  | None => []
  end.

Fixpoint field (k : string) (o : list (string * Json)) : option Json :=
  match o with
  | [] => None
  | (k', v) :: o' => if String.eqb k k' then Some v else field k o'
  end.

(** ** The environment and the handler monad *)

Inductive Conn := OnPool | OnTransaction.

Inductive Stmt :=
| SelectRoomCapacity | CountOverlaps | InsertBooking
| SelectBooking | SelectRoom | CountOtherOverlaps | UpdateBooking
| SelectOwnBooking | CancelBooking
| SelectAllBookings | SelectBookingsByRoomAndDate | SelectBookingsByEmail
| MergeOtp | SelectOtp | VerifyOtp | SelectVerifiedOtp | DeleteExpiredOtps
| SelectRooms | InsertRoom | SelectRoomImage | UpdateRoom | DeleteRoom.

Inductive Event :=
| TxBegin
| TxCommit
| TxRollback
| Sql (q : Stmt) (c : Conn)
| Mail (to subject : string) (delivered : bool)
| Unlink (path : string).

Record Env := mkEnv {
  dbPool : bool;                     (* the pool was injected with setDbPool *)
  dbFault : nat -> option string;    (* the n-th driver call of the request rejects, with this message *)
  mailConfigured : bool;             (* SENDER_EMAIL, CLIENT_ID, CLIENT_SECRET and TENANT_ID are all set *)
  graphClient : bool;                (* the Graph client of the admin and OTP controllers was built at start-up *)
  mailFault : option string;         (* the token request or the Graph call rejects, with this message *)
  development : bool;                (* NODE_ENV === 'development' *)
  globalCrypto : bool;               (* the runtime defines the global [crypto] *)
  randomUUID : string;               (* crypto.randomUUID() *)
  entropy : Z;                       (* the random source behind crypto.randomInt *)
  clock : nat -> Z;                  (* the n-th reading of the server's clock by the request *)
  getutcdate : Z;                    (* GETUTCDATE() of the store *)
  scopeIdentity : Z                  (* the identity the store gives the next room it inserts *)
}.

Record World := mkWorld {
  db : Store;                  (* the store as the request's connection sees it *)
  snapshot : option Store;     (* the store at BEGIN while a transaction is open *)
  rolledBack : bool;           (* transaction.rolledBack *)
  calls : nat;                 (* driver calls issued so far *)
  log : list Event
}.

Definition initWorld (s : Store) : World :=
  {| db := s; snapshot := None; rolledBack := false; calls := O; log := [] |}.

Inductive Res (A : Type) :=
| Val (a : A)
| Exn (msg : string).
Arguments Val {A} a.
Arguments Exn {A} msg.

Definition M (A : Type) : Type := World -> Res A * World.

Definition ret {A} (a : A) : M A := fun w => (Val a, w).

Definition bind {A B} (m : M A) (k : A -> M B) : M B :=
  fun w =>
    match m w with
    | (Val a, w') => k a w'
    | (Exn e, w') => (Exn e, w')
    end.

Definition throw {A} (msg : string) : M A := fun w => (Exn msg, w).

(** [try { m } catch (error) { h error.message }] *)
Definition tryCatch {A} (m : M A) (h : string -> M A) : M A :=
  fun w =>
    match m w with
    | (Val a, w') => (Val a, w')
    | (Exn e, w') => h e w'
    end.

Declare Scope handler_scope.
Delimit Scope handler_scope with handler.
Notation "x <- m ;; k" := (bind m (fun x => k))
  (at level 61, m at next level, right associativity) : handler_scope.
Notation "m ;;; k" := (bind m (fun _ => k))
  (at level 61, right associativity) : handler_scope.
Open Scope handler_scope.

Definition emit (e : Event) (w : World) : World :=
  {| db := db w; snapshot := snapshot w; rolledBack := rolledBack w;
     calls := calls w; log := log w ++ [e] |}.

Definition called (w : World) : World :=
  {| db := db w; snapshot := snapshot w; rolledBack := rolledBack w;
     calls := S (calls w); log := log w |}.

Definition setDb (s : Store) (w : World) : World :=
  {| db := s; snapshot := snapshot w; rolledBack := rolledBack w;
     calls := calls w; log := log w |}.

Section Driver.
Variable env : Env.

(** One awaited call of the mssql driver: it rejects when the environment
    says so, and otherwise runs [f] on the store. *)
Definition driver {A} (e : Event) (f : World -> A * World) : M A :=
  fun w =>
    match dbFault env (calls w) with
    | Some msg => (Exn msg, called w)
    | None => let (a, w') := f (called w) in (Val a, emit e w')
    end.

(** [await request.query(...)] reading the store. *)
Definition query {A} (q : Stmt) (c : Conn) (f : Store -> A) : M A :=
  driver (Sql q c) (fun w => (f (db w), w)).

(** [await request.query(...)] writing the store; the result is what the
    handler reads from the driver's answer. *)
Definition exec {A} (q : Stmt) (c : Conn) (f : Store -> A * Store) : M A :=
  driver (Sql q c) (fun w => let (a, s) := f (db w) in (a, setDb s w)).

(** [await transaction.begin()] *)
Definition begin : M unit :=
  driver TxBegin (fun w =>
    (tt, {| db := db w; snapshot := Some (db w); rolledBack := false;
            calls := calls w; log := log w |})).

(** [await transaction.commit()] *)
Definition commit : M unit :=
  driver TxCommit (fun w =>
    (tt, {| db := db w; snapshot := None; rolledBack := rolledBack w;
            calls := calls w; log := log w |})).

(** [await transaction.rollback()]: the driver rejects when no transaction
    is open. *)
Definition rollback : M unit :=
  fun w =>
    match snapshot w with
    | Some s =>
        driver TxRollback (fun w =>
          (tt, {| db := s; snapshot := None; rolledBack := true;
                  calls := calls w; log := log w |})) w
    | None => (Exn "Transaction has not begun. Call begin() first.", called w)
    end.
End Driver.

(** The store a handler leaves behind: statements of a transaction that was
    neither committed nor rolled back are not part of it. *)
Definition committed (w : World) : Store :=
  match snapshot w with
  | Some s => s
  | None => db w
  end.

(** The outcome of a handler on a store: its reply (or the error it let
    escape) and the world it leaves. *)
Definition run {A} (h : M A) (s : Store) : Res A * World := h (initWorld s).

Definition storeAfter {A} (o : Res A * World) : Store := committed (snd o).

Definition replyOf {A} (o : Res A * World) : Res A := fst o.

Definition traceOf {A} (o : Res A * World) : list Event := log (snd o).

(** The status code of a reply, when the handler produced one. *)
Definition codeOf (r : Res Reply) : option Z :=
  match r with
  | Val x => Some (code x)
  | Exn _ => None
  end.

(** [error.message || fallback] *)
Definition orMsg (msg fallback : string) : string :=
  if String.eqb msg "" then fallback else msg.

Definition failure (c : Z) (msg : string) : Reply :=
  {| code := c; body := [("success", JBool false); ("message", JStr msg)] |}.

(** ** controllers/bookingController.js *)

Module bookingController.

Record Body := mkBody {
  room_id : option Z;
  room_name : option string;
  subject : option string;
  description : option string;
  organizer_email : option string;
  start_datetime : option Z;
  end_datetime : option Z;
  total_participants : option Z;
  internal_participants : option Z;
  external_participants : option Z;
  meeting_type : option string;
  attendee_emails : option string
}.

(** The interval test of every availability query:
    [start_datetime < @end AND end_datetime > @start]. *)
Definition overlaps (r : Booking.t) (start end_ : Z) : bool :=
  (Booking.start_datetime r <? end_) && (Booking.end_datetime r >? start).

Section Handlers.
Variable env : Env.

(** Send email using Microsoft Graph API; the HTML body is presentation
    only and is left out of the mail event. *)
Definition sendEmail (toEmail subject : string) : M unit :=
  if negb (mailConfigured env) then ret tt
  else
    fun w =>
      match mailFault env with
      | Some _ => (Exn "Failed to send email notification.", emit (Mail toEmail subject false) w)
      | None => (Val tt, emit (Mail toEmail subject true) w)
      end.

Definition poolMissing : Reply :=
  {| code := 500; body := [("message", JStr "Database connection not available")] |}.

Definition serverError (msg fallback : string) : Reply :=
  {| code := 500;
     body := [("success", JBool false); ("message", JStr (orMsg msg fallback))]
             ++ optKey "error" (if development env then Some msg else None) |}.

(** SELECT capacity FROM rooms WHERE id = @roomId *)
Definition selectCapacity (roomId : Z) (s : Store) : list Z :=
  map Room.capacity (filter (fun r => Room.id r =? roomId) (rooms s)).

(** SELECT COUNT( * ) FROM room_bookings WHERE room_id = @roomId AND
    status = 'confirmed' AND (start_datetime < @end_datetime AND
    end_datetime > @start_datetime) *)
Definition countOverlaps (roomId start end_ : Z) (s : Store) : nat :=
  List.length (filter (fun r => (Booking.room_id r =? roomId)
                           && isConfirmed (Booking.status r)
                           && overlaps r start end_)
                 (room_bookings s)).

Definition newBooking (b : Body) (roomId : Z) (subject organizer : string)
    (start end_ total : Z) : Booking.t :=
  {| Booking.event_id := randomUUID env;
     Booking.room_id := roomId;
     Booking.room_name := room_name b;
     Booking.subject := subject;
     Booking.description := orNullS (description b);
     Booking.organizer_email := organizer;
     Booking.start_datetime := start;
     Booking.end_datetime := end_;
     Booking.total_participants := total;
     Booking.internal_participants := orNullZ (internal_participants b);
     Booking.external_participants := orNullZ (external_participants b);
     Booking.meeting_type := orS (meeting_type b) "in-person";
     Booking.attendee_emails := orS (attendee_emails b) "[]";
     Booking.status := confirmed;
     Booking.created_at := Some (clock env 0);
     Booking.updated_at := None;
     Booking.cancelled_at := None |}.

(** INSERT INTO room_bookings (...) VALUES (...) *)
Definition insertBooking (r : Booking.t) (s : Store) : unit * Store :=
  (tt, withBookings s (room_bookings s ++ [r])).

Definition createBooking (b : Body) : M Reply :=
  match room_id b, subject b, organizer_email b,
        start_datetime b, end_datetime b, total_participants b with
  | Some roomId, Some subject, Some organizer, Some start, Some end_, Some total =>
    if (roomId =? 0) || String.eqb subject "" || String.eqb organizer "" || (total =? 0)
    then ret (failure 400 "Missing required booking fields.")
    else
      tryCatch
        (if negb (dbPool env) then ret poolMissing
         else
           roomCheck <- query env SelectRoomCapacity OnPool (selectCapacity roomId) ;;
           match roomCheck with
           | [] => ret (failure 404 "Room not found.")
           | roomCapacity :: _ =>
             if total >? roomCapacity
             then ret (failure 400
                    (String.append "Total participants exceed room capacity of "
                       (String.append (toString roomCapacity) ".")))
             else
               count <- query env CountOverlaps OnPool (countOverlaps roomId start end_) ;;
               if (0 <? count)%nat
               then ret (failure 409 "The room is already booked for the selected time slot.")
               else
                 exec env InsertBooking OnPool
                   (insertBooking (newBooking b roomId subject organizer start end_ total)) ;;;
                 sendEmail organizer
                   (String.append "Booking Confirmed: "
                      (String.append subject
                         (String.append " at " (tpl (room_name b))))) ;;;
                 ret {| code := 201;
                        body := [("success", JBool true);
                                 ("message", JStr "Booking created and confirmed successfully!");
                                 ("event_id", JStr (randomUUID env))] |}
           end)
        (fun msg => ret (serverError msg "Failed to create booking."))
  | _, _, _, _, _, _ => ret (failure 400 "Missing required booking fields.")
  end.

(** The awaited statements of [createBooking] taken apart at the point where
    the handler yields between its availability check and its insert: first
    the two reads, answering with the early reply if a gate fails, ... *)
Definition createBookingChecks (roomId start end_ total : Z) : M (option Reply) :=
  roomCheck <- query env SelectRoomCapacity OnPool (selectCapacity roomId) ;;
  match roomCheck with
  | [] => ret (Some (failure 404 "Room not found."))
  | roomCapacity :: _ =>
    if total >? roomCapacity
    then ret (Some (failure 400
                (String.append "Total participants exceed room capacity of "
                   (String.append (toString roomCapacity) "."))))
    else
      count <- query env CountOverlaps OnPool (countOverlaps roomId start end_) ;;
      if (0 <? count)%nat
      then ret (Some (failure 409 "The room is already booked for the selected time slot."))
      else ret None
  end.

(** ... then the insert and the confirmation mail. *)
Definition createBookingWrite (b : Body) (roomId : Z) (subject organizer : string)
    (start end_ total : Z) : M Reply :=
  exec env InsertBooking OnPool
    (insertBooking (newBooking b roomId subject organizer start end_ total)) ;;;
  sendEmail organizer
    (String.append "Booking Confirmed: "
       (String.append subject
          (String.append " at " (tpl (room_name b))))) ;;;
  ret {| code := 201;
         body := [("success", JBool true);
                  ("message", JStr "Booking created and confirmed successfully!");
                  ("event_id", JStr (randomUUID env))] |}.

(** What the handler does once its checks have answered: the early reply, or
    the insert and the mail, and the catch block for what either part throws. *)
Definition createBookingResume (b : Body) (roomId : Z) (subject organizer : string)
    (start end_ total : Z) (checked : Res (option Reply)) : M Reply :=
  match checked with
  | Val (Some early) => ret early
  | Val None =>
      tryCatch (createBookingWrite b roomId subject organizer start end_ total)
        (fun msg => ret (serverError msg "Failed to create booking."))
  | Exn msg => ret (serverError msg "Failed to create booking.")
  end.

(** The catch block of the transactional handlers:
    [if (transaction && transaction.rolledBack === false)
       { try { await transaction.rollback(); } catch (rollbackError) { } }] *)
Definition rollbackIfOpen : M unit :=
  fun w =>
    if rolledBack w then (Val tt, w)
    else tryCatch (rollback env) (fun _ => ret tt) w.

(** SELECT * FROM room_bookings WHERE event_id = @eventId AND status = 'confirmed' *)
Definition selectBooking (eventId : string) (s : Store) : list Booking.t :=
  filter (fun r => String.eqb (Booking.event_id r) eventId
                   && isConfirmed (Booking.status r))
         (room_bookings s).

(** SELECT capacity, name FROM rooms WHERE id = @newRoomId *)
Definition selectRoom (roomId : Z) (s : Store) : list Room.t :=
  filter (fun r => Room.id r =? roomId) (rooms s).

(** SELECT COUNT( * ) FROM room_bookings WHERE room_id = @checkRoomId AND
    status = 'confirmed' AND event_id != @currentEventId AND
    (start_datetime < @checkEndDatetime AND end_datetime > @checkStartDatetime) *)
Definition countOtherOverlaps (roomId start end_ : Z) (eventId : string)
    (s : Store) : nat :=
  List.length (filter (fun r => (Booking.room_id r =? roomId)
                                && isConfirmed (Booking.status r)
                                && negb (String.eqb (Booking.event_id r) eventId)
                                && overlaps r start end_)
                      (room_bookings s)).

(** The SET clause of the reschedule. *)
Definition rescheduled (b : Body) (roomId : Z) (roomName subject organizer : string)
    (start end_ total : Z) (r : Booking.t) : Booking.t :=
  {| Booking.event_id := Booking.event_id r;
     Booking.room_id := roomId;
     Booking.room_name := Some roomName;
     Booking.subject := subject;
     Booking.description := orNullS (description b);
     Booking.organizer_email := organizer;
     Booking.start_datetime := start;
     Booking.end_datetime := end_;
     Booking.total_participants := total;
     Booking.internal_participants := orNullZ (internal_participants b);
     Booking.external_participants := orNullZ (external_participants b);
     Booking.meeting_type := orS (meeting_type b) "in-person";
     Booking.attendee_emails := orS (attendee_emails b) "[]";
     Booking.status := Booking.status r;
     Booking.created_at := Booking.created_at r;
     Booking.updated_at := Some (getutcdate env);
     Booking.cancelled_at := Booking.cancelled_at r |}.

(** UPDATE room_bookings SET ... WHERE event_id = @id; the result is
    [rowsAffected[0]]. *)
Definition updateWhereEventId (eventId : string) (f : Booking.t -> Booking.t)
    (s : Store) : nat * Store :=
  (List.length (filter (fun r => String.eqb (Booking.event_id r) eventId) (room_bookings s)),
   withBookings s
     (map (fun r => if String.eqb (Booking.event_id r) eventId then f r else r)
          (room_bookings s))).

Definition updateBooking (eventId : string) (b : Body) : M Reply :=
  match room_id b, subject b, organizer_email b,
        start_datetime b, end_datetime b, total_participants b with
  | Some roomId, Some subject, Some organizer, Some start, Some end_, Some total =>
    if String.eqb eventId "" || (roomId =? 0) || String.eqb subject ""
       || String.eqb organizer "" || (total =? 0)
    then ret (failure 400 "Missing required fields for booking update.")
    else
      tryCatch
        (if negb (dbPool env) then ret poolMissing
         else
           begin env ;;;
           existingBooking <- query env SelectBooking OnTransaction (selectBooking eventId) ;;
           match existingBooking with
           | [] =>
             rollback env ;;;
             ret (failure 404 "Original booking not found or already cancelled.")
           | _ :: _ =>
             roomCheck <- query env SelectRoom OnTransaction (selectRoom roomId) ;;
             match roomCheck with
             | [] =>
               rollback env ;;;
               ret (failure 404 "The specified room could not be found.")
             | room :: _ =>
               if total >? Room.capacity room
               then
                 rollback env ;;;
                 ret (failure 400
                        (String.append "New total participants exceed room capacity of "
                           (String.append (toString (Room.capacity room)) ".")))
               else
                 count <- query env CountOtherOverlaps OnTransaction
                            (countOtherOverlaps roomId start end_ eventId) ;;
                 if (0 <? count)%nat
                 then
                   rollback env ;;;
                   ret (failure 409
                          "The room is already booked for the new time slot (conflict detected).")
                 else
                   rowsAffected <- exec env UpdateBooking OnTransaction
                                     (updateWhereEventId eventId
                                        (rescheduled b roomId (Room.name room) subject
                                           organizer start end_ total)) ;;
                   if (rowsAffected =? 0)%nat
                   then
                     rollback env ;;;
                     ret (failure 404 "Booking to update not found.")
                   else
                     commit env ;;;
                     sendEmail organizer
                       (String.append "Booking Rescheduled: "
                          (String.append subject
                             (String.append " at " (Room.name room)))) ;;;
                     ret {| code := 200;
                            body := [("success", JBool true);
                                     ("message", JStr "Booking updated successfully!")] |}
             end
           end)
        (fun msg =>
           rollbackIfOpen ;;;
           ret (serverError msg "Failed to update booking."))
  | _, _, _, _, _, _ => ret (failure 400 "Missing required fields for booking update.")
  end.

(** SELECT subject, room_name, start_datetime, end_datetime, organizer_email
    FROM room_bookings WHERE event_id = @eventId AND
    organizer_email = @organizerEmail AND status = 'confirmed' *)
Definition selectOwnBooking (eventId organizerEmail : string) (s : Store)
    : list Booking.t :=
  filter (fun r => String.eqb (Booking.event_id r) eventId
                   && String.eqb (Booking.organizer_email r) organizerEmail
                   && isConfirmed (Booking.status r))
         (room_bookings s).

(** SET status = 'cancelled', cancelled_at = GETUTCDATE(), updated_at = GETUTCDATE() *)
Definition cancelledRow (r : Booking.t) : Booking.t :=
  {| Booking.event_id := Booking.event_id r;
     Booking.room_id := Booking.room_id r;
     Booking.room_name := Booking.room_name r;
     Booking.subject := Booking.subject r;
     Booking.description := Booking.description r;
     Booking.organizer_email := Booking.organizer_email r;
     Booking.start_datetime := Booking.start_datetime r;
     Booking.end_datetime := Booking.end_datetime r;
     Booking.total_participants := Booking.total_participants r;
     Booking.internal_participants := Booking.internal_participants r;
     Booking.external_participants := Booking.external_participants r;
     Booking.meeting_type := Booking.meeting_type r;
     Booking.attendee_emails := Booking.attendee_emails r;
     Booking.status := cancelled;
     Booking.created_at := Booking.created_at r;
     Booking.updated_at := Some (getutcdate env);
     Booking.cancelled_at := Some (getutcdate env) |}.

Definition quote : string := String (ascii_of_nat 34) "".

Definition cancelBooking (eventId : string) (organizerEmail : option string) : M Reply :=
  match organizerEmail with
  | Some email =>
    if String.eqb eventId "" || String.eqb email ""
    then ret (failure 400 "Event ID and organizer email are required for cancellation.")
    else
      tryCatch
        (if negb (dbPool env) then ret poolMissing
         else
           begin env ;;;
           bookingResult <- query env SelectOwnBooking OnTransaction
                              (selectOwnBooking eventId email) ;;
           match bookingResult with
           | [] =>
             rollback env ;;;
             ret (failure 404
                    "Booking not found or not eligible for cancellation by this email.")
           | bookingToCancel :: _ =>
             rowsAffected <- exec env CancelBooking OnTransaction
                               (updateWhereEventId eventId cancelledRow) ;;
             if (rowsAffected =? 0)%nat
             then
               rollback env ;;;
               ret (failure 400 "Failed to update booking status to cancelled.")
             else
               commit env ;;;
               sendEmail (Booking.organizer_email bookingToCancel)
                 (String.append "Your Room Booking for "
                    (String.append quote
                       (String.append (Booking.subject bookingToCancel)
                          (String.append quote " Has Been Cancelled")))) ;;;
               ret {| code := 200;
                      body := [("success", JBool true);
                               ("message", JStr "Booking cancelled successfully.")] |}
           end)
        (fun msg =>
           rollbackIfOpen ;;;
           ret (serverError msg "Failed to cancel the booking due to a server error."))
  | None => ret (failure 400 "Event ID and organizer email are required for cancellation.")
  end.

(** ORDER BY start_datetime ASC; rows with equal keys stay in table order. *)
Fixpoint insertByStart (r : Booking.t) (l : list Booking.t) : list Booking.t :=
  match l with
  | [] => [r]
  | x :: l' =>
      if Booking.start_datetime r <? Booking.start_datetime x
      then r :: x :: l'
      else x :: insertByStart r l'
  end.

Definition orderByStart (l : list Booking.t) : list Booking.t :=
  fold_right insertByStart [] l.

(** SELECT * FROM room_bookings WHERE organizer_email = @organizer_email AND
    status = 'confirmed' ORDER BY start_datetime ASC *)
Definition selectByEmail (email : string) (s : Store) : list Booking.t :=
  orderByStart
    (filter (fun r => String.eqb (Booking.organizer_email r) email
                      && isConfirmed (Booking.status r))
            (room_bookings s)).

Definition getBookingsByEmail (email : string) : M Reply :=
  if String.eqb email ""
  then ret (failure 400 "Email is required.")
  else
    tryCatch
      (if negb (dbPool env) then ret poolMissing
       else
         result <- query env SelectBookingsByEmail OnPool (selectByEmail email) ;;
         ret {| code := 200;
                body := [("success", JBool true);
                         ("data", JBookings result);
                         ("count", JNum (Z.of_nat (List.length result)))] |})
      (fun msg =>
         ret {| code := 500;
                body := [("success", JBool false);
                         ("message", JStr "Failed to fetch bookings by email.")]
                        ++ optKey "error" (if development env then Some msg else None) |}).

End Handlers.
End bookingController.

(** ** controllers/adminController.js *)

Module adminController.

Definition ADMIN_EMAIL : string := "admin@admin.com".
Definition ADMIN_PASSWORD : string := "1234".

Record Body := mkBody {
  room_id : option Z;
  room_name : option string;
  subject : option string;
  organizer_email : option string;
  start_datetime : option Z;
  end_datetime : option Z;
  total_participants : option Z;
  internal_participants : option Z;
  external_participants : option Z;
  meeting_type : option string;
  attendee_emails : option string
}.

Section Handlers.
Variable env : Env.

(** Send email helper function, using the admin's client: it throws when
    the client is missing and rethrows the client's own error. *)
Definition sendEmail (toEmail subject : string) : M unit :=
  if negb (graphClient env)
  then throw "Email service is not configured for admin functions."
  else
    fun w =>
      match mailFault env with
      | Some msg => (Exn msg, emit (Mail toEmail subject false) w)
      | None => (Val tt, emit (Mail toEmail subject true) w)
      end.

Definition poolMissing : Reply :=
  failure 500 "Database connection not available.".

Definition adminLogin (email password : option string) : Reply :=
  if negb (truthyS email) || negb (truthyS password)
  then failure 400 "Email and password are required."
  else
    if (match email with Some e => String.eqb e ADMIN_EMAIL | None => false end)
       && (match password with Some p => String.eqb p ADMIN_PASSWORD | None => false end)
    then {| code := 200;
            body := [("success", JBool true);
                     ("message", JStr "Admin login successful.");
                     ("token", JStr "simulated_admin_token")] |}
    else failure 401 "Invalid admin credentials.".

(** SELECT subject, room_name, start_datetime, end_datetime, organizer_email
    FROM room_bookings WHERE event_id = @eventId AND status = 'confirmed' *)
Definition selectConfirmed (eventId : string) (s : Store) : list Booking.t :=
  filter (fun r => String.eqb (Booking.event_id r) eventId
                   && isConfirmed (Booking.status r))
         (room_bookings s).

Definition deleteBooking (eventId : string) : M Reply :=
  if String.eqb eventId ""
  then ret (failure 400 "Event ID is required for deletion.")
  else
    tryCatch
      (if negb (dbPool env) then ret poolMissing
       else
         begin env ;;;
         bookingResult <- query env SelectBooking OnTransaction (selectConfirmed eventId) ;;
         match bookingResult with
         | [] =>
           rollback env ;;;
           ret (failure 404 "Booking not found or already cancelled.")
         | bookingToCancel :: _ =>
           rowsAffected <- exec env CancelBooking OnTransaction
                             (bookingController.updateWhereEventId eventId
                                (bookingController.cancelledRow env)) ;;
           if (rowsAffected =? 0)%nat
           then
             rollback env ;;;
             ret (failure 400 "Failed to update booking status to cancelled.")
           else
             commit env ;;;
             sendEmail (Booking.organizer_email bookingToCancel)
               (String.append "Your Room Booking for "
                  (String.append bookingController.quote
                     (String.append (Booking.subject bookingToCancel)
                        (String.append bookingController.quote
                           " Has Been Cancelled (Admin Action)")))) ;;;
             ret {| code := 200;
                    body := [("success", JBool true);
                             ("message", JStr "Booking cancelled by admin successfully.")] |}
         end)
      (fun msg =>
         bookingController.rollbackIfOpen env ;;;
         ret (failure 500 (orMsg msg "Failed to delete booking by admin.")))
  .

Definition sendRescheduleEmail (bookingId organizerEmail subject message : option string)
    : M Reply :=
  match organizerEmail, subject with
  | Some organizer, Some subj =>
    if negb (truthyS bookingId) || String.eqb organizer "" || String.eqb subj ""
       || negb (truthyS message)
    then ret (failure 400 "Booking ID, organizer email, subject, and message are required.")
    else
      tryCatch
        (sendEmail organizer (String.append "RE: " subj) ;;;
         ret {| code := 200;
                body := [("success", JBool true);
                         ("message", JStr "Reschedule email sent successfully.")] |})
        (fun msg => ret (failure 500 (orMsg msg "Failed to send reschedule email.")))
  | _, _ => ret (failure 400 "Booking ID, organizer email, subject, and message are required.")
  end.

Definition newBooking (b : Body) (roomId : Z) (roomName subject organizer : string)
    (start end_ total : Z) : Booking.t :=
  {| Booking.event_id := randomUUID env;
     Booking.room_id := roomId;
     Booking.room_name := Some roomName;
     Booking.subject := subject;
     Booking.description := None;
     Booking.organizer_email := organizer;
     Booking.start_datetime := start;
     Booking.end_datetime := end_;
     Booking.total_participants := total;
     Booking.internal_participants := internal_participants b;
     Booking.external_participants := external_participants b;
     Booking.meeting_type := orS (meeting_type b) "in-person";
     Booking.attendee_emails := orS (attendee_emails b) "[]";
     Booking.status := confirmed;
     Booking.created_at := Some (clock env 0);
     Booking.updated_at := None;
     Booking.cancelled_at := None |}.

Definition createBookingAdmin (b : Body) : M Reply :=
  match room_id b, room_name b, subject b, organizer_email b,
        start_datetime b, end_datetime b, total_participants b with
  | Some roomId, Some roomName, Some subject, Some organizer,
    Some start, Some end_, Some total =>
    if (roomId =? 0) || String.eqb roomName "" || String.eqb subject ""
       || String.eqb organizer "" || (total =? 0)
    then ret (failure 400 "Missing required fields for admin booking.")
    else
      tryCatch
        (if negb (dbPool env) then ret poolMissing
         else if negb (globalCrypto env) then throw "crypto is not defined"
         else
           exec env InsertBooking OnPool
             (bookingController.insertBooking
                (newBooking b roomId roomName subject organizer start end_ total)) ;;;
           ret {| code := 201;
                  body := [("success", JBool true);
                           ("message", JStr "Booking created by admin successfully.");
                           ("event_id", JStr (randomUUID env))] |})
        (fun msg => ret (failure 500 (orMsg msg "Failed to create booking by admin.")))
  | _, _, _, _, _, _, _ => ret (failure 400 "Missing required fields for admin booking.")
  end.

End Handlers.
End adminController.

(** ** controllers/otpController.js *)

Module otpController.

(** [crypto.randomInt(min, max)]: an integer [n] with [min <= n < max],
    drawn from the environment's random source. *)
Definition randomInt (env : Env) (min max : Z) : Z :=
  min + entropy env mod (max - min).

Arguments randomInt : simpl never.

Section Handlers.
Variable env : Env.

Definition sendEmail (toEmail subject : string) : M unit :=
  if negb (graphClient env)
  then throw "Email service is not configured correctly. Check environment variables."
  else
    fun w =>
      match mailFault env with
      | Some msg => (Exn msg, emit (Mail toEmail subject false) w)
      | None => (Val tt, emit (Mail toEmail subject true) w)
      end.

Definition poolMissing : Reply :=
  failure 500 "Database connection not available.".

Definition serverError (msg fallback : string) : Reply :=
  {| code := 500;
     body := [("success", JBool false); ("message", JStr fallback)]
             ++ optKey "error" (if development env then Some msg else None) |}.

(** WHEN MATCHED THEN UPDATE SET otp = @otp, expires_at = @expiresAt,
    created_at = @createdAt, is_verified = 0 *)
Definition reissued (otp : string) (expiresAt createdAt : Z) (r : OtpRow.t) : OtpRow.t :=
  {| OtpRow.email := OtpRow.email r;
     OtpRow.otp := otp;
     OtpRow.expires_at := expiresAt;
     OtpRow.created_at := createdAt;
     OtpRow.is_verified := false |}.

(** MERGE otp_storage AS target USING (VALUES (@email)) AS source (email)
    ON (target.email = source.email) WHEN MATCHED THEN UPDATE ...
    WHEN NOT MATCHED THEN INSERT ... *)
Definition mergeOtp (email otp : string) (expiresAt createdAt : Z) (s : Store)
    : unit * Store :=
  (tt,
   if existsb (fun r => String.eqb (OtpRow.email r) email) (otp_storage s)
   then withOtps s
          (map (fun r => if String.eqb (OtpRow.email r) email
                         then reissued otp expiresAt createdAt r else r)
               (otp_storage s))
   else withOtps s
          (otp_storage s ++
           [{| OtpRow.email := email;
               OtpRow.otp := otp;
               OtpRow.expires_at := expiresAt;
               OtpRow.created_at := createdAt;
               OtpRow.is_verified := false |}])).

Definition sendOtp (email : option string) : M Reply :=
  match email with
  | Some email =>
    if String.eqb email "" then ret (failure 400 "Email is required.")
    else
      tryCatch
        (if negb (dbPool env) then ret poolMissing
         else
           let otp := toString (randomInt env 100000 999999) in
           let expiresAt := clock env 0 + 5 * 60 * 1000 in
           let createdAt := clock env 1 in
           exec env MergeOtp OnPool (mergeOtp email otp expiresAt createdAt) ;;;
           sendEmail email (String.append "Your Room Booking Verification Code: " otp) ;;;
           ret {| code := 200;
                  body := [("success", JBool true);
                           ("message", JStr "OTP sent successfully.")] |})
        (fun msg => ret (serverError msg "Failed to send OTP."))
  | None => ret (failure 400 "Email is required.")
  end.

(** SELECT TOP 1 * FROM otp_storage WHERE email = @email AND otp = @otp
    AND expires_at > @currentTime ORDER BY created_at DESC; the handler
    only reads whether the record set is empty. *)
Definition selectOtp (email otp : string) (currentTime : Z) (s : Store) : list OtpRow.t :=
  filter (fun r => String.eqb (OtpRow.email r) email
                   && String.eqb (OtpRow.otp r) otp
                   && (OtpRow.expires_at r >? currentTime))
         (otp_storage s).

(** UPDATE otp_storage SET is_verified = 1 WHERE email = @email AND otp = @otp *)
Definition markVerified (email otp : string) (s : Store) : unit * Store :=
  (tt,
   withOtps s
     (map (fun r => if String.eqb (OtpRow.email r) email && String.eqb (OtpRow.otp r) otp
                    then {| OtpRow.email := OtpRow.email r;
                            OtpRow.otp := OtpRow.otp r;
                            OtpRow.expires_at := OtpRow.expires_at r;
                            OtpRow.created_at := OtpRow.created_at r;
                            OtpRow.is_verified := true |}
                    else r)
          (otp_storage s))).

Definition verifyOtp (email otp : option string) : M Reply :=
  match email, otp with
  | Some email, Some otp =>
    if String.eqb email "" || String.eqb otp ""
    then ret (failure 400 "Email and OTP are required.")
    else
      tryCatch
        (if negb (dbPool env) then ret poolMissing
         else
           result <- query env SelectOtp OnPool (selectOtp email otp (clock env 0)) ;;
           match result with
           | _ :: _ =>
             exec env VerifyOtp OnPool (markVerified email otp) ;;;
             ret {| code := 200;
                    body := [("verified", JBool true);
                             ("message", JStr "OTP verified successfully.")] |}
           | [] => ret (failure 400 "Invalid or expired OTP.")
           end)
        (fun msg => ret (serverError msg "Failed to verify OTP."))
  | _, _ => ret (failure 400 "Email and OTP are required.")
  end.

(** SELECT TOP 1 * FROM otp_storage WHERE email = @email AND
    expires_at > @currentTime AND is_verified = 1 ORDER BY created_at DESC *)
Definition selectVerified (email : string) (currentTime : Z) (s : Store) : list OtpRow.t :=
  filter (fun r => String.eqb (OtpRow.email r) email
                   && (OtpRow.expires_at r >? currentTime)
                   && OtpRow.is_verified r)
         (otp_storage s).

(** The [created_at] of the first row under ORDER BY created_at DESC. *)
Fixpoint latest (l : list OtpRow.t) : option Z :=
  match l with
  | [] => None
  | r :: l' =>
      match latest l' with
      | Some t => Some (Z.max (OtpRow.created_at r) t)
      | None => Some (OtpRow.created_at r)
      end
  end.

Definition checkVerificationStatus (email : string) : M Reply :=
  if String.eqb email ""
  then ret (failure 400 "Email is required.")
  else
    tryCatch
      (if negb (dbPool env)
       then ret (failure 500 "Database connection not available")
       else
         result <- query env SelectVerifiedOtp OnPool (selectVerified email (clock env 0)) ;;
         ret {| code := 200;
                body := [("success", JBool true);
                         ("isVerified", JBool (0 <? List.length result)%nat);
                         ("verifiedAt", match latest result with
                                        | Some t => JNum t
                                        | None => JNull
                                        end)] |})
      (fun msg =>
         ret {| code := 500;
                body := [("success", JBool false);
                         ("message", JStr "Failed to check verification status.");
                         ("error", JStr (if development env then msg
                                         else "Internal server error"))] |}).

(** DELETE FROM otp_storage WHERE expires_at < @currentTime; the result is
    [rowsAffected[0]]. *)
Definition deleteExpired (currentTime : Z) (s : Store) : nat * Store :=
  (List.length (filter (fun r => OtpRow.expires_at r <? currentTime) (otp_storage s)),
   withOtps s (filter (fun r => negb (OtpRow.expires_at r <? currentTime)) (otp_storage s))).

Definition cleanupExpiredOtps : M Reply :=
  tryCatch
    (if negb (dbPool env)
     then ret (failure 500 "Database connection not available")
     else
       deletedCount <- exec env DeleteExpiredOtps OnPool (deleteExpired (clock env 0)) ;;
       ret {| code := 200;
              body := [("success", JBool true);
                       ("message", JStr (String.append "Cleaned up "
                                           (String.append (toString (Z.of_nat deletedCount))
                                              " expired OTP records.")));
                       ("deletedCount", JNum (Z.of_nat deletedCount))] |})
    (fun msg =>
       ret {| code := 500;
              body := [("success", JBool false);
                       ("message", JStr "Failed to clean up OTPs.");
                       ("error", JStr (if development env then msg
                                       else "Internal server error"))] |}).

End Handlers.
End otpController.

(** ** controllers/roomController.js *)

Module roomController.

(** [req.file] as multer leaves it. *)
Record File := mkFile {
  filename : string;
  path : string
}.

(** A multipart body: [capacity] is [Some n] for a numeral that [parseInt]
    reads as [n] (a non-empty string, truthy even when it reads as 0). *)
Record Body := mkBody {
  name : option string;
  capacity : option Z;
  features : option string
}.

Definition uploadPath (f : option File) : option string :=
  match f with
  | Some file => Some (String.append "/uploads/" (filename file))
  | None => None
  end.

(** [path.join(__dirname, '..', 'public', image)], relative to the backend. *)
Definition publicPath (image : string) : string := String.append "public" image.

(** [image && image.startsWith('/uploads/')] *)
Definition isUpload (image : option string) : bool :=
  match image with
  | Some p => negb (String.eqb p "") && String.prefix "/uploads/" p
  | None => false
  end.

Definition reply (c : Z) (msg : string) : Reply :=
  {| code := c; body := [("message", JStr msg)] |}.

Section Handlers.
Variable env : Env.

(** [if (req.file) fs.unlink(req.file.path, ...)] *)
Definition unlinkUpload (f : option File) : M unit :=
  fun w =>
    match f with
    | Some file => (Val tt, emit (Unlink (path file)) w)
    | None => (Val tt, w)
    end.

Definition unlink (p : string) : M unit :=
  fun w => (Val tt, emit (Unlink p) w).

Definition jsonImage (image : option string) : Json :=
  match image with
  | Some p => JStr p
  | None => JNull
  end.

(** INSERT INTO rooms (name, capacity, features, image) VALUES (...);
    SELECT SCOPE_IDENTITY() AS id *)
Definition insertRoom (name : string) (capacity : Z) (features image : option string)
    (s : Store) : Z * Store :=
  (scopeIdentity env,
   withRooms s (rooms s ++ [Room.mk (scopeIdentity env) name capacity features image])).

Definition createRoom (b : Body) (file : option File) : M Reply :=
  let imagePath := uploadPath file in
  match name b, capacity b with
  | Some roomName, Some roomCapacity =>
    if String.eqb roomName ""
    then unlinkUpload file ;;; ret (reply 400 "Room name and capacity are required.")
    else
      tryCatch
        (if negb (dbPool env) then ret (reply 500 "Database connection not available")
         else
           newRoomId <- exec env InsertRoom OnPool
                          (insertRoom roomName roomCapacity (orNullS (features b)) imagePath) ;;
           ret {| code := 201;
                  body := [("message", JStr "Room created successfully.");
                           ("roomId", JNum newRoomId);
                           ("imagePath", jsonImage imagePath)] |})
        (fun msg =>
           unlinkUpload file ;;;
           ret {| code := 500;
                  body := [("message", JStr "Failed to create room."); ("error", JStr msg)] |})
  | _, _ => unlinkUpload file ;;; ret (reply 400 "Room name and capacity are required.")
  end.

(** SELECT image FROM rooms WHERE id = @id *)
Definition selectImage (roomId : Z) (s : Store) : list (option string) :=
  map Room.image (filter (fun r => Room.id r =? roomId) (rooms s)).

(** UPDATE rooms SET name = @name, capacity = @capacity, features = @features,
    image = @image WHERE id = @id *)
Definition updateRoomRow (roomId : Z) (name : string) (capacity : Z)
    (features image : option string) (s : Store) : nat * Store :=
  (List.length (filter (fun r => Room.id r =? roomId) (rooms s)),
   withRooms s
     (map (fun r => if Room.id r =? roomId
                    then Room.mk (Room.id r) name capacity features image
                    else r)
          (rooms s))).

Definition updateRoom (roomId : Z) (b : Body) (file : option File) : M Reply :=
  match name b, capacity b with
  | Some roomName, Some roomCapacity =>
    if String.eqb roomName ""
    then unlinkUpload file ;;; ret (reply 400 "Room name and capacity are required for update.")
    else
      tryCatch
        (if negb (dbPool env) then ret (reply 500 "Database connection not available")
         else
           begin env ;;;
           oldRoomResult <- query env SelectRoomImage OnTransaction (selectImage roomId) ;;
           match oldRoomResult with
           | [] =>
             rollback env ;;;
             ret (reply 404 "Room not found for update.")
           | oldImagePath :: _ =>
             let imagePath := match uploadPath file with
                              | Some p => Some p
                              | None => oldImagePath
                              end in
             let finalImagePath := orNullS imagePath in
             rowsAffected <- exec env UpdateRoom OnTransaction
                               (updateRoomRow roomId roomName roomCapacity
                                  (orNullS (features b)) finalImagePath) ;;
             if (rowsAffected =? 0)%nat
             then
               rollback env ;;;
               ret (reply 404 "Room not found or no changes made.")
             else
               commit env ;;;
               (match file, oldImagePath with
                | Some _, Some old =>
                    if isUpload oldImagePath then unlink (publicPath old) else ret tt
                | _, _ => ret tt
                end) ;;;
               ret {| code := 200;
                      body := [("message", JStr "Room updated successfully.");
                               ("imagePath", jsonImage finalImagePath)] |}
           end)
        (fun msg =>
           bookingController.rollbackIfOpen env ;;;
           unlinkUpload file ;;;
           ret {| code := 500;
                  body := [("message", JStr "Failed to update room."); ("error", JStr msg)]
                          ++ (if development env then [("details", JError msg)] else []) |})
  | _, _ =>
    unlinkUpload file ;;; ret (reply 400 "Room name and capacity are required for update.")
  end.

(** DELETE FROM rooms WHERE id = @id *)
Definition deleteRoomRow (roomId : Z) (s : Store) : nat * Store :=
  (List.length (filter (fun r => Room.id r =? roomId) (rooms s)),
   withRooms s (filter (fun r => negb (Room.id r =? roomId)) (rooms s))).

Definition deleteRoom (roomId : Z) : M Reply :=
  tryCatch
    (if negb (dbPool env) then ret (reply 500 "Database connection not available")
     else
       roomResult <- query env SelectRoomImage OnPool (selectImage roomId) ;;
       match roomResult with
       | [] => ret (reply 404 "Room not found.")
       | image :: _ =>
         rowsAffected <- exec env DeleteRoom OnPool (deleteRoomRow roomId) ;;
         if (rowsAffected =? 0)%nat
         then ret (reply 404 "Room not found for deletion or no rows affected.")
         else
           (match image with
            | Some p => if isUpload image then unlink (publicPath p) else ret tt
            | None => ret tt
            end) ;;;
           ret (reply 200 "Room deleted successfully.")
       end)
    (fun msg =>
       ret {| code := 500;
              body := [("message", JStr "Failed to delete room."); ("error", JStr msg)] |}).

End Handlers.
End roomController.

(** ** routes/bookingroutes.js *)

Module bookingRoutes.

(** [req.body.email || req.body.organizer_email || req.params.email] *)
Definition firstTruthy (a b c : option string) : option string :=
  if truthyS a then a else if truthyS b then b else c.

(** Validation middleware for common fields: [None] is [next()]. *)
Definition validateEmail (bodyEmail organizerEmail paramEmail : option string)
    : option Reply :=
  match firstTruthy bodyEmail organizerEmail paramEmail with
  | Some email =>
    if String.eqb email "" then None
    else if negb (emailRegex (codeUnits email))
    then Some (failure 400 "Invalid email format")
    else None
  | None => None
  end.

(** [validateDateRange], for date strings that parse; [now] is the clock
    reading of the middleware. *)
Definition validateDateRange (now : Z) (start_datetime end_datetime : option Z)
    : option Reply :=
  match start_datetime, end_datetime with
  | Some startTime, Some endTime =>
    if startTime >=? endTime
    then Some (failure 400 "Start date/time must be before end date/time")
    else
      let fiveMinutesAgo := now - 5 * 60 * 1000 in
      if startTime <? fiveMinutesAgo
      then Some (failure 400 "Cannot create bookings in the past")
      else None
  | _, _ => None
  end.

(** Middleware to ensure dbPool is set. *)
Definition ensureDbPool (env : Env) : option Reply :=
  if negb (dbPool env)
  then Some (failure 500 "Server configuration error: Database connection not established.")
  else None.

(** The additional validation of the create and update routes;
    [total_participants] is what [parseInt] makes of the field, [None] for
    [NaN].  The two routes differ in the final dot of the first message. *)
Definition validateFields (dot : string) (subject : option string)
    (total_participants : option Z) : option Reply :=
  if negb (truthyS subject)
     || match subject with Some s => blank (codeUnits s) | None => true end
  then Some (failure 400 (String.append "Subject is required and cannot be empty" dot))
  else
    match total_participants with
    | Some totalParticipants =>
        if totalParticipants <? 1
        then Some (failure 400 "Total participants must be at least 1.")
        else None
    | None => Some (failure 400 "Total participants must be at least 1.")
    end.

(** A middleware chain: the first reply ends the request. *)
Definition guarded (checks : list (option Reply)) (handler : M Reply) : M Reply :=
  match List.find (fun c => match c with Some _ => true | None => false end) checks with
  | Some (Some r) => ret r
  | _ => handler
  end.

(** router.post('/create', validateEmail, validateDateRange, ..., createBooking),
    behind the router's ensureDbPool; [email] is [req.body.email], [now] the
    clock read by validateDateRange and [totalParticipants] what
    [parseInt(req.body.total_participants)] gives, [None] for [NaN].  The
    inline check tests that number; the controller after it reads the field
    of the body itself. *)
Definition postCreate (env : Env) (now : Z) (email : option string)
    (totalParticipants : option Z) (b : bookingController.Body) : M Reply :=
  guarded
    [ensureDbPool env;
     validateEmail email (bookingController.organizer_email b) None;
     validateDateRange now (bookingController.start_datetime b)
       (bookingController.end_datetime b);
     validateFields "" (bookingController.subject b) totalParticipants]
    (bookingController.createBooking env b).

(** router.put('/:eventId', validateEmail, validateDateRange, ..., updateBooking) *)
Definition putUpdate (env : Env) (now : Z) (eventId : string) (email : option string)
    (totalParticipants : option Z) (b : bookingController.Body) : M Reply :=
  guarded
    [ensureDbPool env;
     validateEmail email (bookingController.organizer_email b) None;
     validateDateRange now (bookingController.start_datetime b)
       (bookingController.end_datetime b);
     validateFields "." (bookingController.subject b) totalParticipants]
    (bookingController.updateBooking env eventId b).

End bookingRoutes.

(** ** routes/adminRoutes.js *)

Module adminRoutes.

(** [s.split(' ')[1]]: what stands between the first and the second space. *)
Fixpoint untilSpace (s : string) : string :=
  match s with
  | EmptyString => EmptyString
  | String c s' => if Ascii.eqb c " " then EmptyString else String c (untilSpace s')
  end.

Fixpoint secondField (s : string) : option string :=
  match s with
  | EmptyString => None
  | String c s' => if Ascii.eqb c " " then Some (untilSpace s') else secondField s'
  end.

(** Simplified admin authentication middleware: [true] is [next()], [false]
    the 401.  [xAdminAuth] and [authorization] are the two headers read. *)
Definition authenticateAdmin (xAdminAuth authorization : option string) : bool :=
  let hardcodedAdminToken := "simulated_admin_token" in
  let authHeader := if truthyS xAdminAuth then xAdminAuth else authorization in
  match authHeader with
  | Some h =>
      String.eqb h hardcodedAdminToken
      || (negb (String.eqb h "") && String.prefix "Bearer " h
          && match secondField h with
             | Some t => String.eqb t hardcodedAdminToken
             | None => false
             end)
  | None => false
  end.

End adminRoutes.

(** ** routes/otpRoutes.js *)

Module otpRoutes.

(** [\d] *)
Definition isDigit (c : ascii) : bool :=
  (48 <=? nat_of_ascii c)%nat && (nat_of_ascii c <=? 57)%nat.

Fixpoint allDigits (s : string) : bool :=
  match s with
  | EmptyString => true
  | String c s' => isDigit c && allDigits s'
  end.

(** OTP verification middleware: [None] is [next()].  The body's [otp] is
    taken to be a string when present. *)
Definition validateOtp (otp : option string) : option Reply :=
  match otp with
  | Some s =>
    if String.eqb s "" || negb (String.length s =? 6)%nat || negb (allDigits s)
    then Some (failure 400 "OTP must be a 6-digit number.")
    else None
  | None => Some (failure 400 "OTP must be a 6-digit number.")
  end.

(** Email validation middleware for body/query. *)
Definition validateEmail (email : option string) : option Reply :=
  match email with
  | Some e =>
    if String.eqb e "" then Some (failure 400 "Email is required")
    else if negb (emailRegex (codeUnits e)) then Some (failure 400 "Invalid email format")
    else None
  | None => Some (failure 400 "Email is required")
  end.

Definition ensureDbPool (env : Env) : option Reply :=
  if negb (dbPool env)
  then Some (failure 500
               "Server configuration error: Database connection not established or injected into controller.")
  else None.

(** router.post('/send', validateEmail, logRequest, ensureDbPool, sendOtp) *)
Definition postSend (env : Env) (email : option string) : M Reply :=
  bookingRoutes.guarded [validateEmail email; ensureDbPool env]
    (otpController.sendOtp env email).

(** router.post('/verify', validateEmail, validateOtp, logRequest, ensureDbPool,
    verifyOtp) *)
Definition postVerify (env : Env) (email otp : option string) : M Reply :=
  bookingRoutes.guarded [validateEmail email; validateOtp otp; ensureDbPool env]
    (otpController.verifyOtp env email otp).

End otpRoutes.

(** * Specification vocabulary *)

(** Two bookings clash when their intervals overlap:
    [A.start < B.end AND A.end > B.start]. *)
Definition clash (a b : Booking.t) : Prop :=
  Booking.start_datetime a < Booking.end_datetime b /\
  Booking.end_datetime a > Booking.start_datetime b.

(** No two distinct rows of [room_bookings] that are both confirmed and in
    the same room clash.  Rows are told apart by their position in the table. *)
Definition noOverlap (s : Store) : Prop :=
  forall i j a b,
    i <> j ->
    nth_error (room_bookings s) i = Some a ->
    nth_error (room_bookings s) j = Some b ->
    Booking.status a = confirmed ->
    Booking.status b = confirmed ->
    Booking.room_id a = Booking.room_id b ->
    ~ clash a b.

(** A decision procedure for [noOverlap], used to evaluate it on examples. *)
Definition clashb (a b : Booking.t) : bool :=
  isConfirmed (Booking.status a) && isConfirmed (Booking.status b)
  && (Booking.room_id a =? Booking.room_id b)
  && (Booking.start_datetime a <? Booking.end_datetime b)
  && (Booking.end_datetime a >? Booking.start_datetime b).

Fixpoint noOverlapb (l : list Booking.t) : bool :=
  match l with
  | [] => true
  | a :: l' => forallb (fun b => negb (clashb a b)) l' && noOverlapb l'
  end.

(** Booking identifiers are unique in the table. *)
Definition uniqueEventIds (s : Store) : Prop :=
  NoDup (map Booking.event_id (room_bookings s)).

(** The pool was injected and no driver call rejects. *)
Definition nominal (env : Env) : Prop :=
  dbPool env = true /\ forall n, dbFault env n = None.

(** The mail of the booking controller goes through or is skipped. *)
Definition mailWorks (env : Env) : Prop :=
  mailConfigured env = false \/ mailFault env = None.

(** The body carries the fields the create and update handlers require. *)
Definition required (b : bookingController.Body) (roomId : Z) (subject organizer : string)
    (start end_ total : Z) : Prop :=
  bookingController.room_id b = Some roomId /\ roomId <> 0 /\
  bookingController.subject b = Some subject /\ subject <> "" /\
  bookingController.organizer_email b = Some organizer /\ organizer <> "" /\
  bookingController.start_datetime b = Some start /\
  bookingController.end_datetime b = Some end_ /\
  bookingController.total_participants b = Some total /\ total <> 0.

(** Some confirmed booking of the room overlaps the interval. *)
Definition taken (s : Store) (roomId start end_ : Z) : Prop :=
  exists r, In r (room_bookings s) /\ Booking.room_id r = roomId /\
            Booking.status r = confirmed /\
            Booking.start_datetime r < end_ /\ Booking.end_datetime r > start.

(** Some confirmed booking of the room other than [eventId] overlaps the
    interval. *)
Definition takenByOther (s : Store) (eventId : string) (roomId start end_ : Z) : Prop :=
  exists r, In r (room_bookings s) /\ Booking.room_id r = roomId /\
            Booking.status r = confirmed /\ Booking.event_id r <> eventId /\
            Booking.start_datetime r < end_ /\ Booking.end_datetime r > start.

(** The confirmed rows of the room that carry [eventId] and overlap the
    interval: the slot of the rescheduled booking itself. *)
Definition ownOverlaps (s : Store) (eventId : string) (roomId start end_ : Z)
    : list Booking.t :=
  filter (fun r => (Booking.room_id r =? roomId)
                   && isConfirmed (Booking.status r)
                   && String.eqb (Booking.event_id r) eventId
                   && bookingController.overlaps r start end_)
         (room_bookings s).

(** Two createBooking requests for one room served by one process, the
    second arriving while the first is suspended at the await between its
    availability count and its insert: the reads of the first, the reads of
    the second, what is left of the first, what is left of the second. *)
Definition interleavedCreates (envA envB : Env) (bA bB : bookingController.Body)
    (roomId : Z)
    (subjectA organizerA : string) (startA endA totalA : Z)
    (subjectB organizerB : string) (startB endB totalB : Z)
    (s : Store) : Res Reply * Res Reply * World :=
  let '(checkedA, w1) :=
    bookingController.createBookingChecks envA roomId startA endA totalA (initWorld s) in
  let '(checkedB, w2) :=
    bookingController.createBookingChecks envB roomId startB endB totalB w1 in
  let '(replyA, w3) :=
    bookingController.createBookingResume envA bA roomId subjectA organizerA
      startA endA totalA checkedA w2 in
  let '(replyB, w4) :=
    bookingController.createBookingResume envB bB roomId subjectB organizerB
      startB endB totalB checkedB w3 in
  (replyA, replyB, w4).

(** A mail event of the log. *)
Definition isMail (e : Event) : Prop :=
  match e with Mail _ _ _ => True | _ => False end.

(** An event that is no part of a transaction: neither BEGIN, COMMIT or
    ROLLBACK nor a statement issued on a transaction's request. *)
Definition outsideTransaction (e : Event) : Prop :=
  match e with
  | TxBegin | TxCommit | TxRollback => False
  | Sql _ OnTransaction => False
  | Sql _ OnPool => True
  | Mail _ _ _ => True
  | Unlink _ => True
  end.

(** Every mail event of the log comes after an insert into room_bookings. *)
Definition mailAfterInsert (l : list Event) : Prop :=
  forall pre e post,
    l = pre ++ e :: post -> isMail e -> exists c, In (Sql InsertBooking c) pre.

(** A decision procedure for [mailAfterInsert]; [seen] says that an insert
    has been passed. *)
Fixpoint mailAfterInsertb (seen : bool) (l : list Event) : bool :=
  match l with
  | [] => true
  | Mail _ _ _ :: l' => seen && mailAfterInsertb seen l'
  | Sql InsertBooking _ :: l' => mailAfterInsertb true l'
  | _ :: l' => mailAfterInsertb seen l'
  end.

(** At most one OTP record per email. *)
Definition oneOtpPerEmail (s : Store) : Prop :=
  NoDup (map OtpRow.email (otp_storage s)).

(** Every code unit is neither white space nor [@]. *)
Definition allPlain (s : list N) : bool := forallb plain s.

(** The string holds no space. *)
Fixpoint noSpace (s : string) : bool :=
  match s with
  | EmptyString => true
  | String c s' => negb (Ascii.eqb c " ") && noSpace s'
  end.

(** ** Sample data *)

Definition sampleEnv : Env :=
  {| dbPool := true;
     dbFault := fun _ => None;
     mailConfigured := true;
     graphClient := true;
     mailFault := None;
     development := false;
     globalCrypto := true;
     randomUUID := "7f3c";
     entropy := 123456789;
     clock := fun n => 5000 + Z.of_nat n;
     getutcdate := 5001;
     scopeIdentity := 3 |}.

(** The same environment with the mail gateway rejecting every send. *)
Definition mailDownEnv : Env :=
  {| dbPool := true;
     dbFault := fun _ => None;
     mailConfigured := true;
     graphClient := true;
     mailFault := Some "Request failed with status code 503";
     development := false;
     globalCrypto := true;
     randomUUID := "7f3c";
     entropy := 123456789;
     clock := fun n => 5000 + Z.of_nat n;
     getutcdate := 5001;
     scopeIdentity := 3 |}.

Definition sampleBooking (eventId organizer : string) (roomId start end_ : Z)
    (st : Status) : Booking.t :=
  {| Booking.event_id := eventId;
     Booking.room_id := roomId;
     Booking.room_name := Some "Orchid";
     Booking.subject := "Standup";
     Booking.description := None;
     Booking.organizer_email := organizer;
     Booking.start_datetime := start;
     Booking.end_datetime := end_;
     Booking.total_participants := 5;
     Booking.internal_participants := None;
     Booking.external_participants := None;
     Booking.meeting_type := "in-person";
     Booking.attendee_emails := "[]";
     Booking.status := st;
     Booking.created_at := Some 100;
     Booking.updated_at := None;
     Booking.cancelled_at := None |}.

(** Two rooms; room 1 holds two abutting confirmed bookings, over
    [1000, 2000) and [2000, 3000), and a cancelled one across both. *)
Definition sampleStore : Store :=
  {| rooms := [Room.mk 1 "Orchid" 10 None None; Room.mk 2 "Lotus" 4 None None];
     room_bookings := [sampleBooking "e1" "ann@corp.com" 1 1000 2000 confirmed;
                       sampleBooking "e2" "bob@corp.com" 1 2000 3000 confirmed;
                       sampleBooking "e3" "cyd@corp.com" 1 1500 2500 cancelled];
     otp_storage := [] |}.

Definition sampleBody (organizer : string) (roomId start end_ total : Z)
    : bookingController.Body :=
  {| bookingController.room_id := Some roomId;
     bookingController.room_name := Some "Orchid";
     bookingController.subject := Some "Review";
     bookingController.description := None;
     bookingController.organizer_email := Some organizer;
     bookingController.start_datetime := Some start;
     bookingController.end_datetime := Some end_;
     bookingController.total_participants := Some total;
     bookingController.internal_participants := None;
     bookingController.external_participants := None;
     bookingController.meeting_type := None;
     bookingController.attendee_emails := None |}.

(** A second request served by the same process draws another identifier. *)
Definition otherEnv : Env :=
  {| dbPool := true;
     dbFault := fun _ => None;
     mailConfigured := true;
     graphClient := true;
     mailFault := None;
     development := false;
     globalCrypto := true;
     randomUUID := "a91b";
     entropy := 987654321;
     clock := fun n => 5003 + Z.of_nat n;
     getutcdate := 5004;
     scopeIdentity := 3 |}.

(** Two createBooking requests for room 1, over [3000, 4000) and over
    [3500, 4500), each suspended at the await between its availability check
    and its insert: the reads of the first, the reads of the second, the
    write of the first, the write of the second. *)
Definition racingCreates : list (Res (option Reply)) * list (Res Reply) * World :=
  let bodyA := sampleBody "dan@corp.com" 1 3000 4000 4 in
  let bodyB := sampleBody "eve@corp.com" 1 3500 4500 4 in
  let '(checkA, w1) :=
    bookingController.createBookingChecks sampleEnv 1 3000 4000 4 (initWorld sampleStore) in
  let '(checkB, w2) :=
    bookingController.createBookingChecks otherEnv 1 3500 4500 4 w1 in
  let '(replyA, w3) :=
    bookingController.createBookingWrite sampleEnv bodyA 1 "Review" "dan@corp.com"
      3000 4000 4 w2 in
  let '(replyB, w4) :=
    bookingController.createBookingWrite otherEnv bodyB 1 "Review" "eve@corp.com"
      3500 4500 4 w3 in
  ([checkA; checkB], [replyA; replyB], w4).

Definition adminBody (roomId start end_ total : Z) : adminController.Body :=
  {| adminController.room_id := Some roomId;
     adminController.room_name := Some "Orchid";
     adminController.subject := Some "Board";
     adminController.organizer_email := Some "ceo@corp.com";
     adminController.start_datetime := Some start;
     adminController.end_datetime := Some end_;
     adminController.total_participants := Some total;
     adminController.internal_participants := None;
     adminController.external_participants := None;
     adminController.meeting_type := None;
     adminController.attendee_emails := None |}.

(** The admin body carries the fields [createBookingAdmin] requires. *)
Definition requiredAdmin (b : adminController.Body) (roomId : Z)
    (roomName subject organizer : string) (start end_ total : Z) : Prop :=
  adminController.room_id b = Some roomId /\ roomId <> 0 /\
  adminController.room_name b = Some roomName /\ roomName <> "" /\
  adminController.subject b = Some subject /\ subject <> "" /\
  adminController.organizer_email b = Some organizer /\ organizer <> "" /\
  adminController.start_datetime b = Some start /\
  adminController.end_datetime b = Some end_ /\
  adminController.total_participants b = Some total /\ total <> 0.

Definition sampleOtp (email otp : string) (expiresAt : Z) (verified : bool) : OtpRow.t :=
  {| OtpRow.email := email;
     OtpRow.otp := otp;
     OtpRow.expires_at := expiresAt;
     OtpRow.created_at := expiresAt - 300000;
     OtpRow.is_verified := verified |}.

(** A store with three OTP records: one long expired, one expiring at 5000,
    one still valid. *)
Definition otpStore : Store :=
  {| rooms := [];
     room_bookings := [];
     otp_storage := [sampleOtp "a@b.com" "111111" 4000 true;
                     sampleOtp "c@d.com" "222222" 5000 false;
                     sampleOtp "e@f.com" "333333" 9000 true] |}.

(** * Proof tools *)

Ltac head_destruct :=
  match goal with
  | |- context [match ?x with _ => _ end] =>
      lazymatch x with
      | context [match _ with _ => _ end] => fail
      | _ => destruct x eqn:?
      end
  end.

Ltac unfold_monad :=
  unfold bookingController.rollbackIfOpen;
  unfold tryCatch, bind, query, exec, begin, commit, rollback, driver, ret, throw,
    committed, initWorld, emit, called, setDb.

Lemma filter_length_zero {A} (f : A -> bool) (l : list A) :
  List.length (filter f l) = 0%nat -> forall x, In x l -> f x = false.
Proof.
  induction l as [|a l IH]; simpl; intros H x Hx; [contradiction|].
  destruct (f a) eqn:Hfa; simpl in H; [discriminate|].
  destruct Hx as [->|Hx]; [exact Hfa | exact (IH H x Hx)].
Qed.

Lemma filter_length_pos {A} (f : A -> bool) (l : list A) (x : A) :
  In x l -> f x = true -> (0 <? List.length (filter f l))%nat = true.
Proof.
  intros Hx Hf.
  assert (Hin : In x (filter f l)) by (apply filter_In; split; assumption).
  destruct (filter f l); [contradiction | reflexivity].
Qed.

Lemma ltb_length_zero (n : nat) : (0 <? n)%nat = false -> n = 0%nat.
Proof. destruct n; [reflexivity | discriminate]. Qed.

Lemma clash_sym (a b : Booking.t) : clash a b -> clash b a.
Proof. unfold clash; lia. Qed.

Lemma overlaps_spec (r : Booking.t) (start end_ : Z) :
  bookingController.overlaps r start end_ = true <->
  Booking.start_datetime r < end_ /\ Booking.end_datetime r > start.
Proof.
  unfold bookingController.overlaps.
  rewrite andb_true_iff, Z.ltb_lt, Z.gtb_ltb, Z.ltb_lt. lia.
Qed.

Lemma isConfirmed_spec (s : Status) : isConfirmed s = true <-> s = confirmed.
Proof. destruct s; simpl; split; congruence. Qed.

(** What an empty availability count says about the rows. *)
Lemma countOverlaps_zero (s : Store) (roomId start end_ : Z) :
  bookingController.countOverlaps roomId start end_ s = 0%nat ->
  forall r, In r (room_bookings s) -> Booking.room_id r = roomId ->
            Booking.status r = confirmed ->
            ~ (Booking.start_datetime r < end_ /\ Booking.end_datetime r > start).
Proof.
  intros H r Hr Hroom Hst Hov.
  pose proof (filter_length_zero _ _ H r Hr) as Hf. simpl in Hf.
  apply overlaps_spec in Hov. apply isConfirmed_spec in Hst.
  apply Z.eqb_eq in Hroom. rewrite Hroom, Hst, Hov in Hf. discriminate.
Qed.

Lemma countOtherOverlaps_zero (s : Store) (roomId start end_ : Z) (eventId : string) :
  bookingController.countOtherOverlaps roomId start end_ eventId s = 0%nat ->
  forall r, In r (room_bookings s) -> Booking.room_id r = roomId ->
            Booking.status r = confirmed -> Booking.event_id r <> eventId ->
            ~ (Booking.start_datetime r < end_ /\ Booking.end_datetime r > start).
Proof.
  intros H r Hr Hroom Hst Hid Hov.
  pose proof (filter_length_zero _ _ H r Hr) as Hf. simpl in Hf.
  apply overlaps_spec in Hov. apply isConfirmed_spec in Hst.
  apply Z.eqb_eq in Hroom. apply String.eqb_neq in Hid.
  rewrite Hroom, Hst, Hov, Hid in Hf. discriminate.
Qed.

Lemma taken_counted (s : Store) (roomId start end_ : Z) :
  taken s roomId start end_ ->
  (0 <? bookingController.countOverlaps roomId start end_ s)%nat = true.
Proof.
  intros (r & Hr & Hroom & Hst & Hov).
  apply (filter_length_pos _ _ r Hr).
  apply isConfirmed_spec in Hst. apply Z.eqb_eq in Hroom.
  rewrite Hroom, Hst. simpl. apply overlaps_spec. exact Hov.
Qed.

Lemma takenByOther_counted (s : Store) (eventId : string) (roomId start end_ : Z) :
  takenByOther s eventId roomId start end_ ->
  (0 <? bookingController.countOtherOverlaps roomId start end_ eventId s)%nat = true.
Proof.
  intros (r & Hr & Hroom & Hst & Hid & Hov).
  apply (filter_length_pos _ _ r Hr).
  apply isConfirmed_spec in Hst. apply Z.eqb_eq in Hroom. apply String.eqb_neq in Hid.
  rewrite Hroom, Hst, Hid. simpl. apply overlaps_spec. exact Hov.
Qed.

(** ** The no-overlap invariant under the two writes *)

Lemma noOverlap_insert (s : Store) (r : Booking.t) :
  noOverlap s ->
  (forall a, In a (room_bookings s) ->
             Booking.room_id a = Booking.room_id r ->
             Booking.status a = confirmed ->
             ~ clash a r) ->
  noOverlap (withBookings s (room_bookings s ++ [r])).
Proof.
  intros Hinv Hnew i j a b Hij Ha Hb Hsa Hsb Hroom. simpl in Ha, Hb.
  destruct (Nat.lt_ge_cases i (List.length (room_bookings s))) as [Hi|Hi];
    destruct (Nat.lt_ge_cases j (List.length (room_bookings s))) as [Hj|Hj].
  - rewrite nth_error_app1 in Ha, Hb by assumption.
    exact (Hinv i j a b Hij Ha Hb Hsa Hsb Hroom).
  - rewrite nth_error_app1 in Ha by assumption.
    rewrite nth_error_app2 in Hb by assumption.
    destruct (j - List.length (room_bookings s))%nat as [|k] eqn:Hk; simpl in Hb.
    + injection Hb as <-. apply (Hnew a); eauto using nth_error_In.
    + destruct k; discriminate.
  - rewrite nth_error_app2 in Ha by assumption.
    rewrite nth_error_app1 in Hb by assumption.
    destruct (i - List.length (room_bookings s))%nat as [|k] eqn:Hk; simpl in Ha.
    + injection Ha as <-. intros Hc. apply clash_sym in Hc.
      apply (Hnew b); eauto using nth_error_In.
    + destruct k; discriminate.
  - rewrite nth_error_app2 in Ha, Hb by assumption.
    destruct (i - List.length (room_bookings s))%nat as [|k] eqn:Hk; simpl in Ha;
      [|destruct k; discriminate].
    destruct (j - List.length (room_bookings s))%nat as [|k'] eqn:Hk'; simpl in Hb;
      [|destruct k'; discriminate].
    lia.
Qed.

Lemma noOverlap_update (s : Store) (eventId : string) (f : Booking.t -> Booking.t) :
  noOverlap s ->
  uniqueEventIds s ->
  (forall r, Booking.status (f r) = Booking.status r) ->
  (forall r a, In a (room_bookings s) ->
               Booking.event_id a <> eventId ->
               Booking.room_id a = Booking.room_id (f r) ->
               Booking.status a = confirmed ->
               ~ clash a (f r)) ->
  noOverlap
    (withBookings s
       (map (fun r => if String.eqb (Booking.event_id r) eventId then f r else r)
            (room_bookings s))).
Proof.
  intros Hinv Huniq Hst Hnew i j a b Hij Ha Hb Hsa Hsb Hroom. simpl in Ha, Hb.
  rewrite nth_error_map in Ha, Hb.
  destruct (nth_error (room_bookings s) i) as [a0|] eqn:Hai; [|discriminate].
  destruct (nth_error (room_bookings s) j) as [b0|] eqn:Hbj; [|discriminate].
  simpl in Ha, Hb. injection Ha as Ha. injection Hb as Hb.
  assert (Hdiff : Booking.event_id a0 <> Booking.event_id b0).
  { intros Heq. apply Hij.
    apply (proj1 (NoDup_nth_error (map Booking.event_id (room_bookings s))) Huniq).
    - rewrite length_map. apply nth_error_Some. congruence.
    - rewrite !nth_error_map, Hai, Hbj. simpl. congruence. }
  destruct (String.eqb_spec (Booking.event_id a0) eventId) as [Hea|Hea];
    destruct (String.eqb_spec (Booking.event_id b0) eventId) as [Heb|Heb]; subst a b.
  - congruence.
  - intros Hc. apply clash_sym in Hc. revert Hc.
    apply Hnew; eauto using nth_error_In.
  - apply Hnew; eauto using nth_error_In.
  - exact (Hinv i j a0 b0 Hij Hai Hbj Hsa Hsb Hroom).
Qed.

Lemma uniqueEventIds_update (s : Store) (eventId : string) (f : Booking.t -> Booking.t) :
  (forall r, Booking.event_id (f r) = Booking.event_id r) ->
  map Booking.event_id
    (map (fun r => if String.eqb (Booking.event_id r) eventId then f r else r)
         (room_bookings s))
  = map Booking.event_id (room_bookings s).
Proof.
  intros Hf. rewrite map_map. apply map_ext. intros r.
  destruct (String.eqb (Booking.event_id r) eventId); [apply Hf | reflexivity].
Qed.

Lemma clashb_spec (a b : Booking.t) :
  clashb a b = false ->
  Booking.status a = confirmed -> Booking.status b = confirmed ->
  Booking.room_id a = Booking.room_id b -> ~ clash a b.
Proof.
  unfold clashb, clash. intros H Ha Hb Hroom [H1 H2].
  rewrite Ha, Hb, Hroom, Z.eqb_refl in H. simpl in H.
  apply andb_false_iff in H. rewrite Z.gtb_ltb, !Z.ltb_nlt in H. lia.
Qed.

Lemma clashb_sym (a b : Booking.t) : clashb a b = clashb b a.
Proof.
  unfold clashb. rewrite !Z.gtb_ltb, (Z.eqb_sym (Booking.room_id a)).
  destruct (isConfirmed (Booking.status a)), (isConfirmed (Booking.status b)),
    (Booking.room_id b =? Booking.room_id a),
    (Booking.start_datetime a <? Booking.end_datetime b),
    (Booking.start_datetime b <? Booking.end_datetime a); reflexivity.
Qed.

Lemma noOverlapb_pairs (l : list Booking.t) :
  noOverlapb l = true ->
  forall i j a b, (i < j)%nat -> nth_error l i = Some a -> nth_error l j = Some b ->
                  clashb a b = false.
Proof.
  induction l as [|x l IH]; intros H i j a b Hij Ha Hb.
  - destruct i; discriminate.
  - simpl in H. apply andb_true_iff in H as [Hx Hl].
    destruct j as [|j]; [lia|]. simpl in Hb.
    destruct i as [|i]; simpl in Ha.
    + injection Ha as <-. rewrite forallb_forall in Hx.
      apply negb_true_iff. apply Hx. eauto using nth_error_In.
    + apply (IH Hl i j); [lia | assumption | assumption].
Qed.

(** The decision procedure is sound. *)
Lemma noOverlapb_sound (s : Store) :
  noOverlapb (room_bookings s) = true -> noOverlap s.
Proof.
  intros H i j a b Hij Ha Hb Hsa Hsb Hroom.
  destruct (Nat.lt_ge_cases i j) as [Hlt|Hge].
  - apply clashb_spec; try assumption. exact (noOverlapb_pairs _ H i j a b Hlt Ha Hb).
  - apply clashb_spec; try assumption. rewrite clashb_sym.
    apply (noOverlapb_pairs _ H j i b a); [lia | assumption | assumption].
Qed.

(** The decision procedure is complete. *)
Lemma noOverlapb_complete (s : Store) :
  noOverlap s -> noOverlapb (room_bookings s) = true.
Proof.
  unfold noOverlap. generalize (room_bookings s) as l.
  induction l as [|x l IH]; intros H; [reflexivity|].
  simpl. apply andb_true_iff. split.
  - apply forallb_forall. intros y Hy. apply negb_true_iff.
    destruct (In_nth_error _ _ Hy) as [k Hk].
    destruct (clashb x y) eqn:Hc; [|reflexivity]. exfalso.
    unfold clashb in Hc. rewrite !andb_true_iff in Hc.
    destruct Hc as ((((Hsx & Hsy) & Hroom) & H1) & H2).
    apply (H 0%nat (S k) x y); [lia | reflexivity | exact Hk | | | | ].
    + now apply isConfirmed_spec.
    + now apply isConfirmed_spec.
    + now apply Z.eqb_eq.
    + unfold clash. rewrite Z.gtb_ltb in H2. apply Z.ltb_lt in H1, H2. lia.
  - apply IH. intros i j a b Hij Ha Hb. apply (H (S i) (S j)); [lia | exact Ha | exact Hb].
Qed.

(** ** What the booking handlers can do to the store, in any environment *)

Lemma createBooking_store (env : Env) (st : Store) (b : bookingController.Body) :
  storeAfter (run (bookingController.createBooking env b) st) = st \/
  exists roomId subject organizer start end_ total,
    bookingController.room_id b = Some roomId /\
    bookingController.start_datetime b = Some start /\
    bookingController.end_datetime b = Some end_ /\
    bookingController.countOverlaps roomId start end_ st = 0%nat /\
    storeAfter (run (bookingController.createBooking env b) st) =
      withBookings st
        (room_bookings st ++
         [bookingController.newBooking env b roomId subject organizer start end_ total]).
Proof.
  unfold run, storeAfter, bookingController.createBooking.
  destruct (bookingController.room_id b) as [roomId|]; [|left; reflexivity].
  destruct (bookingController.subject b) as [subject|]; [|left; reflexivity].
  destruct (bookingController.organizer_email b) as [organizer|]; [|left; reflexivity].
  destruct (bookingController.start_datetime b) as [start|]; [|left; reflexivity].
  destruct (bookingController.end_datetime b) as [end_|]; [|left; reflexivity].
  destruct (bookingController.total_participants b) as [total|]; [|left; reflexivity].
  destruct (_ || _); [left; reflexivity|].
  unfold_monad; unfold bookingController.sendEmail, bookingController.insertBooking; simpl.
  repeat (head_destruct; simpl; try (left; reflexivity)).
  all: right; exists roomId, subject, organizer, start, end_, total;
    repeat (split; [reflexivity|]); split; [|reflexivity].
  all: apply ltb_length_zero; assumption.
Qed.

Lemma updateBooking_store (env : Env) (st : Store) (eventId : string)
    (b : bookingController.Body) :
  storeAfter (run (bookingController.updateBooking env eventId b) st) = st \/
  exists roomId room subject organizer start end_ total,
    bookingController.selectBooking eventId st <> [] /\
    bookingController.countOtherOverlaps roomId start end_ eventId st = 0%nat /\
    storeAfter (run (bookingController.updateBooking env eventId b) st) =
      withBookings st
        (map (fun r => if String.eqb (Booking.event_id r) eventId
                       then bookingController.rescheduled env b roomId (Room.name room)
                              subject organizer start end_ total r
                       else r)
             (room_bookings st)).
Proof.
  unfold run, storeAfter, bookingController.updateBooking.
  destruct (bookingController.room_id b) as [roomId|]; [|left; reflexivity].
  destruct (bookingController.subject b) as [subject|]; [|left; reflexivity].
  destruct (bookingController.organizer_email b) as [organizer|]; [|left; reflexivity].
  destruct (bookingController.start_datetime b) as [start|]; [|left; reflexivity].
  destruct (bookingController.end_datetime b) as [end_|]; [|left; reflexivity].
  destruct (bookingController.total_participants b) as [total|]; [|left; reflexivity].
  destruct (_ || _); [left; reflexivity|].
  unfold_monad; unfold bookingController.sendEmail, bookingController.updateWhereEventId; simpl.
  repeat (head_destruct; simpl; try (left; reflexivity)).
  all: right; eexists roomId, _, subject, organizer, start, end_, total;
    split; [congruence|]; split; [|reflexivity].
  all: apply ltb_length_zero; assumption.
Qed.

Lemma cancelBooking_store (env : Env) (st : Store) (eventId : string)
    (organizerEmail : option string) :
  storeAfter (run (bookingController.cancelBooking env eventId organizerEmail) st) = st \/
  exists email,
    organizerEmail = Some email /\
    bookingController.selectOwnBooking eventId email st <> [] /\
    storeAfter (run (bookingController.cancelBooking env eventId organizerEmail) st) =
      withBookings st
        (map (fun r => if String.eqb (Booking.event_id r) eventId
                       then bookingController.cancelledRow env r else r)
             (room_bookings st)).
Proof.
  unfold run, storeAfter, bookingController.cancelBooking.
  destruct organizerEmail as [email|]; [|left; reflexivity].
  destruct (_ || _); [left; reflexivity|].
  unfold_monad; unfold bookingController.sendEmail, bookingController.updateWhereEventId; simpl.
  repeat (head_destruct; simpl; try (left; reflexivity)).
  all: right; exists email; split; [reflexivity|]; split; [congruence | reflexivity].
Qed.

(** ** The booking handlers when the store answers *)

Ltac use_required H :=
  let Hrid := fresh "Hrid" in let Hrid0 := fresh "Hrid0" in
  let Hsubj := fresh "Hsubj" in let Hsubj0 := fresh "Hsubj0" in
  let Horg := fresh "Horg" in let Horg0 := fresh "Horg0" in
  let Hs := fresh "Hs" in let He := fresh "He" in
  let Htot := fresh "Htot" in let Htot0 := fresh "Htot0" in
  destruct H as (Hrid & Hrid0 & Hsubj & Hsubj0 & Horg & Horg0 & Hs & He & Htot & Htot0);
  apply Z.eqb_neq in Hrid0, Htot0; apply String.eqb_neq in Hsubj0, Horg0;
  rewrite ?Hrid, ?Hsubj, ?Horg, ?Hs, ?He, ?Htot;
  rewrite ?Hrid0, ?Hsubj0, ?Horg0, ?Htot0.

Ltac use_nominal H :=
  let Hpool := fresh "Hpool" in let Hfault := fresh "Hfault" in
  destruct H as (Hpool & Hfault);
  unfold_monad; rewrite ?Hpool, ?Hfault; simpl; rewrite ?Hfault; simpl.

Lemma createBooking_taken env st b roomId subject organizer start end_ total capacity others :
  required b roomId subject organizer start end_ total ->
  nominal env ->
  bookingController.selectCapacity roomId st = capacity :: others ->
  total <= capacity ->
  taken st roomId start end_ ->
  run (bookingController.createBooking env b) st =
    (Val (failure 409 "The room is already booked for the selected time slot."),
     {| db := st; snapshot := None; rolledBack := false; calls := 2;
        log := [Sql SelectRoomCapacity OnPool; Sql CountOverlaps OnPool] |}).
Proof.
  intros Hreq Hnom Hcap Hle Htaken.
  unfold run, bookingController.createBooking. use_required Hreq. simpl.
  use_nominal Hnom. rewrite Hcap.
  replace (total >? capacity) with false by (symmetry; rewrite Z.gtb_ltb; apply Z.ltb_ge; lia).
  rewrite Hfault. simpl. rewrite (taken_counted _ _ _ _ Htaken). reflexivity.
Qed.

Lemma createBooking_free env st b roomId subject organizer start end_ total capacity others :
  required b roomId subject organizer start end_ total ->
  nominal env ->
  bookingController.selectCapacity roomId st = capacity :: others ->
  total <= capacity ->
  ~ taken st roomId start end_ ->
  run (bookingController.createBooking env b) st =
    let w := {| db := withBookings st
                        (room_bookings st ++
                         [bookingController.newBooking env b roomId subject organizer
                            start end_ total]);
                snapshot := None; rolledBack := false; calls := 3;
                log := [Sql SelectRoomCapacity OnPool; Sql CountOverlaps OnPool;
                        Sql InsertBooking OnPool] |} in
    match bookingController.sendEmail env organizer
            (String.append "Booking Confirmed: "
               (String.append subject
                  (String.append " at " (tpl (bookingController.room_name b))))) w with
    | (Val _, w') =>
        (Val {| code := 201;
                body := [("success", JBool true);
                         ("message", JStr "Booking created and confirmed successfully!");
                         ("event_id", JStr (randomUUID env))] |}, w')
    | (Exn msg, w') =>
        (Val (bookingController.serverError env msg "Failed to create booking."), w')
    end.
Proof.
  intros Hreq Hnom Hcap Hle Hfree.
  unfold run, bookingController.createBooking. use_required Hreq. simpl.
  use_nominal Hnom. rewrite Hcap.
  replace (total >? capacity) with false by (symmetry; rewrite Z.gtb_ltb; apply Z.ltb_ge; lia).
  rewrite Hfault. simpl.
  destruct (0 <? bookingController.countOverlaps roomId start end_ st)%nat eqn:Hc.
  - exfalso. apply Hfree. apply Nat.ltb_lt in Hc.
    unfold bookingController.countOverlaps in Hc.
    destruct (filter _ (room_bookings st)) as [|r l] eqn:Hf; [simpl in Hc; lia|].
    assert (Hin : In r (filter (fun r => (Booking.room_id r =? roomId)
                                         && isConfirmed (Booking.status r)
                                         && bookingController.overlaps r start end_)
                               (room_bookings st))) by (rewrite Hf; left; reflexivity).
    apply filter_In in Hin as [Hin Hp]. rewrite !andb_true_iff in Hp.
    destruct Hp as [[Hr Hst] Hov].
    exists r. split; [exact Hin|]. split; [now apply Z.eqb_eq|].
    split; [now apply isConfirmed_spec|]. now apply overlaps_spec.
  - rewrite Hfault. unfold bookingController.insertBooking. simpl.
    destruct (bookingController.sendEmail env organizer _ _) as [[u|msg] w']; reflexivity.
Qed.

Lemma countOtherOverlaps_pos (st : Store) (eventId : string) (roomId start end_ : Z) :
  (0 <? bookingController.countOtherOverlaps roomId start end_ eventId st)%nat = true ->
  takenByOther st eventId roomId start end_.
Proof.
  intros Hc. apply Nat.ltb_lt in Hc. unfold bookingController.countOtherOverlaps in Hc.
  destruct (filter _ (room_bookings st)) as [|r l] eqn:Hf; [simpl in Hc; lia|].
  assert (Hin : In r (filter (fun r => (Booking.room_id r =? roomId)
                                       && isConfirmed (Booking.status r)
                                       && negb (String.eqb (Booking.event_id r) eventId)
                                       && bookingController.overlaps r start end_)
                             (room_bookings st))) by (rewrite Hf; left; reflexivity).
  apply filter_In in Hin as [Hin Hp]. rewrite !andb_true_iff in Hp.
  destruct Hp as [[[Hr Hst] Hid] Hov].
  exists r. split; [exact Hin|]. split; [now apply Z.eqb_eq|].
  split; [now apply isConfirmed_spec|].
  split; [apply String.eqb_neq; now apply negb_true_iff|]. now apply overlaps_spec.
Qed.

Lemma selected_rows_affected (st : Store) (eventId : string) (x : Booking.t)
    (more : list Booking.t) :
  bookingController.selectBooking eventId st = x :: more ->
  (List.length (filter (fun r => String.eqb (Booking.event_id r) eventId) (room_bookings st))
   =? 0)%nat = false.
Proof.
  intros Hsel.
  assert (Hin : In x (bookingController.selectBooking eventId st))
    by (rewrite Hsel; left; reflexivity).
  apply filter_In in Hin as [Hin Hp]. apply andb_true_iff in Hp as [Hid _].
  assert (Hin' : In x (filter (fun r => String.eqb (Booking.event_id r) eventId)
                              (room_bookings st)))
    by (apply filter_In; split; assumption).
  destruct (filter _ (room_bookings st)); [contradiction | reflexivity].
Qed.

Lemma updateBooking_missing env st eventId b roomId subject organizer start end_ total :
  required b roomId subject organizer start end_ total ->
  eventId <> "" ->
  nominal env ->
  bookingController.selectBooking eventId st = [] ->
  run (bookingController.updateBooking env eventId b) st =
    (Val (failure 404 "Original booking not found or already cancelled."),
     {| db := st; snapshot := None; rolledBack := true; calls := 3;
        log := [TxBegin; Sql SelectBooking OnTransaction; TxRollback] |}).
Proof.
  intros Hreq Hid Hnom Hsel. apply String.eqb_neq in Hid.
  unfold run, bookingController.updateBooking. use_required Hreq. rewrite Hid. simpl.
  use_nominal Hnom. rewrite Hsel. simpl. rewrite Hfault. reflexivity.
Qed.

Lemma updateBooking_taken env st eventId b roomId subject organizer start end_ total
    existing more room others :
  required b roomId subject organizer start end_ total ->
  eventId <> "" ->
  nominal env ->
  bookingController.selectBooking eventId st = existing :: more ->
  bookingController.selectRoom roomId st = room :: others ->
  total <= Room.capacity room ->
  takenByOther st eventId roomId start end_ ->
  run (bookingController.updateBooking env eventId b) st =
    (Val (failure 409 "The room is already booked for the new time slot (conflict detected)."),
     {| db := st; snapshot := None; rolledBack := true; calls := 5;
        log := [TxBegin; Sql SelectBooking OnTransaction; Sql SelectRoom OnTransaction;
                Sql CountOtherOverlaps OnTransaction; TxRollback] |}).
Proof.
  intros Hreq Hid Hnom Hsel Hroom Hle Htaken. apply String.eqb_neq in Hid.
  unfold run, bookingController.updateBooking. use_required Hreq. rewrite Hid. simpl.
  use_nominal Hnom. rewrite Hsel. simpl. rewrite Hfault. simpl. rewrite Hroom.
  replace (total >? Room.capacity room) with false
    by (symmetry; rewrite Z.gtb_ltb; apply Z.ltb_ge; lia).
  rewrite Hfault. simpl. rewrite (takenByOther_counted _ _ _ _ _ Htaken). simpl.
  rewrite Hfault. reflexivity.
Qed.

Lemma updateBooking_free env st eventId b roomId subject organizer start end_ total
    existing more room others :
  required b roomId subject organizer start end_ total ->
  eventId <> "" ->
  nominal env ->
  bookingController.selectBooking eventId st = existing :: more ->
  bookingController.selectRoom roomId st = room :: others ->
  total <= Room.capacity room ->
  ~ takenByOther st eventId roomId start end_ ->
  run (bookingController.updateBooking env eventId b) st =
    let w := {| db := withBookings st
                        (map (fun r => if String.eqb (Booking.event_id r) eventId
                                       then bookingController.rescheduled env b roomId
                                              (Room.name room) subject organizer
                                              start end_ total r
                                       else r)
                             (room_bookings st));
                snapshot := None; rolledBack := false; calls := 6;
                log := [TxBegin; Sql SelectBooking OnTransaction; Sql SelectRoom OnTransaction;
                        Sql CountOtherOverlaps OnTransaction; Sql UpdateBooking OnTransaction;
                        TxCommit] |} in
    match bookingController.sendEmail env organizer
            (String.append "Booking Rescheduled: "
               (String.append subject (String.append " at " (Room.name room)))) w with
    | (Val _, w') =>
        (Val {| code := 200;
                body := [("success", JBool true);
                         ("message", JStr "Booking updated successfully!")] |}, w')
    | (Exn msg, w') =>
        (Val (bookingController.serverError env msg "Failed to update booking."),
         called w')
    end.
Proof.
  intros Hreq Hid Hnom Hsel Hroom Hle Hfree. apply String.eqb_neq in Hid.
  unfold run, bookingController.updateBooking. use_required Hreq. rewrite Hid. simpl.
  use_nominal Hnom. rewrite Hsel. simpl. rewrite Hfault. simpl. rewrite Hroom.
  replace (total >? Room.capacity room) with false
    by (symmetry; rewrite Z.gtb_ltb; apply Z.ltb_ge; lia).
  rewrite Hfault. simpl.
  destruct (0 <? bookingController.countOtherOverlaps roomId start end_ eventId st)%nat eqn:Hc;
    [exfalso; apply Hfree; now apply countOtherOverlaps_pos|].
  rewrite Hfault. unfold bookingController.updateWhereEventId. simpl.
  rewrite (selected_rows_affected _ _ _ _ Hsel). rewrite Hfault. simpl.
  unfold bookingController.sendEmail.
  destruct (mailConfigured env); simpl; [|reflexivity].
  destruct (mailFault env); reflexivity.
Qed.

Lemma sendEmail_frame (env : Env) (toEmail subject : string) (w : World) :
  db (snd (bookingController.sendEmail env toEmail subject w)) = db w /\
  snapshot (snd (bookingController.sendEmail env toEmail subject w)) = snapshot w.
Proof.
  unfold bookingController.sendEmail.
  destruct (mailConfigured env); simpl; [|split; reflexivity].
  destruct (mailFault env); split; reflexivity.
Qed.

Lemma createBooking_free_store env st b roomId subject organizer start end_ total
    capacity others :
  required b roomId subject organizer start end_ total ->
  nominal env ->
  bookingController.selectCapacity roomId st = capacity :: others ->
  total <= capacity ->
  ~ taken st roomId start end_ ->
  storeAfter (run (bookingController.createBooking env b) st) =
    withBookings st
      (room_bookings st ++
       [bookingController.newBooking env b roomId subject organizer start end_ total]).
Proof.
  intros Hreq Hnom Hcap Hle Hfree.
  rewrite (createBooking_free env st b roomId subject organizer start end_ total capacity
             others Hreq Hnom Hcap Hle Hfree).
  cbv zeta. unfold storeAfter, committed.
  match goal with
  | |- context [bookingController.sendEmail env ?t ?s ?w] =>
      destruct (sendEmail_frame env t s w) as [Hdb Hsnap];
      destruct (bookingController.sendEmail env t s w) as [[u|msg] w']
  end; simpl in *; rewrite Hsnap, Hdb; reflexivity.
Qed.

Lemma updateBooking_free_store env st eventId b roomId subject organizer start end_ total
    existing more room others :
  required b roomId subject organizer start end_ total ->
  eventId <> "" ->
  nominal env ->
  bookingController.selectBooking eventId st = existing :: more ->
  bookingController.selectRoom roomId st = room :: others ->
  total <= Room.capacity room ->
  ~ takenByOther st eventId roomId start end_ ->
  storeAfter (run (bookingController.updateBooking env eventId b) st) =
    withBookings st
      (map (fun r => if String.eqb (Booking.event_id r) eventId
                     then bookingController.rescheduled env b roomId (Room.name room)
                            subject organizer start end_ total r
                     else r)
           (room_bookings st)).
Proof.
  intros Hreq Hid Hnom Hsel Hroom Hle Hfree.
  rewrite (updateBooking_free env st eventId b roomId subject organizer start end_ total
             existing more room others Hreq Hid Hnom Hsel Hroom Hle Hfree).
  cbv zeta. unfold storeAfter, committed.
  match goal with
  | |- context [bookingController.sendEmail env ?t ?s ?w] =>
      destruct (sendEmail_frame env t s w) as [Hdb Hsnap];
      destruct (bookingController.sendEmail env t s w) as [[u|msg] w']
  end; simpl in *; rewrite Hsnap, Hdb; reflexivity.
Qed.

(** * The claims *)

Ltac sample_required :=
  unfold required, sampleBody; simpl; repeat split; try reflexivity; try discriminate.

Ltac sample_nominal := split; [reflexivity | intros; reflexivity].

Ltac sample_rows H :=
  simpl in H;
  repeat (destruct H as [H|H]; [subst; simpl in *; try lia; try discriminate; try congruence|]);
  try contradiction.

Lemma countOverlaps_free (st : Store) (roomId start end_ : Z) :
  ~ taken st roomId start end_ ->
  (0 <? bookingController.countOverlaps roomId start end_ st)%nat = false.
Proof.
  intros Hfree.
  destruct (0 <? bookingController.countOverlaps roomId start end_ st)%nat eqn:Hc;
    [|reflexivity].
  exfalso. apply Hfree. apply Nat.ltb_lt in Hc.
  unfold bookingController.countOverlaps in Hc.
  destruct (filter _ (room_bookings st)) as [|r l] eqn:Hf; [simpl in Hc; lia|].
  assert (Hin : In r (filter (fun r => (Booking.room_id r =? roomId)
                                       && isConfirmed (Booking.status r)
                                       && bookingController.overlaps r start end_)
                             (room_bookings st))) by (rewrite Hf; left; reflexivity).
  apply filter_In in Hin as [Hin Hp]. rewrite !andb_true_iff in Hp.
  destruct Hp as [[Hr Hst] Hov].
  exists r. split; [exact Hin|]. split; [now apply Z.eqb_eq|].
  split; [now apply isConfirmed_spec|]. now apply overlaps_spec.
Qed.

(** The two reads of createBooking when the store answers and the slot is
    free: the request goes on to its insert. *)
Lemma createBookingChecks_pass env roomId start end_ total capacity others w :
  (forall n, dbFault env n = None) ->
  bookingController.selectCapacity roomId (db w) = capacity :: others ->
  total <= capacity ->
  ~ taken (db w) roomId start end_ ->
  bookingController.createBookingChecks env roomId start end_ total w =
    (Val None,
     {| db := db w; snapshot := snapshot w; rolledBack := rolledBack w;
        calls := S (S (calls w));
        log := (log w ++ [Sql SelectRoomCapacity OnPool]) ++ [Sql CountOverlaps OnPool] |}).
Proof.
  intros Hfault Hcap Hle Hfree.
  unfold bookingController.createBookingChecks. unfold_monad. simpl.
  rewrite Hfault. simpl. rewrite Hcap.
  replace (total >? capacity) with false by (symmetry; rewrite Z.gtb_ltb; apply Z.ltb_ge; lia).
  rewrite Hfault. simpl. rewrite (countOverlaps_free _ _ _ _ Hfree). reflexivity.
Qed.

(** What is left of createBooking after its checks, when the store answers:
    the row is in the table whatever the mail does. *)
Lemma createBookingResume_inserts env b roomId subject organizer start end_ total w :
  (forall n, dbFault env n = None) ->
  let out := bookingController.createBookingResume env b roomId subject organizer
               start end_ total (Val None) w in
  db (snd out) =
    withBookings (db w)
      (room_bookings (db w) ++
       [bookingController.newBooking env b roomId subject organizer start end_ total]) /\
  snapshot (snd out) = snapshot w /\
  (mailWorks env ->
   fst out =
     Val {| code := 201;
            body := [("success", JBool true);
                     ("message", JStr "Booking created and confirmed successfully!");
                     ("event_id", JStr (randomUUID env))] |}).
Proof.
  intros Hfault.
  unfold bookingController.createBookingResume, bookingController.createBookingWrite,
    bookingController.insertBooking.
  unfold_monad. simpl. rewrite Hfault. simpl.
  unfold bookingController.sendEmail.
  destruct (mailConfigured env) eqn:Hconf; simpl; [|repeat split].
  destruct (mailFault env) eqn:Hmf; simpl; repeat split.
  intros [Hm|Hm]; congruence.
Qed.

(** [createBooking] is its checks followed by what is left of it. *)
Lemma createBooking_resumes env st b roomId subject organizer start end_ total :
  required b roomId subject organizer start end_ total ->
  dbPool env = true ->
  run (bookingController.createBooking env b) st =
    let (checked, w) :=
      bookingController.createBookingChecks env roomId start end_ total (initWorld st) in
    bookingController.createBookingResume env b roomId subject organizer
      start end_ total checked w.
Proof.
  intros Hreq Hpool.
  unfold run, bookingController.createBooking, bookingController.createBookingChecks,
    bookingController.createBookingResume, bookingController.createBookingWrite.
  use_required Hreq. simpl. unfold_monad. rewrite Hpool. simpl.
  unfold bookingController.sendEmail, bookingController.insertBooking.
  repeat (head_destruct; simpl; try reflexivity).
Qed.

(** C1.  The no-overlap invariant does not hold after every createBooking:
    the handler reads the availability count and inserts in two separate
    statements on the pool, so a second request served while the first is
    suspended between the two passes the same check.  Take two requests for
    one room whose intervals overlap each other and no confirmed booking of
    the store, with the room found, the capacity sufficient and the store
    answering.  Each is the handler's own steps (its checks, then what is
    left of it).  Served one after the other, the first is inserted and the
    second is refused with 409.  Interleaved at the await between count and
    insert, both are inserted (201 for each when its mail goes through) and
    the table ends with two confirmed bookings of the room that overlap. *)
Theorem interleaved_creates_break_no_overlap envA envB st roomId capacity others
    bA subjectA organizerA startA endA totalA
    bB subjectB organizerB startB endB totalB :
  nominal envA -> nominal envB ->
  required bA roomId subjectA organizerA startA endA totalA ->
  required bB roomId subjectB organizerB startB endB totalB ->
  bookingController.selectCapacity roomId st = capacity :: others ->
  totalA <= capacity -> totalB <= capacity ->
  ~ taken st roomId startA endA ->
  ~ taken st roomId startB endB ->
  startA < endB -> endA > startB ->
  let rowA := bookingController.newBooking envA bA roomId subjectA organizerA
                startA endA totalA in
  let rowB := bookingController.newBooking envB bB roomId subjectB organizerB
                startB endB totalB in
  (forall s,
     run (bookingController.createBooking envA bA) s =
       let (checked, w) :=
         bookingController.createBookingChecks envA roomId startA endA totalA (initWorld s) in
       bookingController.createBookingResume envA bA roomId subjectA organizerA
         startA endA totalA checked w)
  /\
  (forall s,
     run (bookingController.createBooking envB bB) s =
       let (checked, w) :=
         bookingController.createBookingChecks envB roomId startB endB totalB (initWorld s) in
       bookingController.createBookingResume envB bB roomId subjectB organizerB
         startB endB totalB checked w)
  /\
  (storeAfter (run (bookingController.createBooking envA bA) st) =
     withBookings st (room_bookings st ++ [rowA]) /\
   replyOf (run (bookingController.createBooking envB bB)
                (withBookings st (room_bookings st ++ [rowA]))) =
     Val (failure 409 "The room is already booked for the selected time slot.") /\
   storeAfter (run (bookingController.createBooking envB bB)
                   (withBookings st (room_bookings st ++ [rowA]))) =
     withBookings st (room_bookings st ++ [rowA]))
  /\
  (let '(replyA, replyB, w) :=
     interleavedCreates envA envB bA bB roomId subjectA organizerA startA endA totalA
       subjectB organizerB startB endB totalB st in
   (mailWorks envA -> codeOf replyA = Some 201) /\
   (mailWorks envB -> codeOf replyB = Some 201) /\
   committed w = withBookings st (room_bookings st ++ [rowA; rowB]) /\
   ~ noOverlap (committed w)).
Proof.
  intros HnomA HnomB HreqA HreqB Hcap HleA HleB HfreeA HfreeB Hlt Hgt rowA rowB.
  split; [intros s; apply createBooking_resumes; [exact HreqA | exact (proj1 HnomA)]|].
  split; [intros s; apply createBooking_resumes; [exact HreqB | exact (proj1 HnomB)]|].
  split.
  { split; [eapply createBooking_free_store; eauto|].
    assert (Htaken : taken (withBookings st (room_bookings st ++ [rowA])) roomId startB endB).
    { exists rowA. split; [simpl; apply in_or_app; right; left; reflexivity|].
      simpl. repeat split; lia. }
    rewrite (createBooking_taken envB (withBookings st (room_bookings st ++ [rowA])) bB
               roomId subjectB organizerB startB endB totalB capacity others
               HreqB HnomB Hcap HleB Htaken).
    split; reflexivity. }
  destruct HnomA as [_ HfaultA]. destruct HnomB as [_ HfaultB].
  unfold interleavedCreates.
  rewrite (createBookingChecks_pass envA roomId startA endA totalA capacity others
             (initWorld st) HfaultA Hcap HleA HfreeA).
  match goal with
  | |- context [bookingController.createBookingChecks envB roomId startB endB totalB ?w] =>
      rewrite (createBookingChecks_pass envB roomId startB endB totalB capacity others w
                 HfaultB Hcap HleB HfreeB)
  end.
  match goal with
  | |- context [bookingController.createBookingResume envA bA roomId subjectA organizerA
                  startA endA totalA (Val None) ?w] =>
      destruct (createBookingResume_inserts envA bA roomId subjectA organizerA
                  startA endA totalA w HfaultA) as (HdbA & HsnapA & HreplyA);
      destruct (bookingController.createBookingResume envA bA roomId subjectA organizerA
                  startA endA totalA (Val None) w) as [replyA w3]
  end.
  destruct (createBookingResume_inserts envB bB roomId subjectB organizerB
              startB endB totalB w3 HfaultB) as (HdbB & HsnapB & HreplyB).
  destruct (bookingController.createBookingResume envB bB roomId subjectB organizerB
              startB endB totalB (Val None) w3) as [replyB w4].
  simpl in *.
  assert (Hstore : committed w4 = withBookings st (room_bookings st ++ [rowA; rowB])).
  { unfold committed. rewrite HsnapB, HsnapA, HdbB, HdbA. simpl.
    rewrite <- app_assoc. reflexivity. }
  split; [intros Hm; rewrite (HreplyA Hm); reflexivity|].
  split; [intros Hm; rewrite (HreplyB Hm); reflexivity|].
  split; [exact Hstore|].
  rewrite Hstore. intros Hinv.
  apply (Hinv (List.length (room_bookings st)) (S (List.length (room_bookings st)))
           rowA rowB).
  - lia.
  - change (nth_error (room_bookings st ++ [rowA; rowB]) (List.length (room_bookings st))
            = Some rowA).
    rewrite nth_error_app2 by lia. rewrite Nat.sub_diag. reflexivity.
  - change (nth_error (room_bookings st ++ [rowA; rowB])
              (S (List.length (room_bookings st))) = Some rowB).
    rewrite nth_error_app2 by lia.
    replace (S (List.length (room_bookings st)) - List.length (room_bookings st))%nat
      with 1%nat by lia.
    reflexivity.
  - reflexivity.
  - reflexivity.
  - reflexivity.
  - unfold clash. simpl. lia.
Qed.

Lemma interleaved_creates_break_no_overlap_witness :
  noOverlap sampleStore /\
  (let '(replyA, replyB, w) :=
     interleavedCreates sampleEnv otherEnv
       (sampleBody "dan@corp.com" 1 3000 4000 4) (sampleBody "eve@corp.com" 1 3500 4500 4)
       1 "Review" "dan@corp.com" 3000 4000 4 "Review" "eve@corp.com" 3500 4500 4
       sampleStore in
   codeOf replyA = Some 201 /\
   codeOf replyB = Some 201 /\
   ~ noOverlap (committed w)).
Proof.
  split; [apply noOverlapb_sound; reflexivity|].
  pose proof (interleaved_creates_break_no_overlap sampleEnv otherEnv sampleStore 1 10 []
                (sampleBody "dan@corp.com" 1 3000 4000 4) "Review" "dan@corp.com" 3000 4000 4
                (sampleBody "eve@corp.com" 1 3500 4500 4) "Review" "eve@corp.com" 3500 4500 4)
    as H.
  destruct H as (_ & _ & _ & H).
  - sample_nominal.
  - sample_nominal.
  - sample_required.
  - sample_required.
  - reflexivity.
  - lia.
  - lia.
  - intros (r & Hr & Hroom & Hst & H1 & H2). sample_rows Hr.
  - intros (r & Hr & Hroom & Hst & H1 & H2). sample_rows Hr.
  - lia.
  - lia.
  - destruct (interleavedCreates _ _ _ _ _ _ _ _ _ _ _ _ _ _ _ _) as [[replyA replyB] w].
    destruct H as (HA & HB & _ & Hbad).
    split; [apply HA; right; reflexivity|].
    split; [apply HB; right; reflexivity | exact Hbad].
Defined.

(** [createBooking] is its two reads followed by its write, under one catch. *)
Lemma createBooking_phases env st b roomId subject organizer start end_ total :
  required b roomId subject organizer start end_ total ->
  dbPool env = true ->
  run (bookingController.createBooking env b) st =
    match bookingController.createBookingChecks env roomId start end_ total (initWorld st) with
    | (Val (Some early), w) => (Val early, w)
    | (Val None, w) =>
        match bookingController.createBookingWrite env b roomId subject organizer
                start end_ total w with
        | (Val r, w') => (Val r, w')
        | (Exn msg, w') =>
            (Val (bookingController.serverError env msg "Failed to create booking."), w')
        end
    | (Exn msg, w) =>
        (Val (bookingController.serverError env msg "Failed to create booking."), w)
    end.
Proof.
  intros Hreq Hpool.
  unfold run, bookingController.createBooking, bookingController.createBookingChecks,
    bookingController.createBookingWrite.
  use_required Hreq. simpl. unfold_monad. rewrite Hpool. simpl.
  unfold bookingController.sendEmail, bookingController.insertBooking.
  repeat (head_destruct; simpl; try reflexivity).
Qed.

Lemma createBooking_trace (env : Env) (st : Store) (b : bookingController.Body) :
  Forall outsideTransaction (traceOf (run (bookingController.createBooking env b) st)).
Proof.
  unfold run, traceOf, bookingController.createBooking.
  destruct (bookingController.room_id b) as [roomId|]; [|constructor].
  destruct (bookingController.subject b) as [subject|]; [|constructor].
  destruct (bookingController.organizer_email b) as [organizer|]; [|constructor].
  destruct (bookingController.start_datetime b) as [start|]; [|constructor].
  destruct (bookingController.end_datetime b) as [end_|]; [|constructor].
  destruct (bookingController.total_participants b) as [total|]; [|constructor].
  destruct (_ || _); [constructor|].
  unfold_monad; unfold bookingController.sendEmail, bookingController.insertBooking; simpl.
  repeat (head_destruct; simpl; try (repeat constructor)).
Qed.

(** C2.  What the code does instead of the claimed single transaction: no
    run of createBooking opens, commits or rolls back a transaction, and each
    of its statements is issued on the pool; so two createBooking requests
    suspended between their availability check and their insert both pass the
    check, both get 201, and leave two clashing confirmed bookings of one
    room. *)
Theorem createBooking_check_and_insert_not_atomic :
  (forall env st b,
     Forall outsideTransaction (traceOf (run (bookingController.createBooking env b) st)))
  /\
  (let '(checks, replies, w) := racingCreates in
   checks = [Val None; Val None] /\
   map codeOf replies = [Some 201; Some 201] /\
   noOverlap sampleStore /\
   ~ noOverlap (committed w)).
Proof.
  split; [exact createBooking_trace|].
  vm_compute racingCreates. cbv iota beta.
  split; [reflexivity|]. split; [reflexivity|].
  split; [apply noOverlapb_sound; reflexivity|].
  intros H. apply noOverlapb_complete in H. vm_compute in H. discriminate.
Qed.

(** [createBookingAdmin] when the store answers: the row is inserted whatever
    the tables hold. *)
Lemma createBookingAdmin_inserts env st b roomId roomName subject organizer start end_ total :
  requiredAdmin b roomId roomName subject organizer start end_ total ->
  nominal env ->
  globalCrypto env = true ->
  run (adminController.createBookingAdmin env b) st =
    (Val {| code := 201;
            body := [("success", JBool true);
                     ("message", JStr "Booking created by admin successfully.");
                     ("event_id", JStr (randomUUID env))] |},
     {| db := withBookings st
                (room_bookings st ++
                 [adminController.newBooking env b roomId roomName subject organizer
                    start end_ total]);
        snapshot := None; rolledBack := false; calls := 1;
        log := [Sql InsertBooking OnPool] |}).
Proof.
  intros (Hrid & Hrid0 & Hname & Hname0 & Hsubj & Hsubj0 & Horg & Horg0 & Hs & He
          & Htot & Htot0) [Hpool Hfault] Hcrypto.
  apply Z.eqb_neq in Hrid0, Htot0. apply String.eqb_neq in Hname0, Hsubj0, Horg0.
  unfold run, adminController.createBookingAdmin.
  rewrite Hrid, Hname, Hsubj, Horg, Hs, He, Htot, Hrid0, Hname0, Hsubj0, Horg0, Htot0.
  simpl. unfold_monad. rewrite Hpool, Hcrypto. simpl. rewrite Hfault. reflexivity.
Qed.

(** C3.  What the code does instead of the claimed gates: on the sample store
    (room 1 of capacity 10, booked over [1000, 2000) and [2000, 3000); no room
    99) the admin creation answers 201 and inserts a confirmed row for a room
    that does not exist, for 500 participants in the room of capacity 10, and
    over [1500, 2500) across both confirmed bookings of room 1, where the
    ordinary createBooking answers 404, 400 and 409 and writes nothing; the
    last insert breaks the no-overlap invariant. *)
Theorem createBookingAdmin_applies_no_gate :
  (replyOf (run (adminController.createBookingAdmin sampleEnv (adminBody 99 3000 4000 4))
              sampleStore) =
     Val {| code := 201;
            body := [("success", JBool true);
                     ("message", JStr "Booking created by admin successfully.");
                     ("event_id", JStr "7f3c")] |} /\
   storeAfter (run (adminController.createBookingAdmin sampleEnv (adminBody 99 3000 4000 4))
                 sampleStore) =
     withBookings sampleStore
       (room_bookings sampleStore ++
        [adminController.newBooking sampleEnv (adminBody 99 3000 4000 4) 99 "Orchid" "Board"
           "ceo@corp.com" 3000 4000 4]) /\
   bookingController.selectRoom 99 sampleStore = [] /\
   replyOf (run (bookingController.createBooking sampleEnv
                   (sampleBody "ceo@corp.com" 99 3000 4000 4)) sampleStore) =
     Val (failure 404 "Room not found."))
  /\
  (codeOf (replyOf (run (adminController.createBookingAdmin sampleEnv
                              (adminBody 1 3000 4000 500)) sampleStore)) = Some 201 /\
   storeAfter (run (adminController.createBookingAdmin sampleEnv (adminBody 1 3000 4000 500))
                 sampleStore) =
     withBookings sampleStore
       (room_bookings sampleStore ++
        [adminController.newBooking sampleEnv (adminBody 1 3000 4000 500) 1 "Orchid" "Board"
           "ceo@corp.com" 3000 4000 500]) /\
   bookingController.selectCapacity 1 sampleStore = [10] /\
   replyOf (run (bookingController.createBooking sampleEnv
                   (sampleBody "ceo@corp.com" 1 3000 4000 500)) sampleStore) =
     Val (failure 400 "Total participants exceed room capacity of 10."))
  /\
  (codeOf (replyOf (run (adminController.createBookingAdmin sampleEnv
                              (adminBody 1 1500 2500 4)) sampleStore)) = Some 201 /\
   storeAfter (run (adminController.createBookingAdmin sampleEnv (adminBody 1 1500 2500 4))
                 sampleStore) =
     withBookings sampleStore
       (room_bookings sampleStore ++
        [adminController.newBooking sampleEnv (adminBody 1 1500 2500 4) 1 "Orchid" "Board"
           "ceo@corp.com" 1500 2500 4]) /\
   taken sampleStore 1 1500 2500 /\
   replyOf (run (bookingController.createBooking sampleEnv
                   (sampleBody "ceo@corp.com" 1 1500 2500 4)) sampleStore) =
     Val (failure 409 "The room is already booked for the selected time slot.") /\
   noOverlap sampleStore /\
   ~ noOverlap (storeAfter (run (adminController.createBookingAdmin sampleEnv
                                   (adminBody 1 1500 2500 4)) sampleStore))).
Proof.
  repeat split; try reflexivity.
  - exists (sampleBooking "e1" "ann@corp.com" 1 1000 2000 confirmed).
    simpl. repeat split; auto; lia.
  - apply noOverlapb_sound; reflexivity.
  - intros H. apply noOverlapb_complete in H. vm_compute in H. discriminate.
Qed.

(** A 409 from [updateBooking] always comes from the availability count. *)
Lemma updateBooking_conflict_reply env st eventId b reply :
  replyOf (run (bookingController.updateBooking env eventId b) st) = Val reply ->
  code reply = 409 ->
  exists roomId start end_,
    bookingController.room_id b = Some roomId /\
    bookingController.start_datetime b = Some start /\
    bookingController.end_datetime b = Some end_ /\
    takenByOther st eventId roomId start end_.
Proof.
  unfold run, replyOf, bookingController.updateBooking.
  destruct (bookingController.room_id b) as [roomId|]; [|simpl; intros [= <-]; discriminate].
  destruct (bookingController.subject b) as [subject|]; [|simpl; intros [= <-]; discriminate].
  destruct (bookingController.organizer_email b) as [organizer|];
    [|simpl; intros [= <-]; discriminate].
  destruct (bookingController.start_datetime b) as [start|];
    [|simpl; intros [= <-]; discriminate].
  destruct (bookingController.end_datetime b) as [end_|];
    [|simpl; intros [= <-]; discriminate].
  destruct (bookingController.total_participants b) as [total|];
    [|simpl; intros [= <-]; discriminate].
  destruct (_ || _); [simpl; intros [= <-]; discriminate|].
  unfold_monad; unfold bookingController.sendEmail, bookingController.updateWhereEventId; simpl.
  repeat (head_destruct; simpl; try (intros [= <-]; discriminate); try discriminate).
  all: intros _ _; exists roomId, start, end_; repeat split;
    apply countOtherOverlaps_pos; assumption.
Qed.

Lemma mailWorks_sendEmail env toEmail subject w :
  mailWorks env ->
  exists w', bookingController.sendEmail env toEmail subject w = (Val tt, w').
Proof.
  unfold bookingController.sendEmail. intros [H|H]; rewrite H; simpl.
  - eexists; reflexivity.
  - destruct (mailConfigured env); simpl; eexists; reflexivity.
Qed.

(** A reschedule that passes the gates, for a confirmed booking. *)
Lemma updateBooking_passes_gates env st eventId b roomId subject organizer
    start end_ total own room others :
  In own (room_bookings st) ->
  Booking.event_id own = eventId ->
  Booking.status own = confirmed ->
  required b roomId subject organizer start end_ total ->
  eventId <> "" ->
  nominal env ->
  bookingController.selectRoom roomId st = room :: others ->
  total <= Room.capacity room ->
  ~ takenByOther st eventId roomId start end_ ->
  storeAfter (run (bookingController.updateBooking env eventId b) st) =
    withBookings st
      (map (fun r => if String.eqb (Booking.event_id r) eventId
                     then bookingController.rescheduled env b roomId (Room.name room)
                            subject organizer start end_ total r
                     else r)
           (room_bookings st))
  /\
  (mailWorks env ->
   replyOf (run (bookingController.updateBooking env eventId b) st) =
     Val {| code := 200;
            body := [("success", JBool true);
                     ("message", JStr "Booking updated successfully!")] |}).
Proof.
  intros Hown Hid Hst Hreq Hne Hnom Hroom Hle Hfree.
  assert (Hsel : exists existing more,
             bookingController.selectBooking eventId st = existing :: more).
  { assert (Hin : In own (bookingController.selectBooking eventId st)).
    { apply filter_In. split; [exact Hown|].
      rewrite Hid, String.eqb_refl, Hst. reflexivity. }
    destruct (bookingController.selectBooking eventId st) as [|x l];
      [contradiction | eauto]. }
  destruct Hsel as (existing & more & Hsel).
  split.
  - eapply updateBooking_free_store; eauto.
  - intros Hmail.
    rewrite (updateBooking_free env st eventId b roomId subject organizer start end_ total
               existing more room others Hreq Hne Hnom Hsel Hroom Hle Hfree).
    cbv zeta.
    match goal with
    | |- context [bookingController.sendEmail env ?t ?s ?w] =>
        destruct (mailWorks_sendEmail env t s w Hmail) as [w' ->]
    end. reflexivity.
Qed.

(** The availability count of createBooking is that of updateBooking plus
    the overlapping rows of the rescheduled booking. *)
Lemma countOverlaps_split (st : Store) (eventId : string) (roomId start end_ : Z) :
  bookingController.countOverlaps roomId start end_ st =
    (bookingController.countOtherOverlaps roomId start end_ eventId st
     + List.length (ownOverlaps st eventId roomId start end_))%nat.
Proof.
  unfold bookingController.countOverlaps, bookingController.countOtherOverlaps, ownOverlaps.
  induction (room_bookings st) as [|r l IH]; [reflexivity|].
  simpl.
  destruct (Booking.room_id r =? roomId); simpl; [|exact IH].
  destruct (isConfirmed (Booking.status r)); simpl; [|exact IH].
  destruct (String.eqb (Booking.event_id r) eventId); simpl;
    destruct (bookingController.overlaps r start end_); simpl; rewrite IH; lia.
Qed.

Lemma selectBooking_finds (st : Store) (eventId : string) (own : Booking.t) :
  In own (room_bookings st) ->
  Booking.event_id own = eventId ->
  Booking.status own = confirmed ->
  exists existing more, bookingController.selectBooking eventId st = existing :: more.
Proof.
  intros Hown Hid Hst.
  assert (Hin : In own (bookingController.selectBooking eventId st)).
  { apply filter_In. split; [exact Hown|].
    rewrite Hid, String.eqb_refl, Hst. reflexivity. }
  destruct (bookingController.selectBooking eventId st) as [|x l];
    [contradiction | eauto].
Qed.

(** C4.  The overlap check of updateBooking is evaluated against the other
    confirmed bookings of the target room and leaves out the rescheduled
    booking itself.  The count of the check is positive exactly when a
    confirmed booking of the room with another event_id overlaps the
    requested interval, and it is the count of createBooking's check less the
    overlapping rows of the booking itself.  For a confirmed booking, with
    the store answering and the room and capacity gates passed: when such
    another booking overlaps, the reply is 409 and nothing is written; when
    none does (so whatever overlaps is the booking's own current slot), the
    reschedule is written, with reply 200 if the mail goes through.  In every
    environment a 409 is answered only when another booking overlaps. *)
Theorem reschedule_ignores_own_slot env st eventId b roomId subject organizer
    start end_ total own :
  In own (room_bookings st) ->
  Booking.event_id own = eventId ->
  Booking.status own = confirmed ->
  required b roomId subject organizer start end_ total ->
  eventId <> "" ->
  ((0 < bookingController.countOtherOverlaps roomId start end_ eventId st)%nat <->
   takenByOther st eventId roomId start end_)
  /\
  bookingController.countOverlaps roomId start end_ st =
    (bookingController.countOtherOverlaps roomId start end_ eventId st
     + List.length (ownOverlaps st eventId roomId start end_))%nat
  /\
  (codeOf (replyOf (run (bookingController.updateBooking env eventId b) st)) = Some 409 ->
   takenByOther st eventId roomId start end_)
  /\
  (~ takenByOther st eventId roomId start end_ ->
   bookingController.countOtherOverlaps roomId start end_ eventId st = 0%nat /\
   codeOf (replyOf (run (bookingController.updateBooking env eventId b) st)) <> Some 409)
  /\
  (forall room others,
     nominal env ->
     bookingController.selectRoom roomId st = room :: others ->
     total <= Room.capacity room ->
     (takenByOther st eventId roomId start end_ ->
      replyOf (run (bookingController.updateBooking env eventId b) st) =
        Val (failure 409
               "The room is already booked for the new time slot (conflict detected).") /\
      storeAfter (run (bookingController.updateBooking env eventId b) st) = st)
     /\
     (~ takenByOther st eventId roomId start end_ ->
      storeAfter (run (bookingController.updateBooking env eventId b) st) =
        withBookings st
          (map (fun r => if String.eqb (Booking.event_id r) eventId
                         then bookingController.rescheduled env b roomId (Room.name room)
                                subject organizer start end_ total r
                         else r)
               (room_bookings st))
      /\
      (mailWorks env ->
       replyOf (run (bookingController.updateBooking env eventId b) st) =
         Val {| code := 200;
                body := [("success", JBool true);
                         ("message", JStr "Booking updated successfully!")] |}))).
Proof.
  intros Hown Hid Hst Hreq Hne.
  assert (Hconflict :
            codeOf (replyOf (run (bookingController.updateBooking env eventId b) st))
              = Some 409 ->
            takenByOther st eventId roomId start end_).
  { destruct (replyOf (run (bookingController.updateBooking env eventId b) st))
      as [reply|msg] eqn:Hr; simpl; [|discriminate].
    intros [= Hcode].
    destruct (updateBooking_conflict_reply env st eventId b reply Hr Hcode)
      as (roomId' & start' & end' & Hr' & Hs' & He' & Htaken).
    destruct Hreq as (Hrid & _ & _ & _ & _ & _ & Hs & He & _).
    rewrite Hrid in Hr'. rewrite Hs in Hs'. rewrite He in He'.
    injection Hr' as <-. injection Hs' as <-. injection He' as <-.
    exact Htaken. }
  split.
  { split.
    - intros Hpos. apply countOtherOverlaps_pos. now apply Nat.ltb_lt.
    - intros Htaken. apply Nat.ltb_lt. now apply takenByOther_counted. }
  split; [apply countOverlaps_split|].
  split; [exact Hconflict|].
  split.
  { intros Hfree. split; [|intros Hcode; exact (Hfree (Hconflict Hcode))].
    destruct (0 <? bookingController.countOtherOverlaps roomId start end_ eventId st)%nat
      eqn:Hc; [exfalso; apply Hfree; now apply countOtherOverlaps_pos|].
    now apply ltb_length_zero. }
  intros room others Hnom Hroom Hle. split.
  - intros Htaken.
    destruct (selectBooking_finds st eventId own Hown Hid Hst) as (existing & more & Hsel).
    rewrite (updateBooking_taken env st eventId b roomId subject organizer start end_ total
               existing more room others Hreq Hne Hnom Hsel Hroom Hle Htaken).
    split; reflexivity.
  - intros Hfree.
    exact (updateBooking_passes_gates env st eventId b roomId subject organizer
             start end_ total own room others Hown Hid Hst Hreq Hne Hnom Hroom Hle Hfree).
Qed.

Lemma reschedule_ignores_own_slot_witness :
  (* onto its own slot: [2000, 3000) moved to [2500, 3500) *)
  (taken sampleStore 1 2500 3500 /\
   bookingController.countOverlaps 1 2500 3500 sampleStore = 1%nat /\
   bookingController.countOtherOverlaps 1 2500 3500 "e2" sampleStore = 0%nat /\
   codeOf (replyOf (run (bookingController.updateBooking sampleEnv "e2"
                           (sampleBody "bob@corp.com" 1 2500 3500 4)) sampleStore))
     <> Some 409 /\
   replyOf (run (bookingController.updateBooking sampleEnv "e2"
                   (sampleBody "bob@corp.com" 1 2500 3500 4)) sampleStore) =
     Val {| code := 200;
            body := [("success", JBool true);
                     ("message", JStr "Booking updated successfully!")] |})
  /\
  (* onto the slot of another booking: [2000, 3000) moved to [1500, 2500) *)
  ((0 < bookingController.countOtherOverlaps 1 1500 2500 "e2" sampleStore)%nat /\
   replyOf (run (bookingController.updateBooking sampleEnv "e2"
                   (sampleBody "bob@corp.com" 1 1500 2500 4)) sampleStore) =
     Val (failure 409
            "The room is already booked for the new time slot (conflict detected).") /\
   storeAfter (run (bookingController.updateBooking sampleEnv "e2"
                      (sampleBody "bob@corp.com" 1 1500 2500 4)) sampleStore) = sampleStore).
Proof.
  split.
  - destruct (reschedule_ignores_own_slot sampleEnv sampleStore "e2"
                (sampleBody "bob@corp.com" 1 2500 3500 4) 1 "Review" "bob@corp.com"
                2500 3500 4 (sampleBooking "e2" "bob@corp.com" 1 2000 3000 confirmed))
      as (_ & Hsplit & _ & Hfree & Hrun).
    + simpl. auto.
    + reflexivity.
    + reflexivity.
    + sample_required.
    + discriminate.
    + assert (Hnone : ~ takenByOther sampleStore "e2" 1 2500 3500).
      { intros (r & Hr & Hroom & Hst & Hid & H1 & H2). sample_rows Hr. }
      destruct (Hfree Hnone) as [Hcount Hcode].
      split.
      { exists (sampleBooking "e2" "bob@corp.com" 1 2000 3000 confirmed).
        simpl. repeat split; auto; lia. }
      split; [rewrite Hsplit, Hcount; reflexivity|].
      split; [exact Hcount|]. split; [exact Hcode|].
      destruct (Hrun (Room.mk 1 "Orchid" 10 None None) []) as [_ Hwrite].
      * sample_nominal.
      * reflexivity.
      * simpl. lia.
      * destruct (Hwrite Hnone) as [_ Hreply]. apply Hreply. right. reflexivity.
  - destruct (reschedule_ignores_own_slot sampleEnv sampleStore "e2"
                (sampleBody "bob@corp.com" 1 1500 2500 4) 1 "Review" "bob@corp.com"
                1500 2500 4 (sampleBooking "e2" "bob@corp.com" 1 2000 3000 confirmed))
      as (Hcounted & _ & _ & _ & Hrun).
    + simpl. auto.
    + reflexivity.
    + reflexivity.
    + sample_required.
    + discriminate.
    + assert (Hother : takenByOther sampleStore "e2" 1 1500 2500).
      { exists (sampleBooking "e1" "ann@corp.com" 1 1000 2000 confirmed).
        simpl. repeat split; auto; try lia; discriminate. }
      split; [apply Hcounted; exact Hother|].
      destruct (Hrun (Room.mk 1 "Orchid" 10 None None) []) as [Hrefused _].
      * sample_nominal.
      * reflexivity.
      * simpl. lia.
      * exact (Hrefused Hother).
Defined.

Lemma selectBooking_none (st : Store) (eventId : string) :
  (forall r, In r (room_bookings st) -> Booking.event_id r = eventId ->
             Booking.status r = cancelled) ->
  bookingController.selectBooking eventId st = [].
Proof.
  intros H. destruct (bookingController.selectBooking eventId st) as [|x l] eqn:Hsel;
    [reflexivity|].
  assert (Hin : In x (bookingController.selectBooking eventId st))
    by (rewrite Hsel; left; reflexivity).
  apply filter_In in Hin as [Hin Hp]. apply andb_true_iff in Hp as [Hid Hst].
  apply String.eqb_eq in Hid. apply isConfirmed_spec in Hst.
  rewrite (H x Hin Hid) in Hst. discriminate.
Qed.

(** C5.  When no row of room_bookings carries [eventId] with status
    confirmed (the identifier is unknown, or its booking is cancelled),
    updateBooking leaves the store as it was, in every environment; and when
    the request carries the required fields and the store answers, the reply
    is the 404 "Original booking not found or already cancelled." after a
    BEGIN, the lookup and a ROLLBACK, with no UPDATE issued. *)
Theorem reschedule_of_missing_or_cancelled_rejected env st eventId b :
  (forall r, In r (room_bookings st) -> Booking.event_id r = eventId ->
             Booking.status r = cancelled) ->
  storeAfter (run (bookingController.updateBooking env eventId b) st) = st
  /\
  (forall roomId subject organizer start end_ total,
     required b roomId subject organizer start end_ total ->
     eventId <> "" ->
     nominal env ->
     replyOf (run (bookingController.updateBooking env eventId b) st) =
       Val (failure 404 "Original booking not found or already cancelled.") /\
     traceOf (run (bookingController.updateBooking env eventId b) st) =
       [TxBegin; Sql SelectBooking OnTransaction; TxRollback]).
Proof.
  intros Hnone. pose proof (selectBooking_none st eventId Hnone) as Hsel.
  split.
  - destruct (updateBooking_store env st eventId b)
      as [H|(roomId & room & subject & organizer & start & end_ & total & Hne & _)];
      [exact H | contradiction].
  - intros roomId subject organizer start end_ total Hreq Hid Hnom.
    rewrite (updateBooking_missing env st eventId b roomId subject organizer start end_ total
               Hreq Hid Hnom Hsel).
    split; reflexivity.
Qed.

Lemma reschedule_of_missing_or_cancelled_rejected_witness :
  storeAfter (run (bookingController.updateBooking sampleEnv "e3"
                     (sampleBody "cyd@corp.com" 1 4000 5000 4)) sampleStore) = sampleStore /\
  replyOf (run (bookingController.updateBooking sampleEnv "e3"
                  (sampleBody "cyd@corp.com" 1 4000 5000 4)) sampleStore) =
    Val (failure 404 "Original booking not found or already cancelled.") /\
  storeAfter (run (bookingController.updateBooking sampleEnv "e9"
                     (sampleBody "cyd@corp.com" 1 4000 5000 4)) sampleStore) = sampleStore /\
  replyOf (run (bookingController.updateBooking sampleEnv "e9"
                  (sampleBody "cyd@corp.com" 1 4000 5000 4)) sampleStore) =
    Val (failure 404 "Original booking not found or already cancelled.").
Proof.
  destruct (reschedule_of_missing_or_cancelled_rejected sampleEnv sampleStore "e3"
              (sampleBody "cyd@corp.com" 1 4000 5000 4)) as [Hstore Hreply].
  { intros r Hr Hid. sample_rows Hr. }
  destruct (reschedule_of_missing_or_cancelled_rejected sampleEnv sampleStore "e9"
              (sampleBody "cyd@corp.com" 1 4000 5000 4)) as [Hstore' Hreply'].
  { intros r Hr Hid. sample_rows Hr. }
  split; [exact Hstore|]. split.
  { apply (Hreply 1 "Review" "cyd@corp.com" 4000 5000 4);
      [sample_required | discriminate | sample_nominal]. }
  split; [exact Hstore'|].
  apply (Hreply' 1 "Review" "cyd@corp.com" 4000 5000 4);
    [sample_required | discriminate | sample_nominal].
Defined.

Lemma selectOwnBooking_none (st : Store) (eventId email : string) :
  (forall r, In r (room_bookings st) -> Booking.event_id r = eventId ->
             Booking.status r = confirmed -> Booking.organizer_email r <> email) ->
  bookingController.selectOwnBooking eventId email st = [].
Proof.
  intros H. destruct (bookingController.selectOwnBooking eventId email st) as [|x l] eqn:Hsel;
    [reflexivity|].
  assert (Hin : In x (bookingController.selectOwnBooking eventId email st))
    by (rewrite Hsel; left; reflexivity).
  apply filter_In in Hin as [Hin Hp]. rewrite !andb_true_iff in Hp.
  destruct Hp as [[Hid Hmail] Hst].
  apply String.eqb_eq in Hid, Hmail. apply isConfirmed_spec in Hst.
  exfalso. exact (H x Hin Hid Hst Hmail).
Qed.

(** The run of [cancelBooking] when its lookup finds nothing does not depend
    on the identifier or on the email. *)
Lemma cancelBooking_nothing_found env st eventId email otherId otherEmail :
  eventId <> "" -> email <> "" -> otherId <> "" -> otherEmail <> "" ->
  bookingController.selectOwnBooking eventId email st = [] ->
  bookingController.selectOwnBooking otherId otherEmail st = [] ->
  run (bookingController.cancelBooking env eventId (Some email)) st =
  run (bookingController.cancelBooking env otherId (Some otherEmail)) st.
Proof.
  intros H1 H2 H3 H4 Hs Hs'.
  apply String.eqb_neq in H1, H2, H3, H4.
  unfold run, bookingController.cancelBooking. rewrite H1, H2, H3, H4. simpl.
  unfold_monad. simpl.
  repeat (head_destruct; simpl; rewrite ?Hs, ?Hs'; try reflexivity).
Qed.

Lemma cancelBooking_not_found env st eventId email :
  eventId <> "" -> email <> "" ->
  nominal env ->
  bookingController.selectOwnBooking eventId email st = [] ->
  run (bookingController.cancelBooking env eventId (Some email)) st =
    (Val (failure 404 "Booking not found or not eligible for cancellation by this email."),
     {| db := st; snapshot := None; rolledBack := true; calls := 3;
        log := [TxBegin; Sql SelectOwnBooking OnTransaction; TxRollback] |}).
Proof.
  intros H1 H2 Hnom Hs. apply String.eqb_neq in H1, H2.
  unfold run, bookingController.cancelBooking. rewrite H1, H2. simpl.
  use_nominal Hnom. rewrite Hs. simpl. rewrite Hfault. reflexivity.
Qed.

(** C6.  In every state of the store and every environment, cancelBooking
    called for an existing confirmed booking with an email that is not its
    organizer's, and cancelBooking called with an identifier no row carries
    and any email, run identically: the same reply (status and body), the same
    driver calls, and the store left as it was; when the store answers that
    reply is the 404 "Booking not found or not eligible for cancellation by
    this email." *)
Theorem cancel_wrong_email_same_as_unknown_id env st eventId email booking
    unknownId anyEmail :
  In booking (room_bookings st) ->
  Booking.event_id booking = eventId ->
  Booking.status booking = confirmed ->
  (forall r, In r (room_bookings st) -> Booking.event_id r = eventId ->
             Booking.organizer_email r <> email) ->
  (forall r, In r (room_bookings st) -> Booking.event_id r <> unknownId) ->
  eventId <> "" -> email <> "" -> unknownId <> "" -> anyEmail <> "" ->
  run (bookingController.cancelBooking env eventId (Some email)) st =
  run (bookingController.cancelBooking env unknownId (Some anyEmail)) st
  /\
  storeAfter (run (bookingController.cancelBooking env eventId (Some email)) st) = st
  /\
  storeAfter (run (bookingController.cancelBooking env unknownId (Some anyEmail)) st) = st
  /\
  (nominal env ->
   replyOf (run (bookingController.cancelBooking env eventId (Some email)) st) =
     Val (failure 404 "Booking not found or not eligible for cancellation by this email.")).
Proof.
  intros Hin Hid Hst Hwrong Hunknown H1 H2 H3 H4.
  assert (Hs : bookingController.selectOwnBooking eventId email st = []).
  { apply selectOwnBooking_none. intros r Hr Hrid _. exact (Hwrong r Hr Hrid). }
  assert (Hs' : bookingController.selectOwnBooking unknownId anyEmail st = []).
  { apply selectOwnBooking_none. intros r Hr Hrid. destruct (Hunknown r Hr Hrid). }
  assert (Hsame := cancelBooking_nothing_found env st eventId email unknownId anyEmail
                     H1 H2 H3 H4 Hs Hs').
  assert (Hstore : storeAfter (run (bookingController.cancelBooking env unknownId
                                      (Some anyEmail)) st) = st).
  { destruct (cancelBooking_store env st unknownId (Some anyEmail))
      as [H|(e & [= <-] & Hne & _)]; [exact H | contradiction]. }
  split; [exact Hsame|]. split; [rewrite Hsame; exact Hstore|]. split; [exact Hstore|].
  intros Hnom. rewrite (cancelBooking_not_found env st eventId email H1 H2 Hnom Hs).
  reflexivity.
Qed.

Lemma cancel_wrong_email_same_as_unknown_id_witness :
  run (bookingController.cancelBooking sampleEnv "e1" (Some "bob@corp.com")) sampleStore =
  run (bookingController.cancelBooking sampleEnv "e9" (Some "ann@corp.com")) sampleStore /\
  storeAfter (run (bookingController.cancelBooking sampleEnv "e1" (Some "bob@corp.com"))
                sampleStore) = sampleStore /\
  replyOf (run (bookingController.cancelBooking sampleEnv "e1" (Some "bob@corp.com"))
             sampleStore) =
    Val (failure 404 "Booking not found or not eligible for cancellation by this email.").
Proof.
  destruct (cancel_wrong_email_same_as_unknown_id sampleEnv sampleStore "e1" "bob@corp.com"
              (sampleBooking "e1" "ann@corp.com" 1 1000 2000 confirmed) "e9" "ann@corp.com")
    as (Hsame & Hstore & _ & Hreply).
  - simpl. auto.
  - reflexivity.
  - reflexivity.
  - intros r Hr Hid. sample_rows Hr.
  - intros r Hr. sample_rows Hr.
  - discriminate.
  - discriminate.
  - discriminate.
  - discriminate.
  - split; [exact Hsame|]. split; [exact Hstore|]. apply Hreply. sample_nominal.
Defined.

Lemma mailAfterInsertb_sound (l : list Event) (seen : bool) :
  mailAfterInsertb seen l = true ->
  forall pre e post,
    l = pre ++ e :: post -> isMail e ->
    seen = true \/ exists c, In (Sql InsertBooking c) pre.
Proof.
  revert seen. induction l as [|x l IH]; intros seen H pre e post Heq Hmail.
  - destruct pre; discriminate.
  - destruct pre as [|y pre]; simpl in Heq; injection Heq as Hx Hl; subst.
    + destruct e; simpl in Hmail; try contradiction.
      simpl in H. apply andb_true_iff in H as [H _]. left. exact H.
    + rename y into x. assert (Hstep : forall seen', mailAfterInsertb seen' (pre ++ e :: post) = true ->
                (seen' = true -> seen = true \/ exists c, In (Sql InsertBooking c) (x :: pre)) ->
                seen = true \/ exists c, In (Sql InsertBooking c) (x :: pre)).
      { intros seen' H' Hseen.
        destruct (IH seen' H' pre e post eq_refl Hmail) as [Hs|[c Hc]];
          [exact (Hseen Hs) | right; exists c; right; exact Hc]. }
      destruct x as [| | |q c|to subject delivered|path]; simpl in H.
      * apply (Hstep seen H). tauto.
      * apply (Hstep seen H). tauto.
      * apply (Hstep seen H). tauto.
      * destruct q; try (apply (Hstep seen H); tauto).
        apply (Hstep true H). intros _. right. exists c. left. reflexivity.
      * apply andb_true_iff in H as [Hs H]. left. exact Hs.
      * apply (Hstep seen H). tauto.
Qed.

Lemma createBooking_mail_order (env : Env) (st : Store) (b : bookingController.Body) :
  mailAfterInsertb false (traceOf (run (bookingController.createBooking env b) st)) = true.
Proof.
  unfold run, traceOf, bookingController.createBooking.
  destruct (bookingController.room_id b) as [roomId|]; [|reflexivity].
  destruct (bookingController.subject b) as [subject|]; [|reflexivity].
  destruct (bookingController.organizer_email b) as [organizer|]; [|reflexivity].
  destruct (bookingController.start_datetime b) as [start|]; [|reflexivity].
  destruct (bookingController.end_datetime b) as [end_|]; [|reflexivity].
  destruct (bookingController.total_participants b) as [total|]; [|reflexivity].
  destruct (_ || _); [reflexivity|].
  unfold_monad; unfold bookingController.sendEmail, bookingController.insertBooking; simpl.
  repeat (head_destruct; simpl; try reflexivity).
Qed.

(** C7.  In every run of createBooking, a mail event of the log has the
    insert into room_bookings before it; and when the insert has gone through
    and the mail gateway then rejects, the handler reports the failure (500,
    "Failed to send email notification.") while the store holds the inserted
    row: nothing undoes the write. *)
Theorem create_persists_before_notifying env st b :
  mailAfterInsert (traceOf (run (bookingController.createBooking env b) st))
  /\
  (forall roomId subject organizer start end_ total capacity others reason,
     required b roomId subject organizer start end_ total ->
     nominal env ->
     bookingController.selectCapacity roomId st = capacity :: others ->
     total <= capacity ->
     ~ taken st roomId start end_ ->
     mailConfigured env = true ->
     mailFault env = Some reason ->
     traceOf (run (bookingController.createBooking env b) st) =
       [Sql SelectRoomCapacity OnPool; Sql CountOverlaps OnPool; Sql InsertBooking OnPool;
        Mail organizer
          (String.append "Booking Confirmed: "
             (String.append subject
                (String.append " at " (tpl (bookingController.room_name b)))))
          false] /\
     replyOf (run (bookingController.createBooking env b) st) =
       Val (bookingController.serverError env "Failed to send email notification."
              "Failed to create booking.") /\
     storeAfter (run (bookingController.createBooking env b) st) =
       withBookings st
         (room_bookings st ++
          [bookingController.newBooking env b roomId subject organizer start end_ total])).
Proof.
  split.
  - intros pre e post Heq Hmail.
    destruct (mailAfterInsertb_sound _ false (createBooking_mail_order env st b)
                pre e post Heq Hmail) as [H|H]; [discriminate | exact H].
  - intros roomId subject organizer start end_ total capacity others reason
      Hreq Hnom Hcap Hle Hfree Hconf Hfault.
    rewrite (createBooking_free env st b roomId subject organizer start end_ total capacity
               others Hreq Hnom Hcap Hle Hfree).
    cbv zeta. unfold bookingController.sendEmail. rewrite Hconf, Hfault. simpl.
    repeat split.
Qed.

Lemma create_persists_before_notifying_witness :
  mailAfterInsert
    (traceOf (run (bookingController.createBooking mailDownEnv
                     (sampleBody "dan@corp.com" 1 3000 4000 4)) sampleStore)) /\
  replyOf (run (bookingController.createBooking mailDownEnv
                  (sampleBody "dan@corp.com" 1 3000 4000 4)) sampleStore) =
    Val (failure 500 "Failed to send email notification.") /\
  storeAfter (run (bookingController.createBooking mailDownEnv
                     (sampleBody "dan@corp.com" 1 3000 4000 4)) sampleStore) =
    withBookings sampleStore
      (room_bookings sampleStore ++
       [bookingController.newBooking mailDownEnv (sampleBody "dan@corp.com" 1 3000 4000 4)
          1 "Review" "dan@corp.com" 3000 4000 4]).
Proof.
  destruct (create_persists_before_notifying mailDownEnv sampleStore
              (sampleBody "dan@corp.com" 1 3000 4000 4)) as [Horder Hfail].
  split; [exact Horder|].
  destruct (Hfail 1 "Review" "dan@corp.com" 3000 4000 4 10 []
              "Request failed with status code 503") as (_ & Hreply & Hstore).
  - sample_required.
  - sample_nominal.
  - reflexivity.
  - lia.
  - intros (r & Hr & Hroom & Hst & H1 & H2). sample_rows Hr.
  - reflexivity.
  - reflexivity.
  - split; [exact Hreply | exact Hstore].
Defined.

Lemma cancelBooking_found env st eventId email found more :
  eventId <> "" -> email <> "" ->
  nominal env ->
  bookingController.selectOwnBooking eventId email st = found :: more ->
  storeAfter (run (bookingController.cancelBooking env eventId (Some email)) st) =
    withBookings st
      (map (fun r => if String.eqb (Booking.event_id r) eventId
                     then bookingController.cancelledRow env r else r)
           (room_bookings st)).
Proof.
  intros H1 H2 Hnom Hs. apply String.eqb_neq in H1, H2.
  assert (Haff : (List.length (filter (fun r => String.eqb (Booking.event_id r) eventId)
                                      (room_bookings st)) =? 0)%nat = false).
  { assert (Hin : In found (bookingController.selectOwnBooking eventId email st))
      by (rewrite Hs; left; reflexivity).
    apply filter_In in Hin as [Hin Hp]. rewrite !andb_true_iff in Hp.
    destruct Hp as [[Hid _] _].
    assert (Hin' : In found (filter (fun r => String.eqb (Booking.event_id r) eventId)
                                    (room_bookings st)))
      by (apply filter_In; split; assumption).
    destruct (filter _ (room_bookings st)); [contradiction | reflexivity]. }
  unfold run, storeAfter, bookingController.cancelBooking. rewrite H1, H2. simpl.
  use_nominal Hnom. rewrite Hs. simpl. rewrite Hfault.
  unfold bookingController.updateWhereEventId. simpl. rewrite Haff, Hfault. simpl.
  unfold bookingController.sendEmail.
  destruct (mailConfigured env); simpl; [|reflexivity].
  destruct (mailFault env); reflexivity.
Qed.

(** C8.  updateBooking never compares the caller's organizer_email with the
    stored one: for a confirmed booking, whoever its stored organizer is, a
    request that passes the gates is written, every row carrying the
    identifier then holds the caller-supplied organizer_email, and the reply
    is 200 when the mail goes through.  cancelBooking with that same email is
    turned away with 404 and writes nothing when it is not the stored
    organizer's, and cancels the booking when it is. *)
Theorem reschedule_overwrites_organizer_unchecked env st eventId b roomId subject
    organizer start end_ total own room others :
  In own (room_bookings st) ->
  Booking.event_id own = eventId ->
  Booking.status own = confirmed ->
  required b roomId subject organizer start end_ total ->
  eventId <> "" ->
  nominal env ->
  bookingController.selectRoom roomId st = room :: others ->
  total <= Room.capacity room ->
  ~ takenByOther st eventId roomId start end_ ->
  storeAfter (run (bookingController.updateBooking env eventId b) st) =
    withBookings st
      (map (fun r => if String.eqb (Booking.event_id r) eventId
                     then bookingController.rescheduled env b roomId (Room.name room)
                            subject organizer start end_ total r
                     else r)
           (room_bookings st))
  /\
  (forall r,
     In r (room_bookings (storeAfter (run (bookingController.updateBooking env eventId b) st))) ->
     Booking.event_id r = eventId -> Booking.organizer_email r = organizer)
  /\
  (mailWorks env ->
   replyOf (run (bookingController.updateBooking env eventId b) st) =
     Val {| code := 200;
            body := [("success", JBool true);
                     ("message", JStr "Booking updated successfully!")] |})
  /\
  ((forall r, In r (room_bookings st) -> Booking.event_id r = eventId ->
              Booking.organizer_email r <> organizer) ->
   replyOf (run (bookingController.cancelBooking env eventId (Some organizer)) st) =
     Val (failure 404 "Booking not found or not eligible for cancellation by this email.") /\
   storeAfter (run (bookingController.cancelBooking env eventId (Some organizer)) st) = st)
  /\
  (Booking.organizer_email own = organizer ->
   storeAfter (run (bookingController.cancelBooking env eventId (Some organizer)) st) =
     withBookings st
       (map (fun r => if String.eqb (Booking.event_id r) eventId
                      then bookingController.cancelledRow env r else r)
            (room_bookings st))).
Proof.
  intros Hown Hid Hst Hreq Hne Hnom Hroom Hle Hfree.
  destruct (updateBooking_passes_gates env st eventId b roomId subject organizer
              start end_ total own room others Hown Hid Hst Hreq Hne Hnom Hroom Hle Hfree)
    as [Hstore Hreply].
  assert (Horg : organizer <> "") by (destruct Hreq as (_ & _ & _ & _ & _ & H & _); exact H).
  split; [exact Hstore|]. split.
  { rewrite Hstore. simpl. intros r Hr Hrid.
    apply in_map_iff in Hr as (r0 & Hr0 & _).
    destruct (String.eqb_spec (Booking.event_id r0) eventId) as [He|He].
    - subst r. reflexivity.
    - subst r. contradiction. }
  split; [exact Hreply|]. split.
  { intros Hwrong.
    assert (Hs : bookingController.selectOwnBooking eventId organizer st = []).
    { apply selectOwnBooking_none. intros r Hr Hrid _. exact (Hwrong r Hr Hrid). }
    rewrite (cancelBooking_not_found env st eventId organizer Hne Horg Hnom Hs).
    split; reflexivity. }
  intros Hsame.
  assert (Hin : In own (bookingController.selectOwnBooking eventId organizer st)).
  { apply filter_In. split; [exact Hown|].
    rewrite Hid, Hsame, !String.eqb_refl, Hst. reflexivity. }
  destruct (bookingController.selectOwnBooking eventId organizer st) as [|found more] eqn:Hs;
    [contradiction|].
  exact (cancelBooking_found env st eventId organizer found more Hne Horg Hnom Hs).
Qed.

Lemma reschedule_overwrites_organizer_unchecked_witness :
  Booking.organizer_email (sampleBooking "e1" "ann@corp.com" 1 1000 2000 confirmed)
    <> "mallory@else.org" /\
  replyOf (run (bookingController.updateBooking sampleEnv "e1"
                  (sampleBody "mallory@else.org" 2 3000 4000 4)) sampleStore) =
    Val {| code := 200;
           body := [("success", JBool true);
                    ("message", JStr "Booking updated successfully!")] |} /\
  (forall r,
     In r (room_bookings
             (storeAfter (run (bookingController.updateBooking sampleEnv "e1"
                                 (sampleBody "mallory@else.org" 2 3000 4000 4)) sampleStore))) ->
     Booking.event_id r = "e1" -> Booking.organizer_email r = "mallory@else.org") /\
  replyOf (run (bookingController.cancelBooking sampleEnv "e1" (Some "mallory@else.org"))
             sampleStore) =
    Val (failure 404 "Booking not found or not eligible for cancellation by this email.").
Proof.
  split; [discriminate|].
  destruct (reschedule_overwrites_organizer_unchecked sampleEnv sampleStore "e1"
              (sampleBody "mallory@else.org" 2 3000 4000 4) 2 "Review" "mallory@else.org"
              3000 4000 4 (sampleBooking "e1" "ann@corp.com" 1 1000 2000 confirmed)
              (Room.mk 2 "Lotus" 4 None None) [])
    as (_ & Hrows & Hreply & Hcancel & _).
  - simpl. auto.
  - reflexivity.
  - reflexivity.
  - sample_required.
  - discriminate.
  - sample_nominal.
  - reflexivity.
  - simpl. lia.
  - intros (r & Hr & Hroom & Hst & Hid & H1 & H2). sample_rows Hr.
  - split; [apply Hreply; right; reflexivity|]. split; [exact Hrows|].
    apply Hcancel. intros r Hr Hid. sample_rows Hr.
Defined.

(** ** The OTP controller *)

Lemma randomInt_range (env : Env) (min max : Z) :
  min < max -> min <= otpController.randomInt env min max < max.
Proof.
  intros H. unfold otpController.randomInt.
  pose proof (Z.mod_pos_bound (entropy env) (max - min)). lia.
Qed.

Lemma isDigit_digitChar (d : Z) :
  0 <= d <= 9 -> otpRoutes.isDigit (digitChar d) = true.
Proof.
  intros H.
  assert (Hd : d = 0 \/ d = 1 \/ d = 2 \/ d = 3 \/ d = 4 \/ d = 5 \/ d = 6 \/ d = 7
               \/ d = 8 \/ d = 9) by lia.
  repeat (destruct Hd as [->|Hd]; [reflexivity|]). subst. reflexivity.
Qed.

(** The decimal digits of a number of six figures. *)
Lemma digitsFuel_six (fuel : nat) (n : Z) (acc : string) :
  (6 <= fuel)%nat ->
  100000 <= n < 1000000 ->
  digitsFuel fuel n acc =
    String (digitChar (n / 100000 mod 10))
      (String (digitChar (n / 10000 mod 10))
         (String (digitChar (n / 1000 mod 10))
            (String (digitChar (n / 100 mod 10))
               (String (digitChar (n / 10 mod 10))
                  (String (digitChar (n mod 10)) acc))))).
Proof.
  intros Hfuel Hn.
  do 6 (destruct fuel as [|fuel]; [lia|]).
  assert (E1 : n / 10 / 10 = n / 100) by (rewrite Z.div_div by lia; reflexivity).
  assert (E2 : n / 100 / 10 = n / 1000) by (rewrite Z.div_div by lia; reflexivity).
  assert (E3 : n / 1000 / 10 = n / 10000) by (rewrite Z.div_div by lia; reflexivity).
  assert (E4 : n / 10000 / 10 = n / 100000) by (rewrite Z.div_div by lia; reflexivity).
  cbn [digitsFuel].
  replace (n <? 10) with false by (symmetry; apply Z.ltb_ge; lia).
  replace (n / 10 <? 10) with false
    by (symmetry; apply Z.ltb_ge; apply Z.div_le_lower_bound; lia).
  rewrite E1.
  replace (n / 100 <? 10) with false
    by (symmetry; apply Z.ltb_ge; apply Z.div_le_lower_bound; lia).
  rewrite E2.
  replace (n / 1000 <? 10) with false
    by (symmetry; apply Z.ltb_ge; apply Z.div_le_lower_bound; lia).
  rewrite E3.
  replace (n / 10000 <? 10) with false
    by (symmetry; apply Z.ltb_ge; apply Z.div_le_lower_bound; lia).
  rewrite E4.
  replace (n / 100000 <? 10) with true
    by (symmetry; apply Z.ltb_lt; apply Z.div_lt_upper_bound; lia).
  reflexivity.
Qed.

Lemma toString_six (n : Z) :
  100000 <= n < 1000000 ->
  String.length (toString n) = 6%nat /\ otpRoutes.allDigits (toString n) = true.
Proof.
  intros Hn. unfold toString, digits.
  replace (n <? 0) with false by (symmetry; apply Z.ltb_ge; lia).
  rewrite digitsFuel_six; [|idtac|exact Hn].
  - split; [cbn [String.length]; reflexivity|]. cbn [otpRoutes.allDigits].
    assert (Hmod : forall k, 0 <= k mod 10 <= 9)
      by (intros k; pose proof (Z.mod_pos_bound k 10); lia).
    rewrite !isDigit_digitChar by apply Hmod. reflexivity.
  - assert (H5 : 5 <= Z.log2 n).
    { change 5 with (Z.log2 32). apply Z.log2_le_mono. lia. }
    lia.
Qed.

(** The store after [sendOtp], whatever becomes of the mail. *)
Lemma sendOtp_store env st email :
  email <> "" ->
  nominal env ->
  storeAfter (run (otpController.sendOtp env (Some email)) st) =
    snd (otpController.mergeOtp email
           (toString (otpController.randomInt env 100000 999999))
           (clock env 0 + 5 * 60 * 1000) (clock env 1) st).
Proof.
  intros Hne Hnom. apply String.eqb_neq in Hne.
  unfold run, storeAfter, otpController.sendOtp. rewrite Hne.
  use_nominal Hnom. unfold otpController.sendEmail.
  destruct (graphClient env); simpl; [|reflexivity].
  destruct (mailFault env); reflexivity.
Qed.

Lemma existsb_email_In (l : list OtpRow.t) (email : string) :
  existsb (fun r => String.eqb (OtpRow.email r) email) l = true <->
  In email (map OtpRow.email l).
Proof.
  rewrite existsb_exists, in_map_iff. split.
  - intros (r & Hr & He). apply String.eqb_eq in He. eauto.
  - intros (r & He & Hr). exists r. split; [exact Hr | now apply String.eqb_eq].
Qed.

Lemma reissued_keeps_emails (l : list OtpRow.t) (email otp : string) (expiresAt createdAt : Z) :
  map OtpRow.email
    (map (fun r => if String.eqb (OtpRow.email r) email
                   then otpController.reissued otp expiresAt createdAt r else r) l)
  = map OtpRow.email l.
Proof.
  rewrite map_map. apply map_ext. intros r.
  destruct (String.eqb (OtpRow.email r) email); reflexivity.
Qed.

(** C9.  sendOtp, when the request names an email and the store answers:
    the code is the decimal writing of an integer of [100000, 999999), six
    characters long, all of them digits; after the call every record of that
    email holds this code, the expiry [Date.now() + 5 * 60 * 1000], the
    creation time read next, and verified = false, and there is such a
    record; if one existed it was overwritten in place (the table keeps its
    rows and their order), otherwise one row was appended; records of other
    emails are untouched; and a table with at most one record per email
    stays so. *)
Theorem sendOtp_stores_one_six_digit_code env st email :
  email <> "" ->
  nominal env ->
  let code := toString (otpController.randomInt env 100000 999999) in
  let fresh := {| OtpRow.email := email;
                  OtpRow.otp := code;
                  OtpRow.expires_at := clock env 0 + 300000;
                  OtpRow.created_at := clock env 1;
                  OtpRow.is_verified := false |} in
  let after := storeAfter (run (otpController.sendOtp env (Some email)) st) in
  (100000 <= otpController.randomInt env 100000 999999 < 999999 /\
   String.length code = 6%nat /\ otpRoutes.allDigits code = true)
  /\
  (forall r, In r (otp_storage after) -> OtpRow.email r = email -> r = fresh)
  /\
  In fresh (otp_storage after)
  /\
  (In email (map OtpRow.email (otp_storage st)) ->
   otp_storage after =
     map (fun r => if String.eqb (OtpRow.email r) email then fresh else r) (otp_storage st))
  /\
  (~ In email (map OtpRow.email (otp_storage st)) ->
   otp_storage after = otp_storage st ++ [fresh])
  /\
  (forall r, OtpRow.email r <> email ->
             (In r (otp_storage after) <-> In r (otp_storage st)))
  /\
  (oneOtpPerEmail st -> oneOtpPerEmail after)
  /\
  rooms after = rooms st /\ room_bookings after = room_bookings st.
Proof.
  intros Hne Hnom code fresh after.
  pose proof (randomInt_range env 100000 999999 ltac:(lia)) as Hrange.
  assert (Hafter : after =
            snd (otpController.mergeOtp email code (clock env 0 + 300000) (clock env 1) st))
    by (exact (sendOtp_store env st email Hne Hnom)).
  assert (Hmap : forall l,
            map (fun r => if String.eqb (OtpRow.email r) email
                          then otpController.reissued code (clock env 0 + 300000)
                                 (clock env 1) r
                          else r) l
            = map (fun r => if String.eqb (OtpRow.email r) email then fresh else r) l).
  { intros l. apply map_ext. intros r.
    destruct (String.eqb_spec (OtpRow.email r) email) as [He|He]; [|reflexivity].
    unfold otpController.reissued, fresh. rewrite He. reflexivity. }
  assert (Hcases :
            (In email (map OtpRow.email (otp_storage st)) /\
             otp_storage after =
               map (fun r => if String.eqb (OtpRow.email r) email then fresh else r)
                   (otp_storage st)) \/
            (~ In email (map OtpRow.email (otp_storage st)) /\
             otp_storage after = otp_storage st ++ [fresh])).
  { rewrite Hafter. unfold otpController.mergeOtp. simpl.
    destruct (existsb _ (otp_storage st)) eqn:Hex.
    - left. split; [now apply existsb_email_In|]. simpl. apply Hmap.
    - right. split; [|reflexivity].
      intros Hin. apply existsb_email_In in Hin. congruence. }
  split.
  { split; [exact Hrange|]. apply toString_six. lia. }
  split.
  { intros r Hr He. destruct Hcases as [[_ Hrows]|[Hnone Hrows]]; rewrite Hrows in Hr.
    - apply in_map_iff in Hr as (r0 & Hr0 & _).
      destruct (String.eqb_spec (OtpRow.email r0) email) as [He0|He0];
        [congruence|]. subst r. contradiction.
    - apply in_app_iff in Hr as [Hr|[Hr|[]]]; [|congruence].
      exfalso. apply Hnone. apply in_map_iff. eauto. }
  split.
  { destruct Hcases as [[Hsome Hrows]|[_ Hrows]]; rewrite Hrows.
    - apply in_map_iff in Hsome as (r0 & He0 & Hr0).
      apply in_map_iff. exists r0. split; [|exact Hr0].
      rewrite He0, String.eqb_refl. reflexivity.
    - apply in_app_iff. right. left. reflexivity. }
  split.
  { intros Hin. destruct Hcases as [[_ Hrows]|[Hnone _]]; [exact Hrows | contradiction]. }
  split.
  { intros Hnin. destruct Hcases as [[Hsome _]|[_ Hrows]]; [contradiction | exact Hrows]. }
  split.
  { intros r He. destruct Hcases as [[_ Hrows]|[_ Hrows]]; rewrite Hrows.
    - rewrite in_map_iff. split.
      + intros (r0 & Hr0 & Hin).
        destruct (String.eqb_spec (OtpRow.email r0) email) as [He0|He0].
        * subst r. simpl in He. contradiction.
        * subst r. exact Hin.
      + intros Hin. exists r. split; [|exact Hin].
        apply String.eqb_neq in He. rewrite He. reflexivity.
    - rewrite in_app_iff. split; [|tauto].
      intros [Hin|[Hin|[]]]; [exact Hin|]. subst r. simpl in He. contradiction. }
  split.
  { unfold oneOtpPerEmail. intros Huniq.
    destruct Hcases as [[_ Hrows]|[Hnone Hrows]]; rewrite Hrows.
    - rewrite <- Hmap, reissued_keeps_emails. exact Huniq.
    - rewrite map_app. simpl. apply NoDup_app; [exact Huniq | | ].
      + constructor; [intros [] | constructor].
      + intros x Hx [Hx'|[]]. subst x. contradiction. }
  rewrite Hafter. unfold otpController.mergeOtp. simpl.
  destruct (existsb _ (otp_storage st)); split; reflexivity.
Qed.

Lemma sendOtp_stores_one_six_digit_code_witness :
  String.length (toString (otpController.randomInt sampleEnv 100000 999999)) = 6%nat /\
  otp_storage (storeAfter (run (otpController.sendOtp sampleEnv (Some "c@d.com")) otpStore)) =
    [sampleOtp "a@b.com" "111111" 4000 true;
     {| OtpRow.email := "c@d.com";
        OtpRow.otp := toString (otpController.randomInt sampleEnv 100000 999999);
        OtpRow.expires_at := 305000;
        OtpRow.created_at := 5001;
        OtpRow.is_verified := false |};
     sampleOtp "e@f.com" "333333" 9000 true].
Proof.
  destruct (sendOtp_stores_one_six_digit_code sampleEnv otpStore "c@d.com")
    as ((_ & Hlen & _) & _ & _ & Hover & _).
  - discriminate.
  - sample_nominal.
  - split; [exact Hlen|]. rewrite Hover; [reflexivity|]. simpl. auto.
Defined.

Lemma cleanupExpiredOtps_run env st :
  nominal env ->
  run (otpController.cleanupExpiredOtps env) st =
    let expired := filter (fun r => OtpRow.expires_at r <? clock env 0) (otp_storage st) in
    (Val {| code := 200;
            body := [("success", JBool true);
                     ("message", JStr (String.append "Cleaned up "
                                         (String.append
                                            (toString (Z.of_nat (List.length expired)))
                                            " expired OTP records.")));
                     ("deletedCount", JNum (Z.of_nat (List.length expired)))] |},
     {| db := withOtps st
                (filter (fun r => negb (OtpRow.expires_at r <? clock env 0)) (otp_storage st));
        snapshot := None; rolledBack := false; calls := 1;
        log := [Sql DeleteExpiredOtps OnPool] |}).
Proof.
  intros Hnom. unfold run, otpController.cleanupExpiredOtps.
  use_nominal Hnom. reflexivity.
Qed.

Lemma filter_none {A} (f : A -> bool) (l : list A) :
  (forall x, In x l -> f x = false) -> filter f l = [].
Proof.
  induction l as [|a l IH]; intros H; [reflexivity|]. simpl.
  rewrite (H a (or_introl eq_refl)). apply IH. intros x Hx. apply H. right. exact Hx.
Qed.

Lemma filter_all {A} (f : A -> bool) (l : list A) :
  (forall x, In x l -> f x = true) -> filter f l = l.
Proof.
  induction l as [|a l IH]; intros H; [reflexivity|]. simpl.
  rewrite (H a (or_introl eq_refl)). f_equal. apply IH. intros x Hx. apply H. right. exact Hx.
Qed.

(** C10.  cleanupExpiredOtps, when the store answers, called at time [now]:
    the records left are exactly those of the table whose [expires_at < now]
    does not hold, in their order and unchanged; the other tables are
    untouched; the reply's deletedCount is the number of records with
    [expires_at < now]; and a second call at a time at which no remaining
    record has expired, such as [now] itself, reports 0 deleted and leaves
    the store as the first call left it. *)
Theorem cleanup_deletes_exactly_the_expired env env' st :
  nominal env ->
  nominal env' ->
  let now := clock env 0 in
  let first := run (otpController.cleanupExpiredOtps env) st in
  let second := run (otpController.cleanupExpiredOtps env') (storeAfter first) in
  (forall r, In r (otp_storage st) -> now <= OtpRow.expires_at r ->
             clock env' 0 <= OtpRow.expires_at r) ->
  otp_storage (storeAfter first) =
    filter (fun r => negb (OtpRow.expires_at r <? now)) (otp_storage st)
  /\
  (forall r, In r (otp_storage (storeAfter first)) <->
             In r (otp_storage st) /\ ~ OtpRow.expires_at r < now)
  /\
  rooms (storeAfter first) = rooms st /\ room_bookings (storeAfter first) = room_bookings st
  /\
  codeOf (replyOf first) = Some 200
  /\
  (exists reply, replyOf first = Val reply /\
     field "deletedCount" (body reply) =
       Some (JNum (Z.of_nat (List.length
                               (filter (fun r => OtpRow.expires_at r <? now) (otp_storage st))))))
  /\
  (exists reply, replyOf second = Val reply /\
     field "deletedCount" (body reply) = Some (JNum 0) /\
     field "message" (body reply) = Some (JStr "Cleaned up 0 expired OTP records."))
  /\
  storeAfter second = storeAfter first.
Proof.
  intros Hnom Hnom' now first second Hquiet.
  assert (Hfirst := cleanupExpiredOtps_run env st Hnom). fold first in Hfirst.
  cbv zeta in Hfirst. fold now in Hfirst.
  assert (Hstore : storeAfter first =
            withOtps st (filter (fun r => negb (OtpRow.expires_at r <? now)) (otp_storage st)))
    by (rewrite Hfirst; reflexivity).
  assert (Hleft : forall r, In r (otp_storage (storeAfter first)) <->
                            In r (otp_storage st) /\ ~ OtpRow.expires_at r < now).
  { intros r. rewrite Hstore. simpl. rewrite filter_In, negb_true_iff, Z.ltb_nlt. tauto. }
  assert (Hnone : filter (fun r => OtpRow.expires_at r <? clock env' 0)
                         (otp_storage (storeAfter first)) = []).
  { apply filter_none. intros r Hr. apply Z.ltb_ge.
    apply Hleft in Hr as [Hr Hlive]. apply Hquiet; [exact Hr | lia]. }
  assert (Hsecond := cleanupExpiredOtps_run env' (storeAfter first) Hnom').
  fold second in Hsecond. cbv zeta in Hsecond. rewrite Hnone in Hsecond.
  split; [rewrite Hstore; reflexivity|].
  split; [exact Hleft|].
  split; [rewrite Hstore; reflexivity|].
  split; [rewrite Hstore; reflexivity|].
  split; [rewrite Hfirst; reflexivity|].
  split; [rewrite Hfirst; eexists; split; reflexivity|].
  split; [rewrite Hsecond; eexists; split; [reflexivity|split; reflexivity]|].
  rewrite Hsecond. unfold storeAfter at 1, committed. simpl.
  rewrite filter_all.
  - destruct (storeAfter first); reflexivity.
  - intros r Hr. apply negb_true_iff.
    pose proof (filter_length_zero (fun r => OtpRow.expires_at r <? clock env' 0)
                  (otp_storage (storeAfter first))) as Hz.
    rewrite Hnone in Hz. exact (Hz eq_refl r Hr).
Qed.

Lemma cleanup_deletes_exactly_the_expired_witness :
  otp_storage (storeAfter (run (otpController.cleanupExpiredOtps sampleEnv) otpStore)) =
    [sampleOtp "c@d.com" "222222" 5000 false; sampleOtp "e@f.com" "333333" 9000 true] /\
  (exists reply,
     replyOf (run (otpController.cleanupExpiredOtps sampleEnv) otpStore) = Val reply /\
     field "deletedCount" (body reply) = Some (JNum 1)) /\
  (exists reply,
     replyOf (run (otpController.cleanupExpiredOtps sampleEnv)
                (storeAfter (run (otpController.cleanupExpiredOtps sampleEnv) otpStore)))
       = Val reply /\
     field "deletedCount" (body reply) = Some (JNum 0) /\
     field "message" (body reply) = Some (JStr "Cleaned up 0 expired OTP records.")).
Proof.
  destruct (cleanup_deletes_exactly_the_expired sampleEnv sampleEnv otpStore)
    as (Hleft & _ & _ & _ & _ & Hcount & Hagain & _).
  - sample_nominal.
  - sample_nominal.
  - intros r _ H. exact H.
  - split; [exact Hleft|]. split; [exact Hcount | exact Hagain].
Defined.

(** * Further properties of the booking controller *)

(** X26.  A request that is served alone keeps the no-overlap invariant (no
    two distinct confirmed bookings of one room with [A.start < B.end] and
    [A.end > B.start]): it holds after a createBooking that no other request
    interleaves with, and after such an updateBooking on a table whose
    booking identifiers are unique, in every environment.  The gate behind
    it: when the store answers and the earlier gates pass, a confirmed
    booking of the target room with [existing.start < new.end] and
    [existing.end > new.start] (other than the rescheduled one, for
    updateBooking) makes the handler reply 409 and write nothing, and without
    such a booking the row is written; a booking that merely abuts the
    requested interval is not such a booking. *)
Theorem no_overlap_when_served_alone (env : Env) (st : Store) :
  noOverlap st ->
  (forall b, noOverlap (storeAfter (run (bookingController.createBooking env b) st)))
  /\
  (uniqueEventIds st ->
   forall eventId b,
     noOverlap (storeAfter (run (bookingController.updateBooking env eventId b) st)))
  /\
  (forall b roomId subject organizer start end_ total capacity others,
     required b roomId subject organizer start end_ total ->
     nominal env ->
     bookingController.selectCapacity roomId st = capacity :: others ->
     total <= capacity ->
     (taken st roomId start end_ ->
      replyOf (run (bookingController.createBooking env b) st) =
        Val (failure 409 "The room is already booked for the selected time slot.") /\
      storeAfter (run (bookingController.createBooking env b) st) = st)
     /\
     (~ taken st roomId start end_ ->
      storeAfter (run (bookingController.createBooking env b) st) =
        withBookings st
          (room_bookings st ++
           [bookingController.newBooking env b roomId subject organizer start end_ total])))
  /\
  (forall eventId b roomId subject organizer start end_ total existing more room others,
     required b roomId subject organizer start end_ total ->
     eventId <> "" ->
     nominal env ->
     bookingController.selectBooking eventId st = existing :: more ->
     bookingController.selectRoom roomId st = room :: others ->
     total <= Room.capacity room ->
     (takenByOther st eventId roomId start end_ ->
      replyOf (run (bookingController.updateBooking env eventId b) st) =
        Val (failure 409
               "The room is already booked for the new time slot (conflict detected).") /\
      storeAfter (run (bookingController.updateBooking env eventId b) st) = st)
     /\
     (~ takenByOther st eventId roomId start end_ ->
      storeAfter (run (bookingController.updateBooking env eventId b) st) =
        withBookings st
          (map (fun r => if String.eqb (Booking.event_id r) eventId
                         then bookingController.rescheduled env b roomId (Room.name room)
                                subject organizer start end_ total r
                         else r)
               (room_bookings st))))
  /\
  (forall r start end_,
     Booking.end_datetime r = start \/ Booking.start_datetime r = end_ ->
     bookingController.overlaps r start end_ = false).
Proof.
  intros Hinv. repeat split.
  - intros b.
    destruct (createBooking_store env st b)
      as [->|(roomId & subject & organizer & start & end_ & total & _ & _ & _ & Hc & ->)];
      [exact Hinv|].
    apply noOverlap_insert; [exact Hinv|].
    intros a Ha Hroom Hst. unfold clash. simpl.
    exact (countOverlaps_zero _ _ _ _ Hc a Ha Hroom Hst).
  - intros Huniq eventId b.
    destruct (updateBooking_store env st eventId b)
      as [->|(roomId & room & subject & organizer & start & end_ & total & _ & Hc & ->)];
      [exact Hinv|].
    apply noOverlap_update; [exact Hinv | exact Huniq | reflexivity |].
    intros r a Ha Hid Hroom Hst. unfold clash. simpl.
    exact (countOtherOverlaps_zero _ _ _ _ _ Hc a Ha Hroom Hst Hid).
  - rewrite (createBooking_taken env st b roomId subject organizer start end_ total
               capacity others); auto.
  - rewrite (createBooking_taken env st b roomId subject organizer start end_ total
               capacity others); auto.
  - intros Hfree. eapply createBooking_free_store; eauto.
  - rewrite (updateBooking_taken env st eventId b roomId subject organizer start end_ total
               existing more room others); auto.
  - rewrite (updateBooking_taken env st eventId b roomId subject organizer start end_ total
               existing more room others); auto.
  - intros Hfree. eapply updateBooking_free_store; eauto.
  - intros r start end_ Habut. unfold bookingController.overlaps.
    apply andb_false_iff. rewrite Z.gtb_ltb, !Z.ltb_ge.
    destruct Habut as [<-| <-]; [right | left]; lia.
Qed.

Lemma no_overlap_when_served_alone_witness :
  noOverlap sampleStore /\
  noOverlap (storeAfter (run (bookingController.createBooking sampleEnv
                                (sampleBody "dan@corp.com" 1 3000 4000 4)) sampleStore)) /\
  noOverlap (storeAfter (run (bookingController.updateBooking sampleEnv "e2"
                                (sampleBody "bob@corp.com" 1 2500 3500 4)) sampleStore)) /\
  replyOf (run (bookingController.createBooking sampleEnv
                  (sampleBody "dan@corp.com" 1 1500 2500 4)) sampleStore) =
    Val (failure 409 "The room is already booked for the selected time slot.") /\
  storeAfter (run (bookingController.createBooking sampleEnv
                     (sampleBody "dan@corp.com" 1 3000 4000 4)) sampleStore) =
    withBookings sampleStore
      (room_bookings sampleStore ++
       [bookingController.newBooking sampleEnv (sampleBody "dan@corp.com" 1 3000 4000 4)
          1 "Review" "dan@corp.com" 3000 4000 4]) /\
  replyOf (run (bookingController.updateBooking sampleEnv "e2"
                  (sampleBody "bob@corp.com" 1 1500 2500 4)) sampleStore) =
    Val (failure 409 "The room is already booked for the new time slot (conflict detected).") /\
  storeAfter (run (bookingController.updateBooking sampleEnv "e2"
                     (sampleBody "bob@corp.com" 1 2500 3500 4)) sampleStore) =
    withBookings sampleStore
      (map (fun r => if String.eqb (Booking.event_id r) "e2"
                     then bookingController.rescheduled sampleEnv
                            (sampleBody "bob@corp.com" 1 2500 3500 4) 1 "Orchid"
                            "Review" "bob@corp.com" 2500 3500 4 r
                     else r)
           (room_bookings sampleStore)).
Proof.
  assert (Hinv : noOverlap sampleStore) by (apply noOverlapb_sound; reflexivity).
  assert (Huniq : uniqueEventIds sampleStore).
  { unfold uniqueEventIds; simpl.
    repeat (constructor; [simpl; intuition discriminate|]). constructor. }
  destruct (no_overlap_when_served_alone sampleEnv sampleStore Hinv)
    as (Hcreate & Hupdate & Hgc & Hgu & _).
  split; [exact Hinv|]. split; [apply Hcreate|]. split; [apply (Hupdate Huniq)|].
  split.
  { destruct (Hgc (sampleBody "dan@corp.com" 1 1500 2500 4) 1 "Review" "dan@corp.com"
                1500 2500 4 10 []) as [Ht _];
      [sample_required | sample_nominal | reflexivity | lia |].
    apply Ht. exists (sampleBooking "e1" "ann@corp.com" 1 1000 2000 confirmed).
    simpl. repeat split; auto; lia. }
  split.
  { destruct (Hgc (sampleBody "dan@corp.com" 1 3000 4000 4) 1 "Review" "dan@corp.com"
                3000 4000 4 10 []) as [_ Hf];
      [sample_required | sample_nominal | reflexivity | lia |].
    apply Hf. intros (r & Hr & Hroom & Hst & H1 & H2). sample_rows Hr. }
  split.
  { destruct (Hgu "e2" (sampleBody "bob@corp.com" 1 1500 2500 4) 1 "Review" "bob@corp.com"
                1500 2500 4 (sampleBooking "e2" "bob@corp.com" 1 2000 3000 confirmed) []
                (Room.mk 1 "Orchid" 10 None None) []) as [Ht _];
      [sample_required | discriminate | sample_nominal | reflexivity | reflexivity
      | simpl; lia |].
    apply Ht. exists (sampleBooking "e1" "ann@corp.com" 1 1000 2000 confirmed).
    simpl. repeat split; auto; try lia; discriminate. }
  { destruct (Hgu "e2" (sampleBody "bob@corp.com" 1 2500 3500 4) 1 "Review" "bob@corp.com"
                2500 3500 4 (sampleBooking "e2" "bob@corp.com" 1 2000 3000 confirmed) []
                (Room.mk 1 "Orchid" 10 None None) []) as [_ Hf];
      [sample_required | discriminate | sample_nominal | reflexivity | reflexivity
      | simpl; lia |].
    apply Hf. intros (r & Hr & Hroom & Hst & Hid & H1 & H2). sample_rows Hr. }
Defined.

(** X1.  Booking identifiers stay unique: createBooking keeps them unique
    when the identifier it draws is not in the table, and updateBooking and
    cancelBooking always do, in every environment. *)
Theorem event_ids_stay_unique env st :
  uniqueEventIds st ->
  (forall b, ~ In (randomUUID env) (map Booking.event_id (room_bookings st)) ->
             uniqueEventIds (storeAfter (run (bookingController.createBooking env b) st)))
  /\
  (forall eventId b,
     uniqueEventIds (storeAfter (run (bookingController.updateBooking env eventId b) st)))
  /\
  (forall eventId organizerEmail,
     uniqueEventIds
       (storeAfter (run (bookingController.cancelBooking env eventId organizerEmail) st))).
Proof.
  intros Huniq. unfold uniqueEventIds in *. repeat split.
  - intros b Hfresh.
    destruct (createBooking_store env st b)
      as [->|(roomId & subject & organizer & start & end_ & total & _ & _ & _ & _ & ->)];
      [exact Huniq|].
    simpl. rewrite map_app. simpl. apply NoDup_app; [exact Huniq | |].
    + constructor; [intros [] | constructor].
    + intros x Hx [Hx'|[]]. subst x. contradiction.
  - intros eventId b.
    destruct (updateBooking_store env st eventId b)
      as [->|(roomId & room & subject & organizer & start & end_ & total & _ & _ & ->)];
      [exact Huniq|].
    simpl. rewrite uniqueEventIds_update; [exact Huniq | reflexivity].
  - intros eventId organizerEmail.
    destruct (cancelBooking_store env st eventId organizerEmail)
      as [->|(email & _ & _ & ->)]; [exact Huniq|].
    simpl. rewrite uniqueEventIds_update; [exact Huniq | reflexivity].
Qed.

Lemma event_ids_stay_unique_witness :
  uniqueEventIds
    (storeAfter (run (bookingController.createBooking sampleEnv
                        (sampleBody "dan@corp.com" 1 3000 4000 4)) sampleStore)) /\
  uniqueEventIds
    (storeAfter (run (bookingController.updateBooking sampleEnv "e2"
                        (sampleBody "bob@corp.com" 1 2500 3500 4)) sampleStore)).
Proof.
  assert (Huniq : uniqueEventIds sampleStore).
  { unfold uniqueEventIds; simpl.
    repeat (constructor; [simpl; intuition discriminate|]). constructor. }
  destruct (event_ids_stay_unique sampleEnv sampleStore Huniq) as (Hc & Hu & _).
  split; [|apply Hu].
  apply Hc. simpl. intuition discriminate.
Defined.

(** X2.  The capacity gate of createBooking: with the store answering, a
    request for more participants than the room's capacity is answered 400
    with the capacity in the message, after the room lookup alone, and
    nothing is written. *)
Theorem createBooking_over_capacity env st b roomId subject organizer start end_ total
    capacity others :
  required b roomId subject organizer start end_ total ->
  nominal env ->
  bookingController.selectCapacity roomId st = capacity :: others ->
  total > capacity ->
  replyOf (run (bookingController.createBooking env b) st) =
    Val (failure 400
           (String.append "Total participants exceed room capacity of "
              (String.append (toString capacity) "."))) /\
  storeAfter (run (bookingController.createBooking env b) st) = st /\
  traceOf (run (bookingController.createBooking env b) st) = [Sql SelectRoomCapacity OnPool].
Proof.
  intros Hreq Hnom Hcap Hgt.
  unfold run, replyOf, storeAfter, traceOf, bookingController.createBooking.
  use_required Hreq. simpl. use_nominal Hnom. rewrite Hcap.
  replace (total >? capacity) with true by (symmetry; rewrite Z.gtb_ltb; apply Z.ltb_lt; lia).
  repeat split.
Qed.

Lemma createBooking_over_capacity_witness :
  replyOf (run (bookingController.createBooking sampleEnv
                  (sampleBody "dan@corp.com" 1 3000 4000 11)) sampleStore) =
    Val (failure 400 "Total participants exceed room capacity of 10.") /\
  storeAfter (run (bookingController.createBooking sampleEnv
                     (sampleBody "dan@corp.com" 1 3000 4000 11)) sampleStore) = sampleStore.
Proof.
  destruct (createBooking_over_capacity sampleEnv sampleStore
              (sampleBody "dan@corp.com" 1 3000 4000 11) 1 "Review" "dan@corp.com"
              3000 4000 11 10 []) as (Hreply & Hstore & _).
  - sample_required.
  - sample_nominal.
  - reflexivity.
  - lia.
  - split; [exact Hreply | exact Hstore].
Defined.

(** X3.  The room and capacity gates of updateBooking: with the store
    answering and the booking confirmed, an unknown target room is answered
    404 and too many participants 400 with the capacity in the message; both
    roll the transaction back before the availability count, and the store
    is as it was. *)
Theorem updateBooking_room_gates env st eventId b roomId subject organizer start end_ total
    existing more :
  required b roomId subject organizer start end_ total ->
  eventId <> "" ->
  nominal env ->
  bookingController.selectBooking eventId st = existing :: more ->
  (bookingController.selectRoom roomId st = [] ->
   run (bookingController.updateBooking env eventId b) st =
     (Val (failure 404 "The specified room could not be found."),
      {| db := st; snapshot := None; rolledBack := true; calls := 4;
         log := [TxBegin; Sql SelectBooking OnTransaction; Sql SelectRoom OnTransaction;
                 TxRollback] |}))
  /\
  (forall room others,
     bookingController.selectRoom roomId st = room :: others ->
     total > Room.capacity room ->
     run (bookingController.updateBooking env eventId b) st =
       (Val (failure 400
               (String.append "New total participants exceed room capacity of "
                  (String.append (toString (Room.capacity room)) "."))),
        {| db := st; snapshot := None; rolledBack := true; calls := 4;
           log := [TxBegin; Sql SelectBooking OnTransaction; Sql SelectRoom OnTransaction;
                   TxRollback] |})).
Proof.
  intros Hreq Hid Hnom Hsel. apply String.eqb_neq in Hid.
  split.
  - intros Hroom.
    unfold run, bookingController.updateBooking. use_required Hreq. rewrite Hid. simpl.
    use_nominal Hnom. rewrite Hsel. simpl. rewrite Hfault. simpl. rewrite Hroom. simpl.
    rewrite Hfault. reflexivity.
  - intros room others Hroom Hgt.
    unfold run, bookingController.updateBooking. use_required Hreq. rewrite Hid. simpl.
    use_nominal Hnom. rewrite Hsel. simpl. rewrite Hfault. simpl. rewrite Hroom.
    replace (total >? Room.capacity room) with true
      by (symmetry; rewrite Z.gtb_ltb; apply Z.ltb_lt; lia).
    simpl. rewrite Hfault. reflexivity.
Qed.

Lemma updateBooking_room_gates_witness :
  replyOf (run (bookingController.updateBooking sampleEnv "e1"
                  (sampleBody "ann@corp.com" 7 3000 4000 4)) sampleStore) =
    Val (failure 404 "The specified room could not be found.") /\
  replyOf (run (bookingController.updateBooking sampleEnv "e1"
                  (sampleBody "ann@corp.com" 2 3000 4000 5)) sampleStore) =
    Val (failure 400 "New total participants exceed room capacity of 4.").
Proof.
  split.
  - destruct (updateBooking_room_gates sampleEnv sampleStore "e1"
                (sampleBody "ann@corp.com" 7 3000 4000 4) 7 "Review" "ann@corp.com"
                3000 4000 4 (sampleBooking "e1" "ann@corp.com" 1 1000 2000 confirmed) [])
      as [Hnone _];
      [sample_required | discriminate | sample_nominal | reflexivity |].
    rewrite Hnone; reflexivity.
  - destruct (updateBooking_room_gates sampleEnv sampleStore "e1"
                (sampleBody "ann@corp.com" 2 3000 4000 5) 2 "Review" "ann@corp.com"
                3000 4000 5 (sampleBooking "e1" "ann@corp.com" 1 1000 2000 confirmed) [])
      as [_ Hcap];
      [sample_required | discriminate | sample_nominal | reflexivity |].
    rewrite (Hcap (Room.mk 2 "Lotus" 4 None None) []); [reflexivity | reflexivity | simpl; lia].
Defined.

Ltac unfold_handlers :=
  unfold run, replyOf,
    bookingController.createBooking, bookingController.updateBooking,
    bookingController.cancelBooking, bookingController.getBookingsByEmail,
    adminController.deleteBooking, adminController.sendRescheduleEmail,
    adminController.createBookingAdmin,
    otpController.sendOtp, otpController.verifyOtp,
    otpController.checkVerificationStatus, otpController.cleanupExpiredOtps,
    roomController.createRoom, roomController.updateRoom, roomController.deleteRoom;
  unfold_monad;
  unfold bookingController.sendEmail, adminController.sendEmail, otpController.sendEmail,
    roomController.unlinkUpload, roomController.unlink,
    bookingController.insertBooking, bookingController.updateWhereEventId,
    roomController.insertRoom, roomController.updateRoomRow, roomController.deleteRoomRow,
    otpController.mergeOtp, otpController.markVerified, otpController.deleteExpired;
  unfold tryCatch, bind, ret, throw, emit.

Ltac answered :=
  intros; unfold_handlers; simpl;
  repeat (first [ solve [eexists; reflexivity] | head_destruct; simpl ]).

(** X4.  No handler lets an exception escape: whichever driver call rejects
    and whether or not the mail goes out, every run of each of the fourteen
    controller functions below ends with a reply. *)
Theorem every_handler_answers env st :
  (forall b, exists r, replyOf (run (bookingController.createBooking env b) st) = Val r) /\
  (forall eventId b,
     exists r, replyOf (run (bookingController.updateBooking env eventId b) st) = Val r) /\
  (forall eventId email,
     exists r, replyOf (run (bookingController.cancelBooking env eventId email) st) = Val r) /\
  (forall email,
     exists r, replyOf (run (bookingController.getBookingsByEmail env email) st) = Val r) /\
  (forall eventId,
     exists r, replyOf (run (adminController.deleteBooking env eventId) st) = Val r) /\
  (forall bookingId email subject message,
     exists r, replyOf (run (adminController.sendRescheduleEmail env bookingId email
                               subject message) st) = Val r) /\
  (forall b, exists r, replyOf (run (adminController.createBookingAdmin env b) st) = Val r) /\
  (forall email, exists r, replyOf (run (otpController.sendOtp env email) st) = Val r) /\
  (forall email otp,
     exists r, replyOf (run (otpController.verifyOtp env email otp) st) = Val r) /\
  (forall email,
     exists r, replyOf (run (otpController.checkVerificationStatus env email) st) = Val r) /\
  (exists r, replyOf (run (otpController.cleanupExpiredOtps env) st) = Val r) /\
  (forall b file, exists r, replyOf (run (roomController.createRoom env b file) st) = Val r) /\
  (forall roomId b file,
     exists r, replyOf (run (roomController.updateRoom env roomId b file) st) = Val r) /\
  (forall roomId, exists r, replyOf (run (roomController.deleteRoom env roomId) st) = Val r).
Proof.
  repeat split.
  - answered.
  - answered.
  - answered.
  - answered.
  - answered.
  - answered.
  - answered.
  - answered.
  - answered.
  - answered.
  - answered.
  - answered.
  - answered.
  - answered.
Qed.

Lemma cancelled_rows (env : Env) (eventId : string) (l : list Booking.t) :
  forall r,
    In r (map (fun r => if String.eqb (Booking.event_id r) eventId
                        then bookingController.cancelledRow env r else r) l) ->
    (Booking.event_id r = eventId ->
     Booking.status r = cancelled /\
     Booking.cancelled_at r = Some (getutcdate env) /\
     Booking.updated_at r = Some (getutcdate env)) /\
    (Booking.event_id r <> eventId -> In r l).
Proof.
  intros r Hr. apply in_map_iff in Hr as (r0 & Hr0 & Hin).
  destruct (String.eqb_spec (Booking.event_id r0) eventId) as [He|He]; subst r.
  - split; [intros _; repeat split | intros Hne; simpl in Hne; contradiction].
  - split; [intros Heq; contradiction | intros _; exact Hin].
Qed.

Lemma cancelBooking_reply env st eventId email found more :
  eventId <> "" -> email <> "" ->
  nominal env ->
  mailWorks env ->
  bookingController.selectOwnBooking eventId email st = found :: more ->
  replyOf (run (bookingController.cancelBooking env eventId (Some email)) st) =
    Val {| code := 200;
           body := [("success", JBool true);
                    ("message", JStr "Booking cancelled successfully.")] |}.
Proof.
  intros H1 H2 Hnom Hmail Hs. apply String.eqb_neq in H1, H2.
  assert (Haff : (List.length (filter (fun r => String.eqb (Booking.event_id r) eventId)
                                      (room_bookings st)) =? 0)%nat = false).
  { assert (Hin : In found (bookingController.selectOwnBooking eventId email st))
      by (rewrite Hs; left; reflexivity).
    apply filter_In in Hin as [Hin Hp]. rewrite !andb_true_iff in Hp.
    destruct Hp as [[Hid _] _].
    assert (Hin' : In found (filter (fun r => String.eqb (Booking.event_id r) eventId)
                                    (room_bookings st)))
      by (apply filter_In; split; assumption).
    destruct (filter _ (room_bookings st)); [contradiction | reflexivity]. }
  unfold run, replyOf, bookingController.cancelBooking. rewrite H1, H2. simpl.
  use_nominal Hnom. rewrite Hs. simpl. rewrite Hfault.
  unfold bookingController.updateWhereEventId. simpl. rewrite Haff, Hfault. simpl.
  match goal with
  | |- context [bookingController.sendEmail env ?t ?s ?w] =>
      destruct (mailWorks_sendEmail env t s w Hmail) as [w' ->]
  end. reflexivity.
Qed.

Lemma own_selected (st : Store) (eventId email : string) (own : Booking.t) :
  In own (room_bookings st) ->
  Booking.event_id own = eventId ->
  Booking.status own = confirmed ->
  Booking.organizer_email own = email ->
  exists found more, bookingController.selectOwnBooking eventId email st = found :: more.
Proof.
  intros Hown Hid Hst Hmail.
  assert (Hin : In own (bookingController.selectOwnBooking eventId email st)).
  { apply filter_In. split; [exact Hown|].
    rewrite Hid, Hmail, !String.eqb_refl, Hst. reflexivity. }
  destruct (bookingController.selectOwnBooking eventId email st) as [|found more];
    [contradiction | eauto].
Qed.

(** X5.  cancelBooking by the organizer, with the store answering: every row
    carrying the identifier becomes cancelled, with cancelled_at and
    updated_at set to the store's clock; rows of other identifiers are kept
    as they were, and so are the other tables; the reply is 200 when the mail
    goes through. *)
Theorem cancelBooking_by_organizer env st eventId email own :
  In own (room_bookings st) ->
  Booking.event_id own = eventId ->
  Booking.status own = confirmed ->
  Booking.organizer_email own = email ->
  eventId <> "" -> email <> "" ->
  nominal env ->
  let after := storeAfter (run (bookingController.cancelBooking env eventId (Some email)) st) in
  (forall r, In r (room_bookings after) -> Booking.event_id r = eventId ->
             Booking.status r = cancelled /\
             Booking.cancelled_at r = Some (getutcdate env) /\
             Booking.updated_at r = Some (getutcdate env))
  /\
  (forall r, Booking.event_id r <> eventId ->
             (In r (room_bookings after) <-> In r (room_bookings st)))
  /\
  List.length (room_bookings after) = List.length (room_bookings st)
  /\
  rooms after = rooms st /\ otp_storage after = otp_storage st
  /\
  (mailWorks env ->
   replyOf (run (bookingController.cancelBooking env eventId (Some email)) st) =
     Val {| code := 200;
            body := [("success", JBool true);
                     ("message", JStr "Booking cancelled successfully.")] |}).
Proof.
  intros Hown Hid Hst Hmail Hne1 Hne2 Hnom after.
  destruct (own_selected st eventId email own Hown Hid Hst Hmail) as (found & more & Hs).
  assert (Hafter : after =
            withBookings st
              (map (fun r => if String.eqb (Booking.event_id r) eventId
                             then bookingController.cancelledRow env r else r)
                   (room_bookings st)))
    by (exact (cancelBooking_found env st eventId email found more Hne1 Hne2 Hnom Hs)).
  split.
  { intros r Hr He. rewrite Hafter in Hr. simpl in Hr.
    exact (proj1 (cancelled_rows env eventId _ r Hr) He). }
  split.
  { intros r He. rewrite Hafter. simpl. split.
    - intros Hr. exact (proj2 (cancelled_rows env eventId _ r Hr) He).
    - intros Hr. apply in_map_iff. exists r. split; [|exact Hr].
      apply String.eqb_neq in He. rewrite He. reflexivity. }
  split; [rewrite Hafter; simpl; apply length_map|].
  split; [rewrite Hafter; reflexivity|].
  split; [rewrite Hafter; reflexivity|].
  intros Hworks. exact (cancelBooking_reply env st eventId email found more Hne1 Hne2 Hnom Hworks Hs).
Qed.

Lemma cancelBooking_by_organizer_witness :
  room_bookings (storeAfter (run (bookingController.cancelBooking sampleEnv "e1"
                                    (Some "ann@corp.com")) sampleStore)) =
    [bookingController.cancelledRow sampleEnv
       (sampleBooking "e1" "ann@corp.com" 1 1000 2000 confirmed);
     sampleBooking "e2" "bob@corp.com" 1 2000 3000 confirmed;
     sampleBooking "e3" "cyd@corp.com" 1 1500 2500 cancelled] /\
  replyOf (run (bookingController.cancelBooking sampleEnv "e1" (Some "ann@corp.com"))
             sampleStore) =
    Val {| code := 200;
           body := [("success", JBool true);
                    ("message", JStr "Booking cancelled successfully.")] |}.
Proof.
  destruct (cancelBooking_by_organizer sampleEnv sampleStore "e1" "ann@corp.com"
              (sampleBooking "e1" "ann@corp.com" 1 1000 2000 confirmed))
    as (_ & _ & _ & _ & _ & Hreply).
  - simpl. auto.
  - reflexivity.
  - reflexivity.
  - reflexivity.
  - discriminate.
  - discriminate.
  - sample_nominal.
  - split; [reflexivity|]. apply Hreply. right. reflexivity.
Defined.

Lemma deleteBooking_store (env : Env) (st : Store) (eventId : string) :
  storeAfter (run (adminController.deleteBooking env eventId) st) = st \/
  (adminController.selectConfirmed eventId st <> [] /\
   storeAfter (run (adminController.deleteBooking env eventId) st) =
     withBookings st
       (map (fun r => if String.eqb (Booking.event_id r) eventId
                      then bookingController.cancelledRow env r else r)
            (room_bookings st))).
Proof.
  unfold run, storeAfter, adminController.deleteBooking.
  destruct (String.eqb eventId ""); [left; reflexivity|].
  unfold_monad; unfold adminController.sendEmail, bookingController.updateWhereEventId,
    tryCatch, throw; simpl.
  repeat (head_destruct; simpl; try (left; reflexivity)).
  all: right; split; [congruence | reflexivity].
Qed.

Lemma none_confirmed_after_cancel (env : Env) (st : Store) (eventId : string) :
  forall r,
    In r (map (fun r => if String.eqb (Booking.event_id r) eventId
                        then bookingController.cancelledRow env r else r)
              (room_bookings st)) ->
    Booking.event_id r = eventId -> Booking.status r = cancelled.
Proof.
  intros r Hr He. exact (proj1 (proj1 (cancelled_rows env eventId _ r Hr) He)).
Qed.

(** X6.  Cancellation is terminal.  After cancelBooking has cancelled a
    booking, no row carrying its identifier is confirmed, and in every
    environment a further cancelBooking (with any email), updateBooking or
    admin deleteBooking on that identifier leaves the store as it is; with
    the store answering, cancelBooking and updateBooking answer 404. *)
Theorem cancellation_is_terminal env env' st eventId email own :
  In own (room_bookings st) ->
  Booking.event_id own = eventId ->
  Booking.status own = confirmed ->
  Booking.organizer_email own = email ->
  eventId <> "" -> email <> "" ->
  nominal env ->
  let after := storeAfter (run (bookingController.cancelBooking env eventId (Some email)) st) in
  (forall r, In r (room_bookings after) -> Booking.event_id r = eventId ->
             Booking.status r = cancelled)
  /\
  (forall anyEmail,
     storeAfter (run (bookingController.cancelBooking env' eventId anyEmail) after) = after)
  /\
  (forall b, storeAfter (run (bookingController.updateBooking env' eventId b) after) = after)
  /\
  storeAfter (run (adminController.deleteBooking env' eventId) after) = after
  /\
  (nominal env' ->
   replyOf (run (bookingController.cancelBooking env' eventId (Some email)) after) =
     Val (failure 404 "Booking not found or not eligible for cancellation by this email.")
   /\
   forall b roomId subject organizer start end_ total,
     required b roomId subject organizer start end_ total ->
     replyOf (run (bookingController.updateBooking env' eventId b) after) =
       Val (failure 404 "Original booking not found or already cancelled.")).
Proof.
  intros Hown Hid Hst Hmail Hne1 Hne2 Hnom after.
  destruct (own_selected st eventId email own Hown Hid Hst Hmail) as (found & more & Hs).
  assert (Hafter : after =
            withBookings st
              (map (fun r => if String.eqb (Booking.event_id r) eventId
                             then bookingController.cancelledRow env r else r)
                   (room_bookings st)))
    by (exact (cancelBooking_found env st eventId email found more Hne1 Hne2 Hnom Hs)).
  assert (Hgone : forall r, In r (room_bookings after) -> Booking.event_id r = eventId ->
                            Booking.status r = cancelled).
  { intros r Hr He. rewrite Hafter in Hr. simpl in Hr.
    exact (none_confirmed_after_cancel env st eventId r Hr He). }
  assert (Hsel : bookingController.selectBooking eventId after = [])
    by (apply selectBooking_none; exact Hgone).
  assert (Hown' : forall anyEmail,
            bookingController.selectOwnBooking eventId anyEmail after = []).
  { intros anyEmail. apply selectOwnBooking_none. intros r Hr He Hc.
    rewrite (Hgone r Hr He) in Hc. discriminate. }
  split; [exact Hgone|]. split.
  { intros anyEmail.
    destruct (cancelBooking_store env' after eventId anyEmail)
      as [H|(e & -> & Hne & _)]; [exact H|]. destruct (Hne (Hown' e)). }
  split.
  { intros b.
    destruct (updateBooking_store env' after eventId b)
      as [H|(roomId & room & subject & organizer & start & end_ & total & Hne & _)];
      [exact H | contradiction]. }
  split.
  { destruct (deleteBooking_store env' after eventId) as [H|[Hne _]]; [exact H|].
    exact (False_ind _ (Hne Hsel)). }
  intros Hnom'. split.
  - rewrite (cancelBooking_not_found env' after eventId email Hne1 Hne2 Hnom' (Hown' email)).
    reflexivity.
  - intros b roomId subject organizer start end_ total Hreq.
    rewrite (updateBooking_missing env' after eventId b roomId subject organizer start end_
               total Hreq Hne1 Hnom' Hsel).
    reflexivity.
Qed.

Lemma cancellation_is_terminal_witness :
  let after := storeAfter (run (bookingController.cancelBooking sampleEnv "e1"
                                  (Some "ann@corp.com")) sampleStore) in
  storeAfter (run (bookingController.cancelBooking otherEnv "e1" (Some "ann@corp.com")) after)
    = after /\
  replyOf (run (bookingController.cancelBooking otherEnv "e1" (Some "ann@corp.com")) after) =
    Val (failure 404 "Booking not found or not eligible for cancellation by this email.") /\
  replyOf (run (bookingController.updateBooking otherEnv "e1"
                  (sampleBody "ann@corp.com" 1 3000 4000 4)) after) =
    Val (failure 404 "Original booking not found or already cancelled.").
Proof.
  destruct (cancellation_is_terminal sampleEnv otherEnv sampleStore "e1" "ann@corp.com"
              (sampleBooking "e1" "ann@corp.com" 1 1000 2000 confirmed))
    as (_ & Hcancel & _ & _ & Hreply).
  - simpl. auto.
  - reflexivity.
  - reflexivity.
  - reflexivity.
  - discriminate.
  - discriminate.
  - sample_nominal.
  - destruct Hreply as [Hc Hu]; [sample_nominal|].
    split; [apply Hcancel|]. split; [exact Hc|].
    apply (Hu _ 1 "Review" "ann@corp.com" 3000 4000 4). sample_required.
Defined.

Lemma createBooking_created env st b roomId subject organizer start end_ total capacity others :
  required b roomId subject organizer start end_ total ->
  nominal env ->
  mailWorks env ->
  bookingController.selectCapacity roomId st = capacity :: others ->
  total <= capacity ->
  ~ taken st roomId start end_ ->
  replyOf (run (bookingController.createBooking env b) st) =
    Val {| code := 201;
           body := [("success", JBool true);
                    ("message", JStr "Booking created and confirmed successfully!");
                    ("event_id", JStr (randomUUID env))] |}.
Proof.
  intros Hreq Hnom Hmail Hcap Hle Hfree.
  rewrite (createBooking_free env st b roomId subject organizer start end_ total capacity
             others Hreq Hnom Hcap Hle Hfree).
  cbv zeta.
  match goal with
  | |- context [bookingController.sendEmail env ?t ?s ?w] =>
      destruct (mailWorks_sendEmail env t s w Hmail) as [w' ->]
  end. reflexivity.
Qed.

(** X7.  A cancelled booking no longer blocks its slot: once cancelBooking
    has cancelled a booking, a createBooking for an interval of the room that
    only that booking overlapped passes the availability check and inserts
    its row (201 when the mail goes through). *)
Theorem cancelled_slot_can_be_booked_again env env' st eventId email own
    b roomId subject organizer start end_ total capacity others :
  In own (room_bookings st) ->
  Booking.event_id own = eventId ->
  Booking.status own = confirmed ->
  Booking.organizer_email own = email ->
  eventId <> "" -> email <> "" ->
  nominal env -> nominal env' ->
  required b roomId subject organizer start end_ total ->
  bookingController.selectCapacity roomId st = capacity :: others ->
  total <= capacity ->
  ~ takenByOther st eventId roomId start end_ ->
  let after := storeAfter (run (bookingController.cancelBooking env eventId (Some email)) st) in
  ~ taken after roomId start end_ /\
  storeAfter (run (bookingController.createBooking env' b) after) =
    withBookings after
      (room_bookings after ++
       [bookingController.newBooking env' b roomId subject organizer start end_ total]) /\
  (mailWorks env' ->
   replyOf (run (bookingController.createBooking env' b) after) =
     Val {| code := 201;
            body := [("success", JBool true);
                     ("message", JStr "Booking created and confirmed successfully!");
                     ("event_id", JStr (randomUUID env'))] |}).
Proof.
  intros Hown Hid Hst Hmail Hne1 Hne2 Hnom Hnom' Hreq Hcap Hle Hothers after.
  destruct (own_selected st eventId email own Hown Hid Hst Hmail) as (found & more & Hs).
  assert (Hafter : after =
            withBookings st
              (map (fun r => if String.eqb (Booking.event_id r) eventId
                             then bookingController.cancelledRow env r else r)
                   (room_bookings st)))
    by (exact (cancelBooking_found env st eventId email found more Hne1 Hne2 Hnom Hs)).
  assert (Hfree : ~ taken after roomId start end_).
  { intros (r & Hr & Hroom & Hconf & Hov). apply Hothers.
    rewrite Hafter in Hr. simpl in Hr.
    destruct (String.eqb_spec (Booking.event_id r) eventId) as [He|He].
    - rewrite (none_confirmed_after_cancel env st eventId r Hr He) in Hconf. discriminate.
    - exists r. split; [exact (proj2 (cancelled_rows env eventId _ r Hr) He)|].
      repeat split; try assumption; apply Hov. }
  assert (Hcap' : bookingController.selectCapacity roomId after = capacity :: others)
    by (rewrite Hafter; exact Hcap).
  split; [exact Hfree|]. split.
  - exact (createBooking_free_store env' after b roomId subject organizer start end_ total
             capacity others Hreq Hnom' Hcap' Hle Hfree).
  - intros Hworks.
    exact (createBooking_created env' after b roomId subject organizer start end_ total
             capacity others Hreq Hnom' Hworks Hcap' Hle Hfree).
Qed.

Lemma cancelled_slot_can_be_booked_again_witness :
  let after := storeAfter (run (bookingController.cancelBooking sampleEnv "e1"
                                  (Some "ann@corp.com")) sampleStore) in
  taken sampleStore 1 1000 2000 /\
  ~ taken after 1 1000 2000 /\
  replyOf (run (bookingController.createBooking otherEnv
                  (sampleBody "dan@corp.com" 1 1000 2000 4)) after) =
    Val {| code := 201;
           body := [("success", JBool true);
                    ("message", JStr "Booking created and confirmed successfully!");
                    ("event_id", JStr "a91b")] |}.
Proof.
  destruct (cancelled_slot_can_be_booked_again sampleEnv otherEnv sampleStore "e1"
              "ann@corp.com" (sampleBooking "e1" "ann@corp.com" 1 1000 2000 confirmed)
              (sampleBody "dan@corp.com" 1 1000 2000 4) 1 "Review" "dan@corp.com"
              1000 2000 4 10 [])
    as (Hfree & _ & Hreply).
  - simpl. auto.
  - reflexivity.
  - reflexivity.
  - reflexivity.
  - discriminate.
  - discriminate.
  - sample_nominal.
  - sample_nominal.
  - sample_required.
  - reflexivity.
  - lia.
  - intros (r & Hr & Hroom & Hst & Hid & H1 & H2). sample_rows Hr.
  - split.
    + exists (sampleBooking "e1" "ann@corp.com" 1 1000 2000 confirmed).
      simpl. repeat split; auto; lia.
    + split; [exact Hfree|]. apply Hreply. right. reflexivity.
Defined.

(** What createBooking and updateBooking can do to the store, with the
    request the written values come from. *)
Lemma createBooking_store_request (env : Env) (st : Store) (b : bookingController.Body) :
  storeAfter (run (bookingController.createBooking env b) st) = st \/
  exists roomId subject organizer start end_ total,
    required b roomId subject organizer start end_ total /\
    storeAfter (run (bookingController.createBooking env b) st) =
      withBookings st
        (room_bookings st ++
         [bookingController.newBooking env b roomId subject organizer start end_ total]).
Proof.
  unfold run, storeAfter, bookingController.createBooking.
  destruct (bookingController.room_id b) as [roomId|] eqn:Hrid; [|left; reflexivity].
  destruct (bookingController.subject b) as [subject|] eqn:Hsubj; [|left; reflexivity].
  destruct (bookingController.organizer_email b) as [organizer|] eqn:Horg;
    [|left; reflexivity].
  destruct (bookingController.start_datetime b) as [start|] eqn:Hs; [|left; reflexivity].
  destruct (bookingController.end_datetime b) as [end_|] eqn:He; [|left; reflexivity].
  destruct (bookingController.total_participants b) as [total|] eqn:Htot;
    [|left; reflexivity].
  destruct (_ || _) eqn:Hor; [left; reflexivity|].
  apply orb_false_iff in Hor as [Hor Htot0]. apply orb_false_iff in Hor as [Hor Horg0].
  apply orb_false_iff in Hor as [Hrid0 Hsubj0].
  apply Z.eqb_neq in Hrid0, Htot0. apply String.eqb_neq in Hsubj0, Horg0.
  assert (Hreq : required b roomId subject organizer start end_ total)
    by (unfold required; rewrite Hrid, Hsubj, Horg, Hs, He, Htot; repeat split; assumption).
  unfold_monad; unfold bookingController.sendEmail, bookingController.insertBooking; simpl.
  repeat (head_destruct; simpl; try (left; reflexivity)).
  all: right; exists roomId, subject, organizer, start, end_, total;
    split; [exact Hreq | reflexivity].
Qed.

Lemma updateBooking_store_request (env : Env) (st : Store) (eventId : string)
    (b : bookingController.Body) :
  storeAfter (run (bookingController.updateBooking env eventId b) st) = st \/
  exists roomId room others subject organizer start end_ total,
    required b roomId subject organizer start end_ total /\
    bookingController.selectRoom roomId st = room :: others /\
    storeAfter (run (bookingController.updateBooking env eventId b) st) =
      withBookings st
        (map (fun r => if String.eqb (Booking.event_id r) eventId
                       then bookingController.rescheduled env b roomId (Room.name room)
                              subject organizer start end_ total r
                       else r)
             (room_bookings st)).
Proof.
  unfold run, storeAfter, bookingController.updateBooking.
  destruct (bookingController.room_id b) as [roomId|] eqn:Hrid; [|left; reflexivity].
  destruct (bookingController.subject b) as [subject|] eqn:Hsubj; [|left; reflexivity].
  destruct (bookingController.organizer_email b) as [organizer|] eqn:Horg;
    [|left; reflexivity].
  destruct (bookingController.start_datetime b) as [start|] eqn:Hs; [|left; reflexivity].
  destruct (bookingController.end_datetime b) as [end_|] eqn:He; [|left; reflexivity].
  destruct (bookingController.total_participants b) as [total|] eqn:Htot;
    [|left; reflexivity].
  destruct (_ || _) eqn:Hor; [left; reflexivity|].
  apply orb_false_iff in Hor as [Hor Htot0]. apply orb_false_iff in Hor as [Hor Horg0].
  apply orb_false_iff in Hor as [Hor Hsubj0]. apply orb_false_iff in Hor as [_ Hrid0].
  apply Z.eqb_neq in Hrid0, Htot0. apply String.eqb_neq in Hsubj0, Horg0.
  assert (Hreq : required b roomId subject organizer start end_ total)
    by (unfold required; rewrite Hrid, Hsubj, Horg, Hs, He, Htot; repeat split; assumption).
  unfold_monad; unfold bookingController.sendEmail, bookingController.updateWhereEventId; simpl.
  repeat (head_destruct; simpl; try (left; reflexivity)).
  all: right; eexists roomId, _, _, subject, organizer, start, end_, total;
    split; [exact Hreq|]; split; [|reflexivity].
  all: match goal with H : _ = _ :: _ |- _ => exact H end.
Qed.

(** X8.  The three writes are all-or-nothing in every environment, whichever
    driver call or mail send fails.  After createBooking the table is as it
    was or has one row appended, and that row holds the fields of the
    request, a fresh identifier, status confirmed and the creation time.
    After updateBooking it is as it was or every row carrying the identifier
    holds the values of the request in each column of the SET clause, the
    name of the room the request names and the update time, with its
    event_id, status, created_at and cancelled_at kept, and every other row
    is as it was.  After cancelBooking it is as it was or every row carrying
    the identifier is cancelled.  The other tables are never touched. *)
Theorem booking_writes_are_all_or_nothing env st :
  (forall b,
     storeAfter (run (bookingController.createBooking env b) st) = st \/
     exists roomId subject organizer start end_ total row,
       required b roomId subject organizer start end_ total /\
       storeAfter (run (bookingController.createBooking env b) st) =
         withBookings st (room_bookings st ++ [row]) /\
       Booking.event_id row = randomUUID env /\
       Booking.room_id row = roomId /\
       Booking.room_name row = bookingController.room_name b /\
       Booking.subject row = subject /\
       Booking.description row = orNullS (bookingController.description b) /\
       Booking.organizer_email row = organizer /\
       Booking.start_datetime row = start /\
       Booking.end_datetime row = end_ /\
       Booking.total_participants row = total /\
       Booking.internal_participants row =
         orNullZ (bookingController.internal_participants b) /\
       Booking.external_participants row =
         orNullZ (bookingController.external_participants b) /\
       Booking.meeting_type row = orS (bookingController.meeting_type b) "in-person" /\
       Booking.attendee_emails row = orS (bookingController.attendee_emails b) "[]" /\
       Booking.status row = confirmed /\
       Booking.created_at row = Some (clock env 0) /\
       Booking.updated_at row = None /\
       Booking.cancelled_at row = None)
  /\
  (forall eventId b,
     storeAfter (run (bookingController.updateBooking env eventId b) st) = st \/
     exists roomId room others subject organizer start end_ total new,
       required b roomId subject organizer start end_ total /\
       bookingController.selectRoom roomId st = room :: others /\
       storeAfter (run (bookingController.updateBooking env eventId b) st) =
         withBookings st
           (map (fun r => if String.eqb (Booking.event_id r) eventId then new r else r)
                (room_bookings st)) /\
       forall r,
         Booking.event_id (new r) = Booking.event_id r /\
         Booking.room_id (new r) = roomId /\
         Booking.room_name (new r) = Some (Room.name room) /\
         Booking.subject (new r) = subject /\
         Booking.description (new r) = orNullS (bookingController.description b) /\
         Booking.organizer_email (new r) = organizer /\
         Booking.start_datetime (new r) = start /\
         Booking.end_datetime (new r) = end_ /\
         Booking.total_participants (new r) = total /\
         Booking.internal_participants (new r) =
           orNullZ (bookingController.internal_participants b) /\
         Booking.external_participants (new r) =
           orNullZ (bookingController.external_participants b) /\
         Booking.meeting_type (new r) = orS (bookingController.meeting_type b) "in-person" /\
         Booking.attendee_emails (new r) = orS (bookingController.attendee_emails b) "[]" /\
         Booking.status (new r) = Booking.status r /\
         Booking.created_at (new r) = Booking.created_at r /\
         Booking.updated_at (new r) = Some (getutcdate env) /\
         Booking.cancelled_at (new r) = Booking.cancelled_at r)
  /\
  (forall eventId email,
     storeAfter (run (bookingController.cancelBooking env eventId email) st) = st \/
     storeAfter (run (bookingController.cancelBooking env eventId email) st) =
       withBookings st
         (map (fun r => if String.eqb (Booking.event_id r) eventId
                        then bookingController.cancelledRow env r else r)
              (room_bookings st))).
Proof.
  repeat split.
  - intros b.
    destruct (createBooking_store_request env st b)
      as [H|(roomId & subject & organizer & start & end_ & total & Hreq & H)];
      [left; exact H | right].
    exists roomId, subject, organizer, start, end_, total,
      (bookingController.newBooking env b roomId subject organizer start end_ total).
    split; [exact Hreq|]. split; [exact H|]. repeat split.
  - intros eventId b.
    destruct (updateBooking_store_request env st eventId b)
      as [H|(roomId & room & others & subject & organizer & start & end_ & total
             & Hreq & Hroom & H)];
      [left; exact H | right].
    exists roomId, room, others, subject, organizer, start, end_, total,
      (bookingController.rescheduled env b roomId (Room.name room) subject organizer
         start end_ total).
    split; [exact Hreq|]. split; [exact Hroom|]. split; [exact H|].
    intros r. repeat split.
  - intros eventId email.
    destruct (cancelBooking_store env st eventId email) as [H|(e & _ & _ & H)];
      [left; exact H | right; exact H].
Qed.

(** X9.  A failed mail does not undo a committed reschedule or cancellation:
    with the store answering, the gates passed and the Graph call rejecting,
    updateBooking and cancelBooking answer 500 "Failed to send email
    notification.", the log shows COMMIT before the mail attempt and no
    ROLLBACK, and the store holds the change. *)
Theorem mail_failure_keeps_committed_change env st eventId reason :
  eventId <> "" ->
  nominal env ->
  mailConfigured env = true ->
  mailFault env = Some reason ->
  (forall b roomId subject organizer start end_ total existing more room others,
     required b roomId subject organizer start end_ total ->
     bookingController.selectBooking eventId st = existing :: more ->
     bookingController.selectRoom roomId st = room :: others ->
     total <= Room.capacity room ->
     ~ takenByOther st eventId roomId start end_ ->
     replyOf (run (bookingController.updateBooking env eventId b) st) =
       Val (bookingController.serverError env "Failed to send email notification."
              "Failed to update booking.") /\
     traceOf (run (bookingController.updateBooking env eventId b) st) =
       [TxBegin; Sql SelectBooking OnTransaction; Sql SelectRoom OnTransaction;
        Sql CountOtherOverlaps OnTransaction; Sql UpdateBooking OnTransaction; TxCommit;
        Mail organizer
          (String.append "Booking Rescheduled: "
             (String.append subject (String.append " at " (Room.name room))))
          false] /\
     storeAfter (run (bookingController.updateBooking env eventId b) st) =
       withBookings st
         (map (fun r => if String.eqb (Booking.event_id r) eventId
                        then bookingController.rescheduled env b roomId (Room.name room)
                               subject organizer start end_ total r
                        else r)
              (room_bookings st)))
  /\
  (forall email found more,
     email <> "" ->
     bookingController.selectOwnBooking eventId email st = found :: more ->
     replyOf (run (bookingController.cancelBooking env eventId (Some email)) st) =
       Val (bookingController.serverError env "Failed to send email notification."
              "Failed to cancel the booking due to a server error.") /\
     traceOf (run (bookingController.cancelBooking env eventId (Some email)) st) =
       [TxBegin; Sql SelectOwnBooking OnTransaction; Sql CancelBooking OnTransaction; TxCommit;
        Mail (Booking.organizer_email found)
          (String.append "Your Room Booking for "
             (String.append bookingController.quote
                (String.append (Booking.subject found)
                   (String.append bookingController.quote " Has Been Cancelled"))))
          false] /\
     storeAfter (run (bookingController.cancelBooking env eventId (Some email)) st) =
       withBookings st
         (map (fun r => if String.eqb (Booking.event_id r) eventId
                        then bookingController.cancelledRow env r else r)
              (room_bookings st))).
Proof.
  intros Hne Hnom Hconf Hdown. split.
  - intros b roomId subject organizer start end_ total existing more room others
      Hreq Hsel Hroom Hle Hfree.
    rewrite (updateBooking_free env st eventId b roomId subject organizer start end_ total
               existing more room others Hreq Hne Hnom Hsel Hroom Hle Hfree).
    cbv zeta. unfold bookingController.sendEmail. rewrite Hconf, Hdown. simpl.
    repeat split.
  - intros email found more Hne2 Hs.
    assert (Hstore := cancelBooking_found env st eventId email found more Hne Hne2 Hnom Hs).
    split; [|split; [|exact Hstore]].
    + clear Hstore. apply String.eqb_neq in Hne, Hne2.
      assert (Haff := Hs).
      unfold run, replyOf, bookingController.cancelBooking. rewrite Hne, Hne2. simpl.
      use_nominal Hnom. rewrite Hs. simpl. rewrite Hfault.
      unfold bookingController.updateWhereEventId. simpl.
      destruct (List.length _ =? 0)%nat eqn:Hz.
      * exfalso. apply Nat.eqb_eq in Hz.
        assert (Hin : In found (bookingController.selectOwnBooking eventId email st))
          by (rewrite Hs; left; reflexivity).
        apply filter_In in Hin as [Hin Hp]. rewrite !andb_true_iff in Hp.
        destruct Hp as [[Hid _] _].
        pose proof (filter_length_zero _ _ Hz found Hin) as Hf. simpl in Hf. congruence.
      * rewrite Hfault. simpl. unfold bookingController.sendEmail. rewrite Hconf, Hdown.
        reflexivity.
    + clear Hstore. apply String.eqb_neq in Hne, Hne2.
      unfold run, traceOf, bookingController.cancelBooking. rewrite Hne, Hne2. simpl.
      use_nominal Hnom. rewrite Hs. simpl. rewrite Hfault.
      unfold bookingController.updateWhereEventId. simpl.
      destruct (List.length _ =? 0)%nat eqn:Hz.
      * exfalso. apply Nat.eqb_eq in Hz.
        assert (Hin : In found (bookingController.selectOwnBooking eventId email st))
          by (rewrite Hs; left; reflexivity).
        apply filter_In in Hin as [Hin Hp]. rewrite !andb_true_iff in Hp.
        destruct Hp as [[Hid _] _].
        pose proof (filter_length_zero _ _ Hz found Hin) as Hf. simpl in Hf. congruence.
      * rewrite Hfault. simpl. unfold bookingController.sendEmail. rewrite Hconf, Hdown.
        reflexivity.
Qed.

Lemma mail_failure_keeps_committed_change_witness :
  replyOf (run (bookingController.updateBooking mailDownEnv "e2"
                  (sampleBody "bob@corp.com" 1 2500 3500 4)) sampleStore) =
    Val (failure 500 "Failed to send email notification.") /\
  room_bookings (storeAfter (run (bookingController.updateBooking mailDownEnv "e2"
                                    (sampleBody "bob@corp.com" 1 2500 3500 4)) sampleStore)) =
    [sampleBooking "e1" "ann@corp.com" 1 1000 2000 confirmed;
     bookingController.rescheduled mailDownEnv (sampleBody "bob@corp.com" 1 2500 3500 4)
       1 "Orchid" "Review" "bob@corp.com" 2500 3500 4
       (sampleBooking "e2" "bob@corp.com" 1 2000 3000 confirmed);
     sampleBooking "e3" "cyd@corp.com" 1 1500 2500 cancelled] /\
  replyOf (run (bookingController.cancelBooking mailDownEnv "e2" (Some "bob@corp.com"))
             sampleStore) =
    Val (failure 500 "Failed to send email notification.").
Proof.
  destruct (mail_failure_keeps_committed_change mailDownEnv sampleStore "e2"
              "Request failed with status code 503") as [Hu Hc].
  - discriminate.
  - sample_nominal.
  - reflexivity.
  - reflexivity.
  - destruct (Hu (sampleBody "bob@corp.com" 1 2500 3500 4) 1 "Review" "bob@corp.com"
                2500 3500 4 (sampleBooking "e2" "bob@corp.com" 1 2000 3000 confirmed) []
                (Room.mk 1 "Orchid" 10 None None) []) as (Hreply & _ & Hstore).
    + sample_required.
    + reflexivity.
    + reflexivity.
    + simpl. lia.
    + intros (r & Hr & Hroom & Hst & Hid & H1 & H2). sample_rows Hr.
    + split; [exact Hreply|]. split; [rewrite Hstore; reflexivity|].
      destruct (Hc "bob@corp.com" (sampleBooking "e2" "bob@corp.com" 1 2000 3000 confirmed) [])
        as (Hreply' & _); [discriminate | reflexivity | exact Hreply'].
Defined.

(** X10.  Two createBooking requests served one after the other never
    double-book: after a first request has inserted its booking over
    [start1, end1), a second one for the same room is answered 409 and writes
    nothing when its interval overlaps that one, and inserts its row when its
    interval overlaps neither that one (abutting it at either end included)
    nor any booking that was there before. *)
Theorem second_overlapping_create_is_refused env env' st roomId capacity others
    b1 subject1 organizer1 start1 end1 total1
    b2 subject2 organizer2 start2 end2 total2 :
  nominal env -> nominal env' ->
  bookingController.selectCapacity roomId st = capacity :: others ->
  required b1 roomId subject1 organizer1 start1 end1 total1 ->
  total1 <= capacity ->
  ~ taken st roomId start1 end1 ->
  required b2 roomId subject2 organizer2 start2 end2 total2 ->
  total2 <= capacity ->
  let after := storeAfter (run (bookingController.createBooking env b1) st) in
  (start1 < end2 /\ end1 > start2 ->
   replyOf (run (bookingController.createBooking env' b2) after) =
     Val (failure 409 "The room is already booked for the selected time slot.") /\
   storeAfter (run (bookingController.createBooking env' b2) after) = after)
  /\
  (end1 <= start2 \/ end2 <= start1 ->
   ~ taken st roomId start2 end2 ->
   storeAfter (run (bookingController.createBooking env' b2) after) =
     withBookings after
       (room_bookings after ++
        [bookingController.newBooking env' b2 roomId subject2 organizer2 start2 end2 total2])).
Proof.
  intros Hnom Hnom' Hcap Hreq1 Hle1 Hfree1 Hreq2 Hle2 after.
  assert (Hafter : after =
            withBookings st
              (room_bookings st ++
               [bookingController.newBooking env b1 roomId subject1 organizer1
                  start1 end1 total1]))
    by (exact (createBooking_free_store env st b1 roomId subject1 organizer1 start1 end1
                 total1 capacity others Hreq1 Hnom Hcap Hle1 Hfree1)).
  assert (Hcap' : bookingController.selectCapacity roomId after = capacity :: others)
    by (rewrite Hafter; exact Hcap).
  split.
  - intros Hov.
    assert (Htaken : taken after roomId start2 end2).
    { exists (bookingController.newBooking env b1 roomId subject1 organizer1
                start1 end1 total1).
      rewrite Hafter. simpl. split; [apply in_app_iff; right; left; reflexivity|].
      repeat split; apply Hov. }
    rewrite (createBooking_taken env' after b2 roomId subject2 organizer2 start2 end2 total2
               capacity others Hreq2 Hnom' Hcap' Hle2 Htaken).
    split; reflexivity.
  - intros Hapart Hfree2.
    apply (createBooking_free_store env' after b2 roomId subject2 organizer2 start2 end2
             total2 capacity others Hreq2 Hnom' Hcap' Hle2).
    intros (r & Hr & Hroom & Hconf & Hov).
    rewrite Hafter in Hr. simpl in Hr. apply in_app_iff in Hr as [Hr|[Hr|[]]].
    + apply Hfree2. exists r. repeat split; try assumption; apply Hov.
    + subst r. simpl in Hov. lia.
Qed.

Lemma second_overlapping_create_is_refused_witness :
  let after := storeAfter (run (bookingController.createBooking sampleEnv
                                  (sampleBody "dan@corp.com" 1 3000 4000 5)) sampleStore) in
  replyOf (run (bookingController.createBooking otherEnv
                  (sampleBody "eve@corp.com" 1 3500 4500 4)) after) =
    Val (failure 409 "The room is already booked for the selected time slot.") /\
  storeAfter (run (bookingController.createBooking otherEnv
                     (sampleBody "eve@corp.com" 1 4000 5000 4)) after) =
    withBookings after
      (room_bookings after ++
       [bookingController.newBooking otherEnv (sampleBody "eve@corp.com" 1 4000 5000 4)
          1 "Review" "eve@corp.com" 4000 5000 4]).
Proof.
  split.
  - destruct (second_overlapping_create_is_refused sampleEnv otherEnv sampleStore 1 10 []
                (sampleBody "dan@corp.com" 1 3000 4000 5) "Review" "dan@corp.com" 3000 4000 5
                (sampleBody "eve@corp.com" 1 3500 4500 4) "Review" "eve@corp.com" 3500 4500 4)
      as [Hrefused _].
    + sample_nominal.
    + sample_nominal.
    + reflexivity.
    + sample_required.
    + lia.
    + intros (r & Hr & Hroom & Hst & H1 & H2). sample_rows Hr.
    + sample_required.
    + lia.
    + apply Hrefused. lia.
  - destruct (second_overlapping_create_is_refused sampleEnv otherEnv sampleStore 1 10 []
                (sampleBody "dan@corp.com" 1 3000 4000 5) "Review" "dan@corp.com" 3000 4000 5
                (sampleBody "eve@corp.com" 1 4000 5000 4) "Review" "eve@corp.com" 4000 5000 4)
      as [_ Hfree].
    + sample_nominal.
    + sample_nominal.
    + reflexivity.
    + sample_required.
    + lia.
    + intros (r & Hr & Hroom & Hst & H1 & H2). sample_rows Hr.
    + sample_required.
    + lia.
    + apply Hfree; [lia|].
      intros (r & Hr & Hroom & Hst & H1 & H2). sample_rows Hr.
Defined.

(** * Further properties of the admin controller *)

(** X11.  adminLogin answers 200 with the token exactly for the hard-coded
    pair of credentials, 400 when the email or the password is missing or
    empty, and 401 for every other pair. *)
Theorem adminLogin_accepts_only_the_credentials (email password : option string) :
  (code (adminController.adminLogin email password) = 200 <->
   email = Some adminController.ADMIN_EMAIL /\ password = Some adminController.ADMIN_PASSWORD)
  /\
  (code (adminController.adminLogin email password) = 400 <->
   truthyS email = false \/ truthyS password = false)
  /\
  (code (adminController.adminLogin email password) = 200 \/
   code (adminController.adminLogin email password) = 400 \/
   adminController.adminLogin email password = failure 401 "Invalid admin credentials.")
  /\
  (code (adminController.adminLogin email password) = 200 ->
   field "token" (body (adminController.adminLogin email password)) =
     Some (JStr "simulated_admin_token")).
Proof.
  unfold adminController.adminLogin, truthyS, failure,
    adminController.ADMIN_EMAIL, adminController.ADMIN_PASSWORD.
  destruct email as [e|]; [destruct (String.eqb_spec e "")|];
    (destruct password as [p|]; [destruct (String.eqb_spec p "")|]); simpl;
    try (destruct (String.eqb_spec e "admin@admin.com"));
    try (destruct (String.eqb_spec p "1234")); subst; simpl.
  all: repeat split; intros;
    repeat match goal with
           | H : _ /\ _ |- _ => destruct H
           | H : _ \/ _ |- _ => destruct H
           | H : Some _ = Some _ |- _ => injection H as H; subst
           end;
    try discriminate; try congruence; auto.
Qed.

Lemma deleteBooking_run env st eventId found more :
  eventId <> "" ->
  nominal env ->
  adminController.selectConfirmed eventId st = found :: more ->
  run (adminController.deleteBooking env eventId) st =
    let w := {| db := withBookings st
                        (map (fun r => if String.eqb (Booking.event_id r) eventId
                                       then bookingController.cancelledRow env r else r)
                             (room_bookings st));
                snapshot := None; rolledBack := false; calls := 4;
                log := [TxBegin; Sql SelectBooking OnTransaction;
                        Sql CancelBooking OnTransaction; TxCommit] |} in
    match adminController.sendEmail env (Booking.organizer_email found)
            (String.append "Your Room Booking for "
               (String.append bookingController.quote
                  (String.append (Booking.subject found)
                     (String.append bookingController.quote
                        " Has Been Cancelled (Admin Action)")))) w with
    | (Val _, w') =>
        (Val {| code := 200;
                body := [("success", JBool true);
                         ("message", JStr "Booking cancelled by admin successfully.")] |}, w')
    | (Exn msg, w') =>
        (Val (failure 500 (orMsg msg "Failed to delete booking by admin.")), called w')
    end.
Proof.
  intros Hne Hnom Hs. apply String.eqb_neq in Hne.
  assert (Haff : (List.length (filter (fun r => String.eqb (Booking.event_id r) eventId)
                                      (room_bookings st)) =? 0)%nat = false)
    by (exact (selected_rows_affected st eventId found more Hs)).
  unfold run, adminController.deleteBooking. rewrite Hne.
  use_nominal Hnom. rewrite Hs. simpl. rewrite Hfault.
  unfold bookingController.updateWhereEventId. simpl. rewrite Haff, Hfault. simpl.
  unfold adminController.sendEmail, throw.
  destruct (graphClient env); simpl; [|reflexivity].
  destruct (mailFault env); reflexivity.
Qed.

(** X12.  The admin cancellation needs no organizer: with the store
    answering, deleteBooking cancels every row carrying the identifier of a
    confirmed booking, whoever organised it, and commits; it then answers 200
    when the mail goes out, and 500 with the store still holding the
    cancellation when the admin's Graph client was never built. *)
Theorem admin_deleteBooking_cancels_any_confirmed env st eventId own :
  In own (room_bookings st) ->
  Booking.event_id own = eventId ->
  Booking.status own = confirmed ->
  eventId <> "" ->
  nominal env ->
  let out := run (adminController.deleteBooking env eventId) st in
  storeAfter out =
    withBookings st
      (map (fun r => if String.eqb (Booking.event_id r) eventId
                     then bookingController.cancelledRow env r else r)
           (room_bookings st))
  /\
  (forall r, In r (room_bookings (storeAfter out)) -> Booking.event_id r = eventId ->
             Booking.status r = cancelled)
  /\
  (graphClient env = true -> mailFault env = None ->
   replyOf out =
     Val {| code := 200;
            body := [("success", JBool true);
                     ("message", JStr "Booking cancelled by admin successfully.")] |})
  /\
  (graphClient env = false ->
   replyOf out = Val (failure 500 "Email service is not configured for admin functions.") /\
   traceOf out = [TxBegin; Sql SelectBooking OnTransaction; Sql CancelBooking OnTransaction;
                  TxCommit]).
Proof.
  intros Hown Hid Hst Hne Hnom out.
  assert (Hsel : exists found more,
             adminController.selectConfirmed eventId st = found :: more).
  { assert (Hin : In own (adminController.selectConfirmed eventId st)).
    { apply filter_In. split; [exact Hown|].
      rewrite Hid, String.eqb_refl, Hst. reflexivity. }
    destruct (adminController.selectConfirmed eventId st) as [|x l];
      [contradiction | eauto]. }
  destruct Hsel as (found & more & Hsel).
  assert (Hrun := deleteBooking_run env st eventId found more Hne Hnom Hsel).
  fold out in Hrun. cbv zeta in Hrun.
  assert (Hstore : storeAfter out =
            withBookings st
              (map (fun r => if String.eqb (Booking.event_id r) eventId
                             then bookingController.cancelledRow env r else r)
                   (room_bookings st))).
  { rewrite Hrun. unfold adminController.sendEmail, throw.
    destruct (graphClient env); simpl; [|reflexivity].
    destruct (mailFault env); reflexivity. }
  split; [exact Hstore|]. split.
  { intros r Hr He. rewrite Hstore in Hr. simpl in Hr.
    exact (none_confirmed_after_cancel env st eventId r Hr He). }
  split.
  - intros Hgraph Hmail. rewrite Hrun. unfold adminController.sendEmail.
    rewrite Hgraph, Hmail. reflexivity.
  - intros Hgraph. rewrite Hrun. unfold adminController.sendEmail, throw.
    rewrite Hgraph. split; reflexivity.
Qed.

Lemma admin_deleteBooking_cancels_any_confirmed_witness :
  room_bookings (storeAfter (run (adminController.deleteBooking sampleEnv "e2") sampleStore)) =
    [sampleBooking "e1" "ann@corp.com" 1 1000 2000 confirmed;
     bookingController.cancelledRow sampleEnv
       (sampleBooking "e2" "bob@corp.com" 1 2000 3000 confirmed);
     sampleBooking "e3" "cyd@corp.com" 1 1500 2500 cancelled] /\
  replyOf (run (adminController.deleteBooking sampleEnv "e2") sampleStore) =
    Val {| code := 200;
           body := [("success", JBool true);
                    ("message", JStr "Booking cancelled by admin successfully.")] |}.
Proof.
  destruct (admin_deleteBooking_cancels_any_confirmed sampleEnv sampleStore "e2"
              (sampleBooking "e2" "bob@corp.com" 1 2000 3000 confirmed))
    as (Hstore & _ & Hreply & _).
  - simpl. auto.
  - reflexivity.
  - reflexivity.
  - discriminate.
  - sample_nominal.
  - split; [rewrite Hstore; reflexivity|]. apply Hreply; reflexivity.
Defined.

(** X13.  sendRescheduleEmail never uses the store: in every environment
    the store is as it was and the log holds no driver call; with the four
    fields present it attempts one mail to the organizer, subject "RE: "
    followed by the given subject, and answers 200 when that goes out. *)
Theorem sendRescheduleEmail_leaves_store env st bookingId organizerEmail subject message :
  let out := run (adminController.sendRescheduleEmail env bookingId organizerEmail
                    subject message) st in
  snd out = {| db := st; snapshot := None; rolledBack := false; calls := 0;
               log := log (snd out) |}
  /\
  (forall e, In e (traceOf out) -> isMail e)
  /\
  (forall organizer subj,
     truthyS bookingId = true -> truthyS message = true ->
     organizerEmail = Some organizer -> organizer <> "" ->
     subject = Some subj -> subj <> "" ->
     graphClient env = true -> mailFault env = None ->
     out = (Val {| code := 200;
                   body := [("success", JBool true);
                            ("message", JStr "Reschedule email sent successfully.")] |},
            {| db := st; snapshot := None; rolledBack := false; calls := 0;
               log := [Mail organizer (String.append "RE: " subj) true] |})).
Proof.
  intros out. subst out. unfold run, traceOf, adminController.sendRescheduleEmail.
  split; [|split].
  - destruct organizerEmail as [organizer|]; [|reflexivity].
    destruct subject as [subj|]; [|reflexivity].
    destruct (_ || _); [reflexivity|].
    unfold tryCatch, bind, ret, throw, adminController.sendEmail, initWorld, emit.
    destruct (graphClient env); simpl; [|reflexivity].
    destruct (mailFault env); reflexivity.
  - destruct organizerEmail as [organizer|]; [|intros e []].
    destruct subject as [subj|]; [|intros e []].
    destruct (_ || _); [intros e []|].
    unfold tryCatch, bind, ret, throw, adminController.sendEmail, initWorld, emit.
    destruct (graphClient env); simpl; [|intros e []].
    destruct (mailFault env); simpl; intros e [<-|[]]; exact I.
  - intros organizer subj Hb Hm -> Ho -> Hs Hgraph Hmail.
    apply String.eqb_neq in Ho, Hs. rewrite Hb, Hm, Ho, Hs. simpl.
    unfold tryCatch, bind, ret, adminController.sendEmail, initWorld, emit.
    rewrite Hgraph, Hmail. reflexivity.
Qed.

Lemma sendRescheduleEmail_leaves_store_witness :
  run (adminController.sendRescheduleEmail sampleEnv (Some "e1") (Some "ann@corp.com")
         (Some "Standup") (Some "Please pick another slot")) sampleStore =
    (Val {| code := 200;
            body := [("success", JBool true);
                     ("message", JStr "Reschedule email sent successfully.")] |},
     {| db := sampleStore; snapshot := None; rolledBack := false; calls := 0;
        log := [Mail "ann@corp.com" "RE: Standup" true] |}).
Proof.
  destruct (sendRescheduleEmail_leaves_store sampleEnv sampleStore (Some "e1")
              (Some "ann@corp.com") (Some "Standup") (Some "Please pick another slot"))
    as (_ & _ & Hrun).
  apply (Hrun "ann@corp.com" "Standup"); try reflexivity; discriminate.
Defined.

(** * Further properties of the OTP controller *)

Lemma mergeOtp_rows (st : Store) (email otp : string) (expiresAt createdAt : Z) :
  let fresh := {| OtpRow.email := email; OtpRow.otp := otp;
                  OtpRow.expires_at := expiresAt; OtpRow.created_at := createdAt;
                  OtpRow.is_verified := false |} in
  let after := snd (otpController.mergeOtp email otp expiresAt createdAt st) in
  (forall r, In r (otp_storage after) -> OtpRow.email r = email -> r = fresh) /\
  In fresh (otp_storage after) /\
  (forall r, OtpRow.email r <> email -> (In r (otp_storage after) <-> In r (otp_storage st))).
Proof.
  intros fresh after. subst after. unfold otpController.mergeOtp. simpl.
  destruct (existsb _ (otp_storage st)) eqn:Hex; simpl.
  - apply existsb_exists in Hex as (r0 & Hr0 & He0). apply String.eqb_eq in He0.
    split; [|split].
    + intros r Hr He. apply in_map_iff in Hr as (x & Hx & Hin).
      destruct (String.eqb_spec (OtpRow.email x) email) as [Hxe|Hxe].
      * subst r. unfold otpController.reissued, fresh. rewrite Hxe. reflexivity.
      * subst r. contradiction.
    + apply in_map_iff. exists r0. split; [|exact Hr0].
      rewrite He0, String.eqb_refl. unfold otpController.reissued, fresh.
      rewrite He0. reflexivity.
    + intros r Hne. rewrite in_map_iff. split.
      * intros (x & Hx & Hin).
        destruct (String.eqb_spec (OtpRow.email x) email) as [Hxe|Hxe].
        -- subst r. simpl in Hne. contradiction.
        -- subst r. exact Hin.
      * intros Hin. exists r. split; [|exact Hin].
        apply String.eqb_neq in Hne. rewrite Hne. reflexivity.
  - split; [|split].
    + intros r Hr He. apply in_app_iff in Hr as [Hr|[Hr|[]]]; [|symmetry; exact Hr].
      exfalso. assert (Hex' : existsb (fun r => String.eqb (OtpRow.email r) email)
                                      (otp_storage st) = true).
      { apply existsb_exists. exists r. split; [exact Hr | now apply String.eqb_eq]. }
      congruence.
    + apply in_app_iff. right. left. reflexivity.
    + intros r Hne. rewrite in_app_iff. split; [|tauto].
      intros [Hin|[Hin|[]]]; [exact Hin|]. subst r. simpl in Hne. contradiction.
Qed.

Lemma verifyOtp_run env st email otp :
  email <> "" -> otp <> "" ->
  nominal env ->
  run (otpController.verifyOtp env (Some email) (Some otp)) st =
    match otpController.selectOtp email otp (clock env 0) st with
    | [] =>
        (Val (failure 400 "Invalid or expired OTP."),
         {| db := st; snapshot := None; rolledBack := false; calls := 1;
            log := [Sql SelectOtp OnPool] |})
    | _ :: _ =>
        (Val {| code := 200;
                body := [("verified", JBool true);
                         ("message", JStr "OTP verified successfully.")] |},
         {| db := snd (otpController.markVerified email otp st);
            snapshot := None; rolledBack := false; calls := 2;
            log := [Sql SelectOtp OnPool; Sql VerifyOtp OnPool] |})
    end.
Proof.
  intros H1 H2 Hnom. apply String.eqb_neq in H1, H2.
  unfold run, otpController.verifyOtp. rewrite H1, H2. simpl.
  use_nominal Hnom.
  destruct (otpController.selectOtp email otp (clock env 0) st); simpl;
    [reflexivity|]. rewrite Hfault. reflexivity.
Qed.

Lemma checkVerificationStatus_run env st email :
  email <> "" ->
  nominal env ->
  run (otpController.checkVerificationStatus env email) st =
    let result := otpController.selectVerified email (clock env 0) st in
    (Val {| code := 200;
            body := [("success", JBool true);
                     ("isVerified", JBool (0 <? List.length result)%nat);
                     ("verifiedAt", match otpController.latest result with
                                    | Some t => JNum t
                                    | None => JNull
                                    end)] |},
     {| db := st; snapshot := None; rolledBack := false; calls := 1;
        log := [Sql SelectVerifiedOtp OnPool] |}).
Proof.
  intros H1 Hnom. apply String.eqb_neq in H1.
  unfold run, otpController.checkVerificationStatus. rewrite H1.
  use_nominal Hnom. reflexivity.
Qed.

(** X14.  verifyOtp, with the store answering.  If some record of the email
    holds the submitted code and expires after the clock reading, the reply
    is 200 with verified = true and every record of that email and code
    becomes verified, the others staying as they were.  Otherwise (no record,
    another code, or expired) the reply is the one 400 "Invalid or expired
    OTP.", whichever of these is the cause, and nothing is written. *)
Theorem verifyOtp_accepts_live_code_only env st email otp :
  email <> "" -> otp <> "" ->
  nominal env ->
  let out := run (otpController.verifyOtp env (Some email) (Some otp)) st in
  ((exists r, In r (otp_storage st) /\ OtpRow.email r = email /\ OtpRow.otp r = otp /\
              OtpRow.expires_at r > clock env 0) ->
   replyOf out = Val {| code := 200;
                        body := [("verified", JBool true);
                                 ("message", JStr "OTP verified successfully.")] |} /\
   (forall r, In r (otp_storage (storeAfter out)) ->
              OtpRow.email r = email -> OtpRow.otp r = otp -> OtpRow.is_verified r = true) /\
   (forall r, OtpRow.email r <> email \/ OtpRow.otp r <> otp ->
              (In r (otp_storage (storeAfter out)) <-> In r (otp_storage st))))
  /\
  ((forall r, In r (otp_storage st) -> OtpRow.email r = email -> OtpRow.otp r = otp ->
              OtpRow.expires_at r <= clock env 0) ->
   replyOf out = Val (failure 400 "Invalid or expired OTP.") /\
   storeAfter out = st /\
   traceOf out = [Sql SelectOtp OnPool]).
Proof.
  intros H1 H2 Hnom out.
  assert (Hrun := verifyOtp_run env st email otp H1 H2 Hnom). fold out in Hrun.
  split.
  - intros (r0 & Hr0 & He0 & Ho0 & Hlive).
    assert (Hin : In r0 (otpController.selectOtp email otp (clock env 0) st)).
    { apply filter_In. split; [exact Hr0|].
      rewrite He0, Ho0, !String.eqb_refl. simpl. rewrite Z.gtb_ltb. apply Z.ltb_lt. lia. }
    destruct (otpController.selectOtp email otp (clock env 0) st) as [|x l];
      [contradiction|].
    rewrite Hrun. split; [reflexivity|]. unfold storeAfter, committed. simpl. split.
    + intros r Hr He Ho. apply in_map_iff in Hr as (x0 & Hx0 & Hin0).
      destruct (String.eqb (OtpRow.email x0) email && String.eqb (OtpRow.otp x0) otp) eqn:Hm;
        subst r; [reflexivity|].
      apply String.eqb_eq in He, Ho. rewrite He, Ho in Hm. discriminate.
    + intros r Hne. rewrite in_map_iff. split.
      * intros (x0 & Hx0 & Hin0).
        destruct (String.eqb (OtpRow.email x0) email && String.eqb (OtpRow.otp x0) otp) eqn:Hm.
        -- apply andb_true_iff in Hm as [Hme Hmo].
           apply String.eqb_eq in Hme, Hmo. subst r. simpl in Hne. tauto.
        -- subst r. exact Hin0.
      * intros Hin0. exists r. split; [|exact Hin0].
        replace (String.eqb (OtpRow.email r) email && String.eqb (OtpRow.otp r) otp)
          with false; [reflexivity|].
        symmetry. apply andb_false_iff.
        destruct Hne as [Hne|Hne]; [left | right]; now apply String.eqb_neq.
  - intros Hdead.
    assert (Hnone : otpController.selectOtp email otp (clock env 0) st = []).
    { apply filter_none. intros r Hr.
      destruct (String.eqb_spec (OtpRow.email r) email) as [He|He]; [|reflexivity].
      destruct (String.eqb_spec (OtpRow.otp r) otp) as [Ho|Ho]; [|reflexivity].
      simpl. rewrite Z.gtb_ltb. apply Z.ltb_ge. exact (Hdead r Hr He Ho). }
    rewrite Hrun, Hnone. repeat split.
Qed.

Lemma verifyOtp_accepts_live_code_only_witness :
  replyOf (run (otpController.verifyOtp sampleEnv (Some "e@f.com") (Some "333333")) otpStore) =
    Val {| code := 200;
           body := [("verified", JBool true);
                    ("message", JStr "OTP verified successfully.")] |} /\
  replyOf (run (otpController.verifyOtp sampleEnv (Some "a@b.com") (Some "111111")) otpStore) =
    Val (failure 400 "Invalid or expired OTP.") /\
  replyOf (run (otpController.verifyOtp sampleEnv (Some "e@f.com") (Some "000000")) otpStore) =
    Val (failure 400 "Invalid or expired OTP.").
Proof.
  split; [|split].
  - destruct (verifyOtp_accepts_live_code_only sampleEnv otpStore "e@f.com" "333333")
      as [Hok _]; [discriminate | discriminate | sample_nominal |].
    apply Hok. exists (sampleOtp "e@f.com" "333333" 9000 true).
    simpl. repeat split; auto; lia.
  - destruct (verifyOtp_accepts_live_code_only sampleEnv otpStore "a@b.com" "111111")
      as [_ Hno]; [discriminate | discriminate | sample_nominal |].
    apply Hno. intros r Hr He Ho. sample_rows Hr.
  - destruct (verifyOtp_accepts_live_code_only sampleEnv otpStore "e@f.com" "000000")
      as [_ Hno]; [discriminate | discriminate | sample_nominal |].
    apply Hno. intros r Hr He Ho. sample_rows Hr.
Defined.

Lemma latest_constant (l : list OtpRow.t) (t : Z) :
  l <> [] ->
  (forall r, In r l -> OtpRow.created_at r = t) ->
  otpController.latest l = Some t.
Proof.
  induction l as [|a l IH]; intros Hne Hall; [contradiction|]. simpl.
  rewrite (Hall a (or_introl eq_refl)).
  destruct l as [|b l'].
  - reflexivity.
  - rewrite IH; [|discriminate | intros r Hr; apply Hall; right; exact Hr].
    rewrite Z.max_id. reflexivity.
Qed.

(** X15.  Send, verify, status.  After sendOtp has stored a code for an
    email: verifyOtp with that code before the expiry answers 200, and a
    status check before the expiry then reports isVerified = true with the
    record's creation time; verifyOtp at or after the expiry, or with any
    other code, answers 400 "Invalid or expired OTP." and writes nothing. *)
Theorem otp_send_then_verify env env1 env2 st email :
  email <> "" ->
  nominal env -> nominal env1 -> nominal env2 ->
  let code := toString (otpController.randomInt env 100000 999999) in
  let expiry := clock env 0 + 300000 in
  let sent := storeAfter (run (otpController.sendOtp env (Some email)) st) in
  let verified := storeAfter (run (otpController.verifyOtp env1 (Some email) (Some code)) sent) in
  (clock env1 0 < expiry ->
   replyOf (run (otpController.verifyOtp env1 (Some email) (Some code)) sent) =
     Val {| code := 200;
            body := [("verified", JBool true);
                     ("message", JStr "OTP verified successfully.")] |} /\
   (clock env2 0 < expiry ->
    replyOf (run (otpController.checkVerificationStatus env2 email) verified) =
      Val {| code := 200;
             body := [("success", JBool true);
                      ("isVerified", JBool true);
                      ("verifiedAt", JNum (clock env 1))] |}))
  /\
  (expiry <= clock env1 0 ->
   replyOf (run (otpController.verifyOtp env1 (Some email) (Some code)) sent) =
     Val (failure 400 "Invalid or expired OTP.") /\
   verified = sent)
  /\
  (forall other, other <> "" -> other <> code ->
     replyOf (run (otpController.verifyOtp env1 (Some email) (Some other)) sent) =
       Val (failure 400 "Invalid or expired OTP.") /\
     storeAfter (run (otpController.verifyOtp env1 (Some email) (Some other)) sent) = sent).
Proof.
  intros Hne Hnom Hnom1 Hnom2 code expiry sent verified.
  assert (Hcode : code <> "").
  { intros Hc. pose proof (proj1 (toString_six (otpController.randomInt env 100000 999999)
                                    ltac:(pose proof (randomInt_range env 100000 999999
                                                        ltac:(lia)); lia))) as Hlen.
    fold code in Hlen. rewrite Hc in Hlen. discriminate. }
  assert (Hsent : sent = snd (otpController.mergeOtp email code expiry (clock env 1) st))
    by (exact (sendOtp_store env st email Hne Hnom)).
  destruct (mergeOtp_rows st email code expiry (clock env 1)) as (Honly & Hin & _).
  cbv zeta in Honly, Hin. rewrite <- Hsent in Honly, Hin.
  set (fresh := {| OtpRow.email := email; OtpRow.otp := code; OtpRow.expires_at := expiry;
                   OtpRow.created_at := clock env 1; OtpRow.is_verified := false |}) in *.
  split; [|split].
  - intros Hlive.
    assert (Hsel : In fresh (otpController.selectOtp email code (clock env1 0) sent)).
    { apply filter_In. split; [exact Hin|]. simpl.
      rewrite !String.eqb_refl. simpl. rewrite Z.gtb_ltb. apply Z.ltb_lt. exact Hlive. }
    assert (Hrun := verifyOtp_run env1 sent email code Hne Hcode Hnom1).
    destruct (otpController.selectOtp email code (clock env1 0) sent) as [|x l];
      [contradiction|].
    split; [rewrite Hrun; reflexivity|].
    intros Hlive2.
    assert (Hver : verified = snd (otpController.markVerified email code sent))
      by (unfold verified; rewrite Hrun; reflexivity).
    rewrite (checkVerificationStatus_run env2 verified email Hne Hnom2). cbv zeta.
    set (freshV := {| OtpRow.email := email; OtpRow.otp := code; OtpRow.expires_at := expiry;
                      OtpRow.created_at := clock env 1; OtpRow.is_verified := true |}).
    assert (Hall : forall r, In r (otpController.selectVerified email (clock env2 0) verified)
                             -> r = freshV).
    { intros r Hr. apply filter_In in Hr as [Hr Hp]. rewrite !andb_true_iff in Hp.
      destruct Hp as [[He _] _]. apply String.eqb_eq in He.
      rewrite Hver in Hr. simpl in Hr. apply in_map_iff in Hr as (x0 & Hx0 & Hin0).
      destruct (String.eqb (OtpRow.email x0) email && String.eqb (OtpRow.otp x0) code) eqn:Hm.
      - apply andb_true_iff in Hm as [Hme _]. apply String.eqb_eq in Hme.
        rewrite (Honly x0 Hin0 Hme) in Hx0. subst r. reflexivity.
      - subst r. rewrite (Honly x0 Hin0 He) in Hm. simpl in Hm.
        rewrite !String.eqb_refl in Hm. discriminate. }
    assert (HinV : In freshV (otpController.selectVerified email (clock env2 0) verified)).
    { apply filter_In. split.
      - rewrite Hver. simpl. apply in_map_iff. exists fresh. split; [|exact Hin].
        simpl. rewrite !String.eqb_refl. reflexivity.
      - simpl. rewrite String.eqb_refl. simpl.
        rewrite Z.gtb_ltb. rewrite (proj2 (Z.ltb_lt _ _) Hlive2). reflexivity. }
    rewrite (latest_constant _ (clock env 1)).
    + destruct (otpController.selectVerified email (clock env2 0) verified);
        [contradiction | reflexivity].
    + intros Hnil. rewrite Hnil in HinV. contradiction.
    + intros r Hr. rewrite (Hall r Hr). reflexivity.
  - intros Hdead.
    assert (Hnone : otpController.selectOtp email code (clock env1 0) sent = []).
    { apply filter_none. intros r Hr.
      destruct (String.eqb_spec (OtpRow.email r) email) as [He|He]; [|reflexivity].
      rewrite (Honly r Hr He). simpl. rewrite String.eqb_refl. simpl.
      rewrite Z.gtb_ltb. apply Z.ltb_ge. exact Hdead. }
    assert (Hrun := verifyOtp_run env1 sent email code Hne Hcode Hnom1).
    rewrite Hnone in Hrun. unfold verified. rewrite Hrun. split; reflexivity.
  - intros other Hother Hdiff.
    assert (Hnone : otpController.selectOtp email other (clock env1 0) sent = []).
    { apply filter_none. intros r Hr.
      destruct (String.eqb_spec (OtpRow.email r) email) as [He|He]; [|reflexivity].
      rewrite (Honly r Hr He). simpl.
      replace (String.eqb code other) with false; [reflexivity|].
      symmetry. apply String.eqb_neq. congruence. }
    assert (Hrun := verifyOtp_run env1 sent email other Hne Hother Hnom1).
    rewrite Hnone in Hrun. rewrite Hrun. split; reflexivity.
Qed.

Lemma otp_send_then_verify_witness :
  let code := toString (otpController.randomInt sampleEnv 100000 999999) in
  let sent := storeAfter (run (otpController.sendOtp sampleEnv (Some "a@b.com")) otpStore) in
  replyOf (run (otpController.verifyOtp otherEnv (Some "a@b.com") (Some code)) sent) =
    Val {| code := 200;
           body := [("verified", JBool true);
                    ("message", JStr "OTP verified successfully.")] |} /\
  replyOf (run (otpController.verifyOtp otherEnv (Some "a@b.com") (Some "12345")) sent) =
    Val (failure 400 "Invalid or expired OTP.").
Proof.
  destruct (otp_send_then_verify sampleEnv otherEnv otherEnv otpStore "a@b.com")
    as (Hlive & _ & Hother).
  - discriminate.
  - sample_nominal.
  - sample_nominal.
  - sample_nominal.
  - split.
    + apply Hlive. simpl. lia.
    + apply Hother; [discriminate|].
      intros Heq. apply (f_equal String.length) in Heq.
      rewrite (proj1 (toString_six (otpController.randomInt sampleEnv 100000 999999)
                        ltac:(pose proof (randomInt_range sampleEnv 100000 999999
                                            ltac:(lia)); lia))) in Heq.
      discriminate.
Defined.

(** X16.  A new code withdraws the verification: after sendOtp for an email,
    whatever the table held before (a verified record included), the status
    check for that email reports isVerified = false with no verifiedAt, at
    any time. *)
Theorem resend_resets_verification env env' st email :
  email <> "" ->
  nominal env -> nominal env' ->
  replyOf (run (otpController.checkVerificationStatus env' email)
             (storeAfter (run (otpController.sendOtp env (Some email)) st))) =
    Val {| code := 200;
           body := [("success", JBool true);
                    ("isVerified", JBool false);
                    ("verifiedAt", JNull)] |}.
Proof.
  intros Hne Hnom Hnom'.
  rewrite (checkVerificationStatus_run env' _ email Hne Hnom'). cbv zeta.
  rewrite (sendOtp_store env st email Hne Hnom).
  destruct (mergeOtp_rows st email (toString (otpController.randomInt env 100000 999999))
              (clock env 0 + 5 * 60 * 1000) (clock env 1)) as (Honly & _ & _).
  cbv zeta in Honly.
  assert (Hnone : otpController.selectVerified email (clock env' 0)
                    (snd (otpController.mergeOtp email
                            (toString (otpController.randomInt env 100000 999999))
                            (clock env 0 + 5 * 60 * 1000) (clock env 1) st)) = []).
  { apply filter_none. intros r Hr.
    destruct (String.eqb_spec (OtpRow.email r) email) as [He|He]; [|reflexivity].
    rewrite (Honly r Hr He). simpl. apply andb_false_r. }
  rewrite Hnone.
  reflexivity.
Qed.

Lemma resend_resets_verification_witness :
  replyOf (run (otpController.checkVerificationStatus sampleEnv "e@f.com") otpStore) =
    Val {| code := 200;
           body := [("success", JBool true);
                    ("isVerified", JBool true);
                    ("verifiedAt", JNum (-291000))] |} /\
  replyOf (run (otpController.checkVerificationStatus otherEnv "e@f.com")
             (storeAfter (run (otpController.sendOtp sampleEnv (Some "e@f.com")) otpStore))) =
    Val {| code := 200;
           body := [("success", JBool true);
                    ("isVerified", JBool false);
                    ("verifiedAt", JNull)] |}.
Proof.
  split; [reflexivity|].
  apply resend_resets_verification; [discriminate | sample_nominal | sample_nominal].
Defined.

(** X17.  The verify route lets a code through to the handler exactly when
    it is six characters long, all of them digits; every code sendOtp
    generates is let through. *)
Theorem validateOtp_accepts_generated_codes (env : Env) :
  (forall otp,
     otpRoutes.validateOtp otp = None <->
     exists s, otp = Some s /\ String.length s = 6%nat /\ otpRoutes.allDigits s = true)
  /\
  (forall otp,
     otpRoutes.validateOtp otp = None \/
     otpRoutes.validateOtp otp = Some (failure 400 "OTP must be a 6-digit number."))
  /\
  otpRoutes.validateOtp (Some (toString (otpController.randomInt env 100000 999999))) = None.
Proof.
  assert (Hiff : forall otp,
            otpRoutes.validateOtp otp = None <->
            exists s, otp = Some s /\ String.length s = 6%nat /\ otpRoutes.allDigits s = true).
  { intros [s|]; unfold otpRoutes.validateOtp.
    - destruct (String.eqb_spec s "") as [->|Hne]; simpl.
      + split; [discriminate | intros (s & [= <-] & Hlen & _); discriminate].
      + destruct (Nat.eqb_spec (String.length s) 6) as [Hlen|Hlen]; simpl.
        * destruct (otpRoutes.allDigits s) eqn:Hd; simpl.
          -- split; [intros _; eauto | reflexivity].
          -- split; [discriminate | intros (s' & [= <-] & _ & Hd'); congruence].
        * split; [discriminate | intros (s' & [= <-] & Hlen' & _); contradiction].
    - split; [discriminate | intros (s & [=] & _)]. }
  split; [exact Hiff|]. split.
  - intros [s|]; unfold otpRoutes.validateOtp; [|right; reflexivity].
    destruct (_ || _); [right | left]; reflexivity.
  - apply Hiff. eexists. split; [reflexivity|].
    apply toString_six. pose proof (randomInt_range env 100000 999999 ltac:(lia)). lia.
Qed.

Lemma filter_filter_implied {A} (p q : A -> bool) (l : list A) :
  (forall x, p x = true -> q x = true) ->
  filter p (filter q l) = filter p l.
Proof.
  intros H. induction l as [|a l IH]; [reflexivity|]. simpl.
  destruct (q a) eqn:Hq; simpl.
  - rewrite IH. reflexivity.
  - destruct (p a) eqn:Hp; [rewrite (H a Hp) in Hq; discriminate | exact IH].
Qed.

(** X18.  Cleaning up changes no answer: a status check or a verification
    made no earlier than the cleanup gets the same reply on the cleaned table
    as on the table before the cleanup, since every record the cleanup
    deletes has already expired for it. *)
Theorem cleanup_changes_no_answer env env' st email otp :
  nominal env -> nominal env' ->
  clock env 0 <= clock env' 0 ->
  email <> "" -> otp <> "" ->
  let cleaned := storeAfter (run (otpController.cleanupExpiredOtps env) st) in
  replyOf (run (otpController.checkVerificationStatus env' email) cleaned) =
  replyOf (run (otpController.checkVerificationStatus env' email) st)
  /\
  replyOf (run (otpController.verifyOtp env' (Some email) (Some otp)) cleaned) =
  replyOf (run (otpController.verifyOtp env' (Some email) (Some otp)) st).
Proof.
  intros Hnom Hnom' Hlater Hne Hne' cleaned.
  assert (Hcleaned : cleaned =
            withOtps st (filter (fun r => negb (OtpRow.expires_at r <? clock env 0))
                                (otp_storage st)))
    by (unfold cleaned; rewrite (cleanupExpiredOtps_run env st Hnom); reflexivity).
  split.
  - rewrite !(checkVerificationStatus_run env' _ email Hne Hnom'). cbv zeta.
    assert (Hsame : otpController.selectVerified email (clock env' 0) cleaned =
                    otpController.selectVerified email (clock env' 0) st).
    { rewrite Hcleaned. unfold otpController.selectVerified. simpl.
      apply filter_filter_implied. intros r Hp. rewrite !andb_true_iff in Hp.
      destruct Hp as [[_ Hlive] _]. rewrite Z.gtb_ltb in Hlive. apply Z.ltb_lt in Hlive.
      apply negb_true_iff. apply Z.ltb_ge. lia. }
    rewrite Hsame. reflexivity.
  - rewrite !(verifyOtp_run env' _ email otp Hne Hne' Hnom').
    assert (Hsame : otpController.selectOtp email otp (clock env' 0) cleaned =
                    otpController.selectOtp email otp (clock env' 0) st).
    { rewrite Hcleaned. unfold otpController.selectOtp. simpl.
      apply filter_filter_implied. intros r Hp. rewrite !andb_true_iff in Hp.
      destruct Hp as [_ Hlive]. rewrite Z.gtb_ltb in Hlive. apply Z.ltb_lt in Hlive.
      apply negb_true_iff. apply Z.ltb_ge. lia. }
    rewrite Hsame.
    destruct (otpController.selectOtp email otp (clock env' 0) st); reflexivity.
Qed.

Lemma cleanup_changes_no_answer_witness :
  replyOf (run (otpController.checkVerificationStatus otherEnv "e@f.com")
             (storeAfter (run (otpController.cleanupExpiredOtps sampleEnv) otpStore))) =
  replyOf (run (otpController.checkVerificationStatus otherEnv "e@f.com") otpStore) /\
  replyOf (run (otpController.verifyOtp otherEnv (Some "a@b.com") (Some "111111"))
             (storeAfter (run (otpController.cleanupExpiredOtps sampleEnv) otpStore))) =
  replyOf (run (otpController.verifyOtp otherEnv (Some "a@b.com") (Some "111111")) otpStore).
Proof.
  split.
  - apply (cleanup_changes_no_answer sampleEnv otherEnv otpStore "e@f.com" "333333");
      [sample_nominal | sample_nominal | simpl; lia | discriminate | discriminate].
  - apply (cleanup_changes_no_answer sampleEnv otherEnv otpStore "a@b.com" "111111");
      [sample_nominal | sample_nominal | simpl; lia | discriminate | discriminate].
Defined.

(** * Properties of the routes *)

Lemma guarded_cases (checks : list (option Reply)) (handler : M Reply) :
  (exists r, In (Some r) checks /\ bookingRoutes.guarded checks handler = ret r) \/
  (Forall (fun c => c = None) checks /\ bookingRoutes.guarded checks handler = handler).
Proof.
  unfold bookingRoutes.guarded. induction checks as [|c checks IH]; simpl.
  - right. split; [constructor | reflexivity].
  - destruct c as [r|]; simpl.
    + left. exists r. split; [left; reflexivity | reflexivity].
    + destruct IH as [(r & Hin & Heq)|[Hall Heq]].
      * left. exists r. split; [right; exact Hin | exact Heq].
      * right. split; [constructor; [reflexivity | exact Hall] | exact Heq].
Qed.

(** What the three validations of the create and update routes have
    established once they all call [next()]. *)
Lemma route_checks_passed now email totalParticipants b roomId subject organizer
    start end_ total stop :
  required b roomId subject organizer start end_ total ->
  bookingRoutes.validateEmail email (bookingController.organizer_email b) None = None ->
  bookingRoutes.validateDateRange now (bookingController.start_datetime b)
    (bookingController.end_datetime b) = None ->
  bookingRoutes.validateFields stop (bookingController.subject b) totalParticipants = None ->
  exists parsed tested,
    start < end_ /\ now - 300000 <= start /\
    totalParticipants = Some parsed /\ 1 <= parsed /\
    blank (codeUnits subject) = false /\
    bookingRoutes.firstTruthy email (Some organizer) None = Some tested /\
    (truthyS email = false -> tested = organizer) /\
    emailRegex (codeUnits tested) = true.
Proof.
  intros Hreq Hmail Hdates Hfields.
  pose proof Hreq as (_ & _ & Hsubj & Hsubj0 & Horg & Horg0 & Hs & He & _).
  rewrite Hs, He in Hdates. rewrite Hsubj in Hfields. rewrite Horg in Hmail.
  unfold bookingRoutes.validateDateRange in Hdates.
  destruct (start >=? end_) eqn:Hge; [discriminate|].
  destruct (start <? now - 5 * 60 * 1000) eqn:Hpast; [discriminate|].
  rewrite Z.geb_leb in Hge. apply Z.leb_gt in Hge. apply Z.ltb_ge in Hpast.
  unfold bookingRoutes.validateFields in Hfields.
  destruct (blank (codeUnits subject)) eqn:Hblank;
    [rewrite orb_true_r in Hfields; discriminate|].
  destruct (negb (truthyS (Some subject)) || false); [discriminate|].
  destruct totalParticipants as [parsed|]; [|discriminate].
  destruct (parsed <? 1) eqn:Hlow; [discriminate|]. apply Z.ltb_ge in Hlow.
  assert (Htested : exists tested,
            bookingRoutes.firstTruthy email (Some organizer) None = Some tested /\
            tested <> "" /\ (truthyS email = false -> tested = organizer)).
  { unfold bookingRoutes.firstTruthy.
    destruct email as [e|]; simpl.
    - destruct (String.eqb_spec e "") as [->|Hne]; simpl.
      + apply String.eqb_neq in Horg0. rewrite Horg0. simpl.
        exists organizer. apply String.eqb_neq in Horg0. auto.
      + exists e. repeat split; [exact Hne | discriminate].
    - apply String.eqb_neq in Horg0. rewrite Horg0. simpl.
      exists organizer. apply String.eqb_neq in Horg0. auto. }
  destruct Htested as (tested & Htested & Hne & Horganizer).
  exists parsed, tested.
  split; [exact Hge|]. split; [lia|].
  split; [reflexivity|]. split; [exact Hlow|]. split; [reflexivity|].
  split; [exact Htested|]. split; [exact Horganizer|].
  unfold bookingRoutes.validateEmail in Hmail. rewrite Htested in Hmail.
  apply String.eqb_neq in Hne. rewrite Hne in Hmail.
  destruct (emailRegex (codeUnits tested)); [reflexivity | discriminate].
Qed.

(** X19.  Through the create route only well-formed bookings are written:
    whenever a request to POST /create changes the store, the body carries
    the required fields, its start lies strictly before its end and at most
    five minutes before the clock reading, the number [parseInt] reads from
    total_participants is at least one, the subject is not blank, the address
    the route tested (body.email, or else organizer_email) matches the email
    pattern, and the change is the one appended confirmed row with the fields
    of the body.  The route tests the parsed number and the controller stores
    the field itself, so nothing is said here of the stored
    total_participants beyond its being non-zero. *)
Theorem create_route_writes_only_well_formed env now email totalParticipants b st :
  storeAfter (run (bookingRoutes.postCreate env now email totalParticipants b) st) <> st ->
  exists roomId subject organizer start end_ total parsed tested,
    required b roomId subject organizer start end_ total /\
    start < end_ /\ now - 300000 <= start /\
    totalParticipants = Some parsed /\ 1 <= parsed /\
    blank (codeUnits subject) = false /\
    bookingRoutes.firstTruthy email (Some organizer) None = Some tested /\
    (truthyS email = false -> tested = organizer) /\
    emailRegex (codeUnits tested) = true /\
    storeAfter (run (bookingRoutes.postCreate env now email totalParticipants b) st) =
      withBookings st
        (room_bookings st ++
         [bookingController.newBooking env b roomId subject organizer start end_ total]).
Proof.
  unfold bookingRoutes.postCreate. intros Hchanged.
  match goal with
  | H : context [bookingRoutes.guarded ?cs ?h] |- _ =>
      destruct (guarded_cases cs h) as [(r & _ & Heq)|[Hall Heq]]
  end; rewrite Heq in *.
  { exfalso. apply Hchanged. reflexivity. }
  inversion Hall as [|c1 l1 _ Hall1]; subst.
  inversion Hall1 as [|c2 l2 Hmail Hall2]; subst.
  inversion Hall2 as [|c3 l3 Hdates Hall3]; subst.
  inversion Hall3 as [|c4 l4 Hfields _]; subst.
  destruct (createBooking_store_request env st b)
    as [Hsame|(roomId & subject & organizer & start & end_ & total & Hreq & Hstore)];
    [contradiction|].
  destruct (route_checks_passed now email totalParticipants b roomId subject organizer
              start end_ total "" Hreq Hmail Hdates Hfields)
    as (parsed & tested & Hlt & Hpast & Hparsed & Hlow & Hblank & Htested & Horganizer
        & Hregex).
  exists roomId, subject, organizer, start, end_, total, parsed, tested.
  repeat (split; [assumption|]). exact Hstore.
Qed.

Lemma create_route_writes_only_well_formed_witness :
  exists roomId subject organizer start end_ total,
    start < end_ /\ blank (codeUnits subject) = false /\
    emailRegex (codeUnits organizer) = true /\
    storeAfter (run (bookingRoutes.postCreate sampleEnv 5000 None (Some 4)
                       (sampleBody "dan@corp.com" 1 10000 20000 4)) sampleStore) =
      withBookings sampleStore
        (room_bookings sampleStore ++
         [bookingController.newBooking sampleEnv (sampleBody "dan@corp.com" 1 10000 20000 4)
            roomId subject organizer start end_ total]).
Proof.
  destruct (create_route_writes_only_well_formed sampleEnv 5000 None (Some 4)
              (sampleBody "dan@corp.com" 1 10000 20000 4) sampleStore)
    as (roomId & subject & organizer & start & end_ & total & parsed & tested
        & _ & Hlt & _ & _ & _ & Hblank & _ & Horganizer & Hmail & Hstore).
  - vm_compute. discriminate.
  - exists roomId, subject, organizer, start, end_, total.
    split; [exact Hlt|]. split; [exact Hblank|].
    split; [rewrite <- (Horganizer eq_refl); exact Hmail | exact Hstore].
Defined.

(** X27.  Through the update route only well-formed reschedules are written:
    whenever a request to PUT /:eventId changes the store, the body carries
    the required fields, its start lies strictly before its end and at most
    five minutes before the clock reading, the number [parseInt] reads from
    total_participants is at least one, the subject is not blank, the address
    the route tested matches the email pattern, the room the body names is in
    the rooms table, and the change is the SET clause with the fields of the
    body applied to the rows carrying the identifier. *)
Theorem update_route_writes_only_well_formed env now eventId email totalParticipants b st :
  storeAfter (run (bookingRoutes.putUpdate env now eventId email totalParticipants b) st)
    <> st ->
  exists roomId room others subject organizer start end_ total parsed tested,
    required b roomId subject organizer start end_ total /\
    start < end_ /\ now - 300000 <= start /\
    totalParticipants = Some parsed /\ 1 <= parsed /\
    blank (codeUnits subject) = false /\
    bookingRoutes.firstTruthy email (Some organizer) None = Some tested /\
    (truthyS email = false -> tested = organizer) /\
    emailRegex (codeUnits tested) = true /\
    bookingController.selectRoom roomId st = room :: others /\
    storeAfter (run (bookingRoutes.putUpdate env now eventId email totalParticipants b) st) =
      withBookings st
        (map (fun r => if String.eqb (Booking.event_id r) eventId
                       then bookingController.rescheduled env b roomId (Room.name room)
                              subject organizer start end_ total r
                       else r)
             (room_bookings st)).
Proof.
  unfold bookingRoutes.putUpdate. intros Hchanged.
  match goal with
  | H : context [bookingRoutes.guarded ?cs ?h] |- _ =>
      destruct (guarded_cases cs h) as [(r & _ & Heq)|[Hall Heq]]
  end; rewrite Heq in *.
  { exfalso. apply Hchanged. reflexivity. }
  inversion Hall as [|c1 l1 _ Hall1]; subst.
  inversion Hall1 as [|c2 l2 Hmail Hall2]; subst.
  inversion Hall2 as [|c3 l3 Hdates Hall3]; subst.
  inversion Hall3 as [|c4 l4 Hfields _]; subst.
  destruct (updateBooking_store_request env st eventId b)
    as [Hsame|(roomId & room & others & subject & organizer & start & end_ & total
               & Hreq & Hroom & Hstore)];
    [contradiction|].
  destruct (route_checks_passed now email totalParticipants b roomId subject organizer
              start end_ total "." Hreq Hmail Hdates Hfields)
    as (parsed & tested & Hlt & Hpast & Hparsed & Hlow & Hblank & Htested & Horganizer
        & Hregex).
  exists roomId, room, others, subject, organizer, start, end_, total, parsed, tested.
  repeat (split; [assumption|]). exact Hstore.
Qed.

Lemma update_route_writes_only_well_formed_witness :
  exists roomId room others subject organizer start end_ total,
    start < end_ /\ blank (codeUnits subject) = false /\
    emailRegex (codeUnits organizer) = true /\
    storeAfter (run (bookingRoutes.putUpdate sampleEnv 5000 "e2" None (Some 4)
                       (sampleBody "bob@corp.com" 1 10000 20000 4)) sampleStore) =
      withBookings sampleStore
        (map (fun r => if String.eqb (Booking.event_id r) "e2"
                       then bookingController.rescheduled sampleEnv
                              (sampleBody "bob@corp.com" 1 10000 20000 4) roomId
                              (Room.name room) subject organizer start end_ total r
                       else r)
             (room_bookings sampleStore)) /\
    bookingController.selectRoom roomId sampleStore = room :: others.
Proof.
  destruct (update_route_writes_only_well_formed sampleEnv 5000 "e2" None (Some 4)
              (sampleBody "bob@corp.com" 1 10000 20000 4) sampleStore)
    as (roomId & room & others & subject & organizer & start & end_ & total & parsed & tested
        & _ & Hlt & _ & _ & _ & Hblank & _ & Horganizer & Hmail & Hroom & Hstore).
  - vm_compute. discriminate.
  - exists roomId, room, others, subject, organizer, start, end_, total.
    split; [exact Hlt|]. split; [exact Hblank|].
    split; [rewrite <- (Horganizer eq_refl); exact Hmail|].
    split; [exact Hstore | exact Hroom].
Defined.

Lemma plainToEnd_spec (s : list N) :
  plainToEnd s = true <-> s <> [] /\ allPlain s = true.
Proof.
  unfold allPlain. induction s as [|c s IH]; simpl.
  - split; [discriminate | intros [H _]; contradiction].
  - destruct s as [|c' s'].
    + simpl. rewrite andb_true_r. split; [intros H; split; [discriminate | exact H] | tauto].
    + rewrite andb_true_iff, IH. split.
      * intros (Hc & _ & Hs). split; [discriminate|]. apply andb_true_iff. tauto.
      * intros (_ & H). apply andb_true_iff in H as [Hc Hs].
        split; [exact Hc|]. split; [discriminate | exact Hs].
Qed.

Lemma domainToEnd_spec (s : list N) :
  forall started,
    domainToEnd started s = true <->
    exists b c, s = b ++ fullStop :: c /\
                allPlain b = true /\ allPlain c = true /\ c <> [] /\
                (started = true \/ b <> []).
Proof.
  induction s as [|x s IH]; intros started; simpl.
  - split; [discriminate|]. intros (b & c & Heq & _). destruct b; discriminate.
  - rewrite orb_true_iff, !andb_true_iff, plainToEnd_spec, IH. split.
    + intros [[[Hst Hdot] [Hne Hc]]|[Hx (b & c & -> & Hb & Hc & Hne & _)]].
      * apply N.eqb_eq in Hdot. subst x. exists [], s. simpl. tauto.
      * exists (x :: b), c. unfold allPlain in *. simpl. rewrite Hx, Hb.
        repeat split; try assumption. right. discriminate.
    + intros (b & c & Heq & Hb & Hc & Hne & Hst). destruct b as [|y b].
      * simpl in Heq. injection Heq as -> ->. left.
        destruct Hst as [Hst|Hst]; [|contradiction].
        repeat split; try assumption.
      * simpl in Heq. injection Heq as -> ->. unfold allPlain in Hb. simpl in Hb.
        apply andb_true_iff in Hb as [Hy Hb]. right. split; [exact Hy|].
        exists b, c. repeat split; try assumption. left. reflexivity.
Qed.

Lemma localToEnd_spec (s : list N) :
  forall started,
    localToEnd started s = true <->
    exists a d, s = a ++ atSign :: d /\
                allPlain a = true /\ (started = true \/ a <> []) /\
                domainToEnd false d = true.
Proof.
  induction s as [|x s IH]; intros started; simpl.
  - split; [discriminate|]. intros (a & d & Heq & _). destruct a; discriminate.
  - destruct (N.eqb_spec x atSign) as [->|Hx].
    + rewrite andb_true_iff. split.
      * intros [Hst Hd]. exists [], s. simpl. tauto.
      * intros (a & d & Heq & Ha & Hst & Hd). destruct a as [|y a].
        -- simpl in Heq. injection Heq as ->.
           destruct Hst as [Hst|Hst]; [tauto | contradiction].
        -- simpl in Heq. injection Heq as <- ->. discriminate.
    + rewrite andb_true_iff, IH. split.
      * intros [Hp (a & d & -> & Ha & _ & Hd)].
        exists (x :: a), d. unfold allPlain in *. simpl. rewrite Hp, Ha.
        repeat split; try assumption. right. discriminate.
      * intros (a & d & Heq & Ha & Hst & Hd). destruct a as [|y a].
        -- simpl in Heq. injection Heq as -> _. contradiction.
        -- simpl in Heq. injection Heq as -> ->. unfold allPlain in Ha. simpl in Ha.
           apply andb_true_iff in Ha as [Hy Ha]. split; [exact Hy|].
           exists a, d. repeat split; try assumption. left. reflexivity.
Qed.

(** X20.  What the email pattern of the routes accepts, read on the UTF-16
    code units of the tested string: exactly the sequences
    [local @ domain . last] whose three parts are non-empty and hold neither
    [@] nor a white-space code unit of ECMAScript, the no-break space and the
    other Unicode blanks included (dots are allowed in each part).  So an
    accepted address has one [@], no white space, and a dot after the [@]
    that is neither the first nor the last character of what follows it. *)
Theorem emailRegex_language :
  (forall s,
     emailRegex s = true <->
     exists local domain last,
       s = local ++ atSign :: domain ++ fullStop :: last /\
       local <> [] /\ domain <> [] /\ last <> [] /\
       allPlain local = true /\ allPlain domain = true /\ allPlain last = true)
  /\
  (forall c,
     plain c = true <->
     c <> 64 /\ ~ (9 <= c <= 13) /\ c <> 32 /\ c <> 160 /\ c <> 5760 /\
     ~ (8192 <= c <= 8202) /\ c <> 8232 /\ c <> 8233 /\ c <> 8239 /\
     c <> 8287 /\ c <> 12288 /\ c <> 65279)%N
  /\
  emailRegex (codeUnits "dan@corp.com") = true /\
  emailRegex (codeUnits "first.last@mail.corp.com") = true /\
  emailRegex (codeUnits "dan@corp") = false /\
  emailRegex (codeUnits "dan smith@corp.com") = false /\
  emailRegex (codeUnits "dan@@corp.com") = false /\
  emailRegex [97; 160; 98; 64; 99; 46; 100; 101]%N = false /\
  emailRegex [97; 64; 99; 12288; 46; 100; 101]%N = false /\
  emailRegex [97; 64; 99; 46; 100; 65279]%N = false.
Proof.
  split.
  { intros s. unfold emailRegex. rewrite localToEnd_spec. split.
    - intros (a & d & -> & Ha & Hst & Hd).
      apply domainToEnd_spec in Hd as (b & c & -> & Hb & Hc & Hne & Hst').
      exists a, b, c. repeat split; try assumption.
      + destruct Hst as [Hst|Hst]; [discriminate | exact Hst].
      + destruct Hst' as [Hst'|Hst']; [discriminate | exact Hst'].
    - intros (a & b & c & -> & Ha0 & Hb0 & Hc0 & Ha & Hb & Hc).
      exists a, (b ++ fullStop :: c).
      repeat split; try assumption; [right; exact Ha0|].
      apply domainToEnd_spec. exists b, c. repeat split; try assumption. right. exact Hb0. }
  split.
  { intros c. unfold plain, isSpace, atSign.
    rewrite andb_true_iff, !negb_true_iff, !orb_false_iff, !andb_false_iff,
      !N.eqb_neq, !N.leb_gt. lia. }
  repeat split; reflexivity.
Qed.

Lemma prefix_append (p h : string) :
  String.prefix p h = true <-> exists t, h = String.append p t.
Proof.
  revert h. induction p as [|a p IH]; intros h; simpl.
  - split; [intros _; exists h; reflexivity | destruct h; reflexivity].
  - destruct h as [|b h]; simpl.
    + split; [discriminate | intros (t & Ht); discriminate].
    + destruct (ascii_dec a b) as [->|Hne].
      * rewrite IH. split; intros (t & Ht); exists t; congruence.
      * split; [discriminate | intros (t & Ht); congruence].
Qed.

Lemma untilSpace_spec (t : string) :
  forall u, noSpace u = true ->
    (adminRoutes.untilSpace t = u <->
     t = u \/ exists r, t = String.append u (String " " r)).
Proof.
  induction t as [|c t IH]; intros u Hu; simpl.
  - split.
    + intros <-. left. reflexivity.
    + intros [<-|(r & Hr)]; [reflexivity | destruct u; discriminate].
  - destruct (Ascii.eqb_spec c " ") as [->|Hc].
    + split.
      * intros <-. right. exists t. reflexivity.
      * intros [<-|(r & Hr)]; [simpl in Hu; discriminate|].
        destruct u as [|y u]; [reflexivity|].
        simpl in Hr. injection Hr as <- _. simpl in Hu. discriminate.
    + destruct u as [|y u].
      * split; [discriminate|].
        intros [H|(r & Hr)]; [discriminate|]. simpl in Hr. injection Hr as -> _. contradiction.
      * simpl in Hu. apply andb_true_iff in Hu as [_ Hu]. split.
        -- intros [= <- Ht]. apply (IH u Hu) in Ht as [->|(r & ->)];
             [left; reflexivity | right; exists r; reflexivity].
        -- intros [Heq|(r & Heq)]; simpl in Heq; injection Heq as Hy Ht; subst y;
             f_equal; apply (IH u Hu); [left | right; exists r]; exact Ht.
Qed.

(** X21.  The admin gate of the admin routes reads x-admin-auth, or
    authorization when that one is absent or empty, and lets the request
    through exactly when the header is the token itself, or "Bearer "
    followed by the token and then either nothing or a space and anything. *)
Theorem authenticateAdmin_accepts (xAdminAuth authorization : option string) :
  adminRoutes.authenticateAdmin xAdminAuth authorization = true <->
  exists h,
    (if truthyS xAdminAuth then xAdminAuth else authorization) = Some h /\
    (h = "simulated_admin_token" \/
     h = "Bearer simulated_admin_token" \/
     exists rest, h = String.append "Bearer simulated_admin_token " rest).
Proof.
  unfold adminRoutes.authenticateAdmin. cbv zeta.
  destruct (if truthyS xAdminAuth then xAdminAuth else authorization) as [h|];
    [|split; [discriminate | intros (h & [=] & _)]].
  rewrite orb_true_iff, !andb_true_iff. split.
  - intros [Htok|[[_ Hpre] Hsec]].
    + apply String.eqb_eq in Htok. subst h.
      exists "simulated_admin_token". split; [reflexivity | left; reflexivity].
    + apply prefix_append in Hpre as (t & ->). simpl in Hsec. apply String.eqb_eq in Hsec.
      apply untilSpace_spec in Hsec as [->|(r & ->)]; [| |reflexivity].
      * eexists. split; [reflexivity | right; left; reflexivity].
      * eexists. split; [reflexivity | right; right; exists r; reflexivity].
  - intros (h' & [= <-] & [->|[->|(rest & ->)]]).
    + left. reflexivity.
    + right. repeat split.
    + right. split; [split; [reflexivity | apply prefix_append; eexists; reflexivity]|].
      reflexivity.
Qed.

(** * Properties of the room controller *)

Lemma selected_room_rows (st : Store) (roomId : Z) (image : option string)
    (more : list (option string)) :
  roomController.selectImage roomId st = image :: more ->
  (List.length (filter (fun r => Z.eqb (Room.id r) roomId) (rooms st)) =? 0)%nat = false.
Proof.
  unfold roomController.selectImage.
  destruct (filter _ (rooms st)); [discriminate | reflexivity].
Qed.

(** X22.  createRoom.  A request without a name (absent or empty) or without
    a capacity is answered 400 before any driver call, and the file it
    uploaded, if any, is unlinked.  With both fields and the store answering,
    one room is appended under the identity the store assigns, with the
    upload's path as its image (none without a file), and the reply is 201
    with that identity.  When the INSERT is rejected the reply is 500 with the
    driver's message, nothing is written and the upload is unlinked. *)
Theorem createRoom_outcomes env st b file :
  let uploaded := match file with
                  | Some f => [Unlink (roomController.path f)]
                  | None => []
                  end in
  (truthyS (roomController.name b) = false \/ roomController.capacity b = None ->
   run (roomController.createRoom env b file) st =
     (Val (roomController.reply 400 "Room name and capacity are required."),
      {| db := st; snapshot := None; rolledBack := false; calls := 0; log := uploaded |}))
  /\
  (forall roomName roomCapacity,
     roomController.name b = Some roomName -> roomName <> "" ->
     roomController.capacity b = Some roomCapacity ->
     dbPool env = true ->
     (dbFault env 0 = None ->
      run (roomController.createRoom env b file) st =
        (Val {| code := 201;
                body := [("message", JStr "Room created successfully.");
                         ("roomId", JNum (scopeIdentity env));
                         ("imagePath",
                          roomController.jsonImage (roomController.uploadPath file))] |},
         {| db := withRooms st
                    (rooms st ++
                     [Room.mk (scopeIdentity env) roomName roomCapacity
                        (orNullS (roomController.features b))
                        (roomController.uploadPath file)]);
            snapshot := None; rolledBack := false; calls := 1;
            log := [Sql InsertRoom OnPool] |}))
     /\
     (forall msg,
        dbFault env 0 = Some msg ->
        run (roomController.createRoom env b file) st =
          (Val {| code := 500;
                  body := [("message", JStr "Failed to create room.");
                           ("error", JStr msg)] |},
           {| db := st; snapshot := None; rolledBack := false; calls := 1;
              log := uploaded |}))).
Proof.
  intros uploaded. subst uploaded. split.
  - intros Hmissing. unfold run, roomController.createRoom, truthyS in *.
    destruct (roomController.name b) as [n|];
      [destruct (roomController.capacity b) as [c|]|].
    + destruct Hmissing as [Hn|Hc]; [|discriminate].
      apply negb_false_iff in Hn. rewrite Hn.
      unfold bind, ret, roomController.unlinkUpload, initWorld, emit.
      destruct file; reflexivity.
    + unfold bind, ret, roomController.unlinkUpload, initWorld, emit.
      destruct file; reflexivity.
    + unfold bind, ret, roomController.unlinkUpload, initWorld, emit.
      destruct file; reflexivity.
  - intros roomName roomCapacity Hn Hn0 Hc Hpool. apply String.eqb_neq in Hn0.
    unfold run, roomController.createRoom. rewrite Hn, Hc, Hn0.
    unfold_monad. unfold roomController.insertRoom, roomController.unlinkUpload.
    rewrite Hpool. simpl. split.
    + intros Hok. rewrite Hok. reflexivity.
    + intros msg Hmsg. rewrite Hmsg. simpl. destruct file; reflexivity.
Qed.

Lemma createRoom_outcomes_witness :
  run (roomController.createRoom sampleEnv (roomController.mkBody (Some "") (Some 8) None)
         (Some (roomController.mkFile "image-1.png" "public/uploads/image-1.png")))
      sampleStore =
    (Val (roomController.reply 400 "Room name and capacity are required."),
     {| db := sampleStore; snapshot := None; rolledBack := false; calls := 0;
        log := [Unlink "public/uploads/image-1.png"] |}) /\
  rooms (storeAfter (run (roomController.createRoom sampleEnv
                            (roomController.mkBody (Some "Iris") (Some 8) (Some "tv, board"))
                            (Some (roomController.mkFile "image-1.png"
                                     "public/uploads/image-1.png")))
                       sampleStore)) =
    [Room.mk 1 "Orchid" 10 None None; Room.mk 2 "Lotus" 4 None None;
     Room.mk 3 "Iris" 8 (Some "tv, board") (Some "/uploads/image-1.png")].
Proof.
  split.
  - destruct (createRoom_outcomes sampleEnv sampleStore
                (roomController.mkBody (Some "") (Some 8) None)
                (Some (roomController.mkFile "image-1.png" "public/uploads/image-1.png")))
      as [Hbad _].
    apply Hbad. left. reflexivity.
  - destruct (createRoom_outcomes sampleEnv sampleStore
                (roomController.mkBody (Some "Iris") (Some 8) (Some "tv, board"))
                (Some (roomController.mkFile "image-1.png" "public/uploads/image-1.png")))
      as [_ Hgood].
    destruct (Hgood "Iris" 8) as [Hok _]; [reflexivity | discriminate | reflexivity
                                          | reflexivity |].
    rewrite Hok; reflexivity.
Defined.

(** X23.  updateRoom on a room that exists, with the store answering: name,
    capacity and features of every row with the identifier are replaced;
    without an uploaded file the stored image is kept, and nothing is
    unlinked; with an uploaded file the image becomes the upload's path, and
    the previous image file is unlinked, after COMMIT, exactly when it was an
    upload.  Rows of other rooms and the other tables stay as they were. *)
Theorem updateRoom_image_handling env st roomId b file roomName roomCapacity old more :
  roomController.name b = Some roomName -> roomName <> "" ->
  roomController.capacity b = Some roomCapacity ->
  nominal env ->
  roomController.selectImage roomId st = old :: more ->
  let image := match file with
               | Some f => Some (String.append "/uploads/" (roomController.filename f))
               | None => orNullS old
               end in
  let cleanup := match file, old with
                 | Some _, Some p =>
                     if roomController.isUpload old
                     then [Unlink (roomController.publicPath p)] else []
                 | _, _ => []
                 end in
  run (roomController.updateRoom env roomId b file) st =
    (Val {| code := 200;
            body := [("message", JStr "Room updated successfully.");
                     ("imagePath", roomController.jsonImage image)] |},
     {| db := withRooms st
                (map (fun r => if Room.id r =? roomId
                               then Room.mk (Room.id r) roomName roomCapacity
                                      (orNullS (roomController.features b)) image
                               else r)
                     (rooms st));
        snapshot := None; rolledBack := false; calls := 4;
        log := [TxBegin; Sql SelectRoomImage OnTransaction; Sql UpdateRoom OnTransaction;
                TxCommit] ++ cleanup |}).
Proof.
  intros Hn Hn0 Hc Hnom Hsel image cleanup. subst image cleanup.
  apply String.eqb_neq in Hn0.
  pose proof (selected_room_rows st roomId old more Hsel) as Haff.
  unfold run, roomController.updateRoom. rewrite Hn, Hc, Hn0.
  use_nominal Hnom. rewrite Hsel. simpl. rewrite Hfault.
  unfold roomController.updateRoomRow. simpl. rewrite Haff, Hfault. simpl.
  unfold roomController.uploadPath, roomController.unlink, ret, emit.
  destruct file as [f|]; simpl.
  - destruct old as [p|]; simpl; [|reflexivity].
    unfold roomController.isUpload. destruct (negb _ && _); reflexivity.
  - reflexivity.
Qed.

Lemma updateRoom_image_handling_witness :
  let st := withRooms sampleStore
              [Room.mk 1 "Orchid" 10 None (Some "/uploads/old.png");
               Room.mk 2 "Lotus" 4 None None] in
  rooms (storeAfter (run (roomController.updateRoom sampleEnv 1
                            (roomController.mkBody (Some "Orchid") (Some 12) None) None) st)) =
    [Room.mk 1 "Orchid" 12 None (Some "/uploads/old.png"); Room.mk 2 "Lotus" 4 None None] /\
  traceOf (run (roomController.updateRoom sampleEnv 1
                  (roomController.mkBody (Some "Orchid") (Some 12) None)
                  (Some (roomController.mkFile "new.png" "public/uploads/new.png"))) st) =
    [TxBegin; Sql SelectRoomImage OnTransaction; Sql UpdateRoom OnTransaction; TxCommit;
     Unlink "public/uploads/old.png"].
Proof.
  intros st. split.
  - rewrite (updateRoom_image_handling sampleEnv st 1
               (roomController.mkBody (Some "Orchid") (Some 12) None) None
               "Orchid" 12 (Some "/uploads/old.png") []);
      [reflexivity | reflexivity | discriminate | reflexivity | sample_nominal | reflexivity].
  - rewrite (updateRoom_image_handling sampleEnv st 1
               (roomController.mkBody (Some "Orchid") (Some 12) None)
               (Some (roomController.mkFile "new.png" "public/uploads/new.png"))
               "Orchid" 12 (Some "/uploads/old.png") []);
      [reflexivity | reflexivity | discriminate | reflexivity | sample_nominal | reflexivity].
Defined.

(** X24.  deleteRoom, with the store answering.  For a room that exists,
    every row of rooms with the identifier is deleted and the others are
    kept, the bookings table is not touched (bookings of the deleted room
    stay), the image file is unlinked exactly when it was an upload, and the
    reply is 200.  For an identifier no room carries the reply is 404 and
    nothing changes. *)
Theorem deleteRoom_outcomes env st roomId :
  nominal env ->
  (forall image more,
     roomController.selectImage roomId st = image :: more ->
     run (roomController.deleteRoom env roomId) st =
       (Val (roomController.reply 200 "Room deleted successfully."),
        {| db := withRooms st (filter (fun r => negb (Room.id r =? roomId)) (rooms st));
           snapshot := None; rolledBack := false; calls := 2;
           log := [Sql SelectRoomImage OnPool; Sql DeleteRoom OnPool]
                  ++ match image with
                     | Some p => if roomController.isUpload image
                                 then [Unlink (roomController.publicPath p)] else []
                     | None => []
                     end |}) /\
     (forall r, In r (rooms (storeAfter (run (roomController.deleteRoom env roomId) st))) <->
                In r (rooms st) /\ Room.id r <> roomId) /\
     room_bookings (storeAfter (run (roomController.deleteRoom env roomId) st)) =
       room_bookings st)
  /\
  ((forall r, In r (rooms st) -> Room.id r <> roomId) ->
   run (roomController.deleteRoom env roomId) st =
     (Val (roomController.reply 404 "Room not found."),
      {| db := st; snapshot := None; rolledBack := false; calls := 1;
         log := [Sql SelectRoomImage OnPool] |})).
Proof.
  intros Hnom. split.
  - intros image more Hsel.
    pose proof (selected_room_rows st roomId image more Hsel) as Haff.
    assert (Hrun : run (roomController.deleteRoom env roomId) st =
              (Val (roomController.reply 200 "Room deleted successfully."),
               {| db := withRooms st (filter (fun r => negb (Room.id r =? roomId)) (rooms st));
                  snapshot := None; rolledBack := false; calls := 2;
                  log := [Sql SelectRoomImage OnPool; Sql DeleteRoom OnPool]
                         ++ match image with
                            | Some p => if roomController.isUpload image
                                        then [Unlink (roomController.publicPath p)] else []
                            | None => []
                            end |})).
    { unfold run, roomController.deleteRoom.
      use_nominal Hnom. rewrite Hsel. simpl. rewrite Hfault.
      unfold roomController.deleteRoomRow. simpl. rewrite Haff. simpl.
      unfold roomController.unlink, ret, emit.
      destruct image as [p|]; simpl; [|reflexivity].
      unfold roomController.isUpload. destruct (negb _ && _); reflexivity. }
    rewrite Hrun. split; [reflexivity|]. split; [|reflexivity].
    intros r. unfold storeAfter, committed. simpl.
    rewrite filter_In, negb_true_iff, Z.eqb_neq. reflexivity.
  - intros Hnone.
    assert (Hsel : roomController.selectImage roomId st = []).
    { unfold roomController.selectImage. rewrite filter_none; [reflexivity|].
      intros r Hr. apply Z.eqb_neq. exact (Hnone r Hr). }
    unfold run, roomController.deleteRoom.
    use_nominal Hnom. rewrite Hsel. reflexivity.
Qed.

Lemma deleteRoom_outcomes_witness :
  rooms (storeAfter (run (roomController.deleteRoom sampleEnv 1) sampleStore)) =
    [Room.mk 2 "Lotus" 4 None None] /\
  room_bookings (storeAfter (run (roomController.deleteRoom sampleEnv 1) sampleStore)) =
    room_bookings sampleStore /\
  replyOf (run (roomController.deleteRoom sampleEnv 9) sampleStore) =
    Val (roomController.reply 404 "Room not found.").
Proof.
  destruct (deleteRoom_outcomes sampleEnv sampleStore 1) as [Hfound _]; [sample_nominal|].
  destruct (Hfound None []) as (Hrun & _ & Hbookings); [reflexivity|].
  destruct (deleteRoom_outcomes sampleEnv sampleStore 9) as [_ Hnone]; [sample_nominal|].
  split; [rewrite Hrun; reflexivity|]. split; [exact Hbookings|].
  rewrite Hnone; [reflexivity|].
  intros r Hr. simpl in Hr. destruct Hr as [<-|[<-|[]]]; discriminate.
Defined.

(** * The listing by organizer *)

Lemma insertByStart_perm (r : Booking.t) (l : list Booking.t) :
  Permutation (bookingController.insertByStart r l) (r :: l).
Proof.
  induction l as [|x l IH]; simpl; [apply Permutation_refl|].
  destruct (Booking.start_datetime r <? Booking.start_datetime x).
  - apply Permutation_refl.
  - apply perm_trans with (x :: r :: l); [apply perm_skip; exact IH | apply perm_swap].
Qed.

Lemma orderByStart_perm (l : list Booking.t) :
  Permutation (bookingController.orderByStart l) l.
Proof.
  induction l as [|x l IH]; simpl; [apply perm_nil|].
  apply perm_trans with (x :: bookingController.orderByStart l);
    [apply insertByStart_perm | apply perm_skip; exact IH].
Qed.

Lemma insertByStart_sorted (r : Booking.t) (l : list Booking.t) :
  StronglySorted (fun a b => Booking.start_datetime a <= Booking.start_datetime b) l ->
  StronglySorted (fun a b => Booking.start_datetime a <= Booking.start_datetime b)
    (bookingController.insertByStart r l).
Proof.
  induction l as [|x l IH]; intros Hs; simpl.
  - constructor; [constructor | constructor].
  - inversion Hs as [|x' l' Hl Hx]; subst.
    destruct (Booking.start_datetime r <? Booking.start_datetime x) eqn:Hlt.
    + apply Z.ltb_lt in Hlt. constructor; [exact Hs|].
      constructor; [lia|]. eapply Forall_impl; [|exact Hx]. simpl. intros a Ha. lia.
    + apply Z.ltb_ge in Hlt. constructor; [exact (IH Hl)|].
      apply Forall_forall. intros a Ha.
      apply (Permutation_in _ (insertByStart_perm r l)) in Ha as [<-|Ha]; [exact Hlt|].
      rewrite Forall_forall in Hx. exact (Hx a Ha).
Qed.

Lemma orderByStart_sorted (l : list Booking.t) :
  StronglySorted (fun a b => Booking.start_datetime a <= Booking.start_datetime b)
    (bookingController.orderByStart l).
Proof.
  induction l as [|x l IH]; simpl; [constructor | apply insertByStart_sorted; exact IH].
Qed.

(** X25.  getBookingsByEmail, with the store answering, lists exactly the
    confirmed bookings of the organizer, each as often as the table holds it
    and none of the cancelled ones, by ascending start; count is their
    number; the store is not changed. *)
Theorem getBookingsByEmail_lists_confirmed_by_start env st email :
  email <> "" ->
  nominal env ->
  exists rows,
    run (bookingController.getBookingsByEmail env email) st =
      (Val {| code := 200;
              body := [("success", JBool true);
                       ("data", JBookings rows);
                       ("count", JNum (Z.of_nat (List.length rows)))] |},
       {| db := st; snapshot := None; rolledBack := false; calls := 1;
          log := [Sql SelectBookingsByEmail OnPool] |}) /\
    Permutation rows
      (filter (fun r => String.eqb (Booking.organizer_email r) email
                        && isConfirmed (Booking.status r))
              (room_bookings st)) /\
    StronglySorted (fun a b => Booking.start_datetime a <= Booking.start_datetime b) rows /\
    (forall r, In r rows <->
               In r (room_bookings st) /\ Booking.organizer_email r = email /\
               Booking.status r = confirmed).
Proof.
  intros Hne Hnom. apply String.eqb_neq in Hne.
  exists (bookingController.selectByEmail email st).
  split; [|split; [|split]].
  - unfold run, bookingController.getBookingsByEmail. rewrite Hne.
    use_nominal Hnom. reflexivity.
  - apply orderByStart_perm.
  - apply orderByStart_sorted.
  - intros r. unfold bookingController.selectByEmail. split.
    + intros Hr. apply (Permutation_in _ (orderByStart_perm _)) in Hr.
      apply filter_In in Hr as [Hr Hp]. apply andb_true_iff in Hp as [He Hs].
      split; [exact Hr|]. split; [now apply String.eqb_eq | now apply isConfirmed_spec].
    + intros (Hr & He & Hs).
      apply (Permutation_in _ (Permutation_sym (orderByStart_perm _))).
      apply filter_In. split; [exact Hr|].
      apply String.eqb_eq in He. apply isConfirmed_spec in Hs. rewrite He, Hs. reflexivity.
Qed.

Lemma getBookingsByEmail_lists_confirmed_by_start_witness :
  replyOf (run (bookingController.getBookingsByEmail sampleEnv "cyd@corp.com") sampleStore) =
    Val {| code := 200;
           body := [("success", JBool true); ("data", JBookings []); ("count", JNum 0)] |} /\
  exists rows,
    replyOf (run (bookingController.getBookingsByEmail sampleEnv "bob@corp.com") sampleStore) =
      Val {| code := 200;
             body := [("success", JBool true);
                      ("data", JBookings rows);
                      ("count", JNum (Z.of_nat (List.length rows)))] |} /\
    forall r, In r rows <->
              In r (room_bookings sampleStore) /\ Booking.organizer_email r = "bob@corp.com" /\
              Booking.status r = confirmed.
Proof.
  split; [reflexivity|].
  destruct (getBookingsByEmail_lists_confirmed_by_start sampleEnv sampleStore "bob@corp.com")
    as (rows & Hrun & _ & _ & Hrows); [discriminate | sample_nominal |].
  exists rows. split; [rewrite Hrun; reflexivity | exact Hrows].
Defined.
